(** * Invoice extraction pipeline: router.py, extractor.py and evaluator.py

    A shallow embedding of the three scripts that sort invoices by
    seller, turn model output into JSON documents and report rows, and
    the properties of their contract layer: tolerant JSON recovery, the
    per-file disposition of the router and of the extractor, and the
    report rows of the evaluator.

    Python values are modelled as follows.
    - A [str] is a sequence of Unicode code points ([pystr], a list of [N]).
    - The objects returned by [json.loads] are the inductive type [value];
      a [dict] is an association list in insertion order.
    - A [float] is kept as the decimal number its literal denotes.
    - [print], file writes, file moves and calls of the model are events of
      a trace; the model and the file system are a record of functions
      (the "runtime") over which every statement is quantified.
    - Paths are those of [posixpath].

    The scripts are followed twice. The modules [Extractor], [Evaluator]
    and [Router] follow them while no unhandled exception occurs: the
    calls of the operating system succeed and [json.loads] stays within
    the limits of the interpreter. The module [Raising] follows
    [json.loads], the extractor and the router with the exceptions that
    leave their functions; it agrees with the first part when nothing
    fails. *)

From Stdlib Require Import List NArith ZArith Bool String Ascii Lia.
From Stdlib Require Import Permutation Sorted.
From Stdlib Require DecimalString.
Import ListNotations.

(* ================================================================== *)
(** ** Python strings *)
(* ================================================================== *)

Module PyStr.

Definition char := N.
Definition pystr := list char.

(** A literal. Every literal of the two scripts that is written this way
    is plain ASCII. *)
Definition py (s : string) : pystr := map N_of_ascii (list_ascii_of_string s).

(** A literal written with ['] where the Python text has a double quote. *)
Definition q (s : string) : pystr :=
  map (fun c => if N.eqb c 39 then 34%N else c) (py s).

Definition nl : pystr := [10%N].

Fixpoint str_eqb (a b : pystr) : bool :=
  match a, b with
  | [], [] => true
  | x :: a', y :: b' => N.eqb x y && str_eqb a' b'
  | _, _ => false
  end.

(** [s.startswith(p)] *)
Fixpoint startswith (s p : pystr) : bool :=
  match p, s with
  | [], _ => true
  | y :: p', x :: s' => N.eqb x y && startswith s' p'
  | _ :: _, [] => false
  end.

(** [s.endswith(p)] *)
Definition endswith (s p : pystr) : bool :=
  (List.length p <=? List.length s)%nat && str_eqb (skipn (List.length s - List.length p) s) p.

(** [s.removeprefix(p)] *)
Definition removeprefix (p s : pystr) : pystr :=
  if startswith s p then skipn (List.length p) s else s.

(** [s.removesuffix(p)]: nothing is removed when [p] is empty. *)
Definition removesuffix (p s : pystr) : pystr :=
  match p with
  | [] => s
  | _ => if endswith s p then firstn (List.length s - List.length p) s else s
  end.

(** [c.isspace()]: the code points Python treats as whitespace. *)
Definition isspace (c : char) : bool :=
  ((9 <=? c) && (c <=? 13) || (28 <=? c) && (c <=? 32)
   || (c =? 133) || (c =? 160) || (c =? 5760)
   || (8192 <=? c) && (c <=? 8202)
   || (c =? 8232) || (c =? 8233) || (c =? 8239) || (c =? 8287)
   || (c =? 12288))%N.

Fixpoint lstrip (s : pystr) : pystr :=
  match s with
  | c :: s' => if isspace c then lstrip s' else s
  | [] => []
  end.

Fixpoint rstrip (s : pystr) : pystr :=
  match s with
  | [] => []
  | c :: s' =>
      match rstrip s' with
      | [] => if isspace c then [] else [c]
      | r => c :: r
      end
  end.

(** [s.strip()] *)
Definition strip (s : pystr) : pystr := rstrip (lstrip s).

(** [s.lower()] on the ASCII letters. Outside ASCII Python consults the
    Unicode case tables; those code points are left as they are here. The
    only code points outside ASCII whose lower case contains an ASCII
    letter give [k] and [i], which occur in no extension the extractor
    tests for, so every comparison of a lowered extension made by the
    scripts has the outcome it has in Python. *)
Definition lower_char (c : char) : char :=
  if ((65 <=? c) && (c <=? 90))%N then (c + 32)%N else c.

Definition lower (s : pystr) : pystr := map lower_char s.

(** [s.rfind(c)] for a one-character [c], counting from index [i]. *)
Fixpoint rfind_from (i : Z) (c : char) (s : pystr) : Z :=
  match s with
  | [] => (-1)%Z
  | x :: s' =>
      let r := rfind_from (i + 1) c s' in
      if (0 <=? r)%Z then r else if N.eqb x c then i else (-1)%Z
  end.

Definition rfind (c : char) (s : pystr) : Z := rfind_from 0 c s.

Definition slash : char := 47%N.
Definition dot : char := 46%N.

(** [os.path.splitext] (posixpath): the extension starts at the last dot
    of the last path component, unless that component has only leading
    dots before it. *)
Definition splitext (p : pystr) : pystr * pystr :=
  let sepIndex := rfind slash p in
  let dotIndex := rfind dot p in
  if (sepIndex <? dotIndex)%Z then
    let filename := skipn (Z.to_nat (sepIndex + 1)) (firstn (Z.to_nat dotIndex) p) in
    if existsb (fun c => negb (N.eqb c dot)) filename
    then (firstn (Z.to_nat dotIndex) p, skipn (Z.to_nat dotIndex) p)
    else (p, [])
  else (p, []).

(** [os.path.join(a, b)] (posixpath) *)
Definition join (a b : pystr) : pystr :=
  if startswith b [slash] then b
  else match a with
       | [] => b
       | _ => if endswith a [slash] then a ++ b else a ++ slash :: b
       end.

(** [sorted] on a list of strings: insertion into code-point order. *)
Fixpoint str_leb (a b : pystr) : bool :=
  match a, b with
  | [], _ => true
  | _ :: _, [] => false
  | x :: a', y :: b' => (x <? y)%N || (N.eqb x y && str_leb a' b')
  end.

Fixpoint insert_sorted (x : pystr) (l : list pystr) : list pystr :=
  match l with
  | [] => [x]
  | y :: l' => if str_leb x y then x :: l else y :: insert_sorted x l'
  end.

Definition sorted (l : list pystr) : list pystr :=
  fold_right insert_sorted [] l.

End PyStr.
Export PyStr.

(* ================================================================== *)
(** ** Python values and [json.loads] *)
(* ================================================================== *)

(** [json.loads] belongs to the standard library of Python. It is
    modelled by what it accepts and what it builds: a lexer that reads the
    text one character at a time, and a recogniser with a stack of open
    containers that consumes the tokens. Both are total, and both reject
    what the decoder rejects (a trailing comma, a control character in a
    string, a number with a superfluous zero, text after the value). *)
Module Json.

(** A [float] as the number its literal denotes: [m * 10^e] with a sign,
    or one of the three constants the decoder accepts. Python rounds it to
    binary64; the model keeps the decimal. *)
Inductive pyfloat :=
| Dec (neg : bool) (m : N) (e : Z)
| NaN
| Inf (neg : bool).

(** What a number or a named constant of a JSON text denotes. *)
Inductive atom :=
| ANone
| ABool (b : bool)
| AInt (z : Z)
| AFloat (f : pyfloat).

(** The objects [json.loads] builds. A [dict] keeps its keys in insertion
    order. *)
#[warnings="-register-all"]
Inductive value :=
| VNone
| VBool (b : bool)
| VInt (z : Z)
| VFloat (f : pyfloat)
| VStr (s : pystr)
| VList (l : list value)
| VDict (d : list (pystr * value)).

Definition atom_value (a : atom) : value :=
  match a with
  | ANone => VNone
  | ABool b => VBool b
  | AInt z => VInt z
  | AFloat f => VFloat f
  end.

(** [d.get(k)]: [None] of Rocq when the key is absent. *)
Fixpoint dict_lookup (d : list (pystr * value)) (k : pystr) : option value :=
  match d with
  | [] => None
  | (k', v) :: d' => if str_eqb k' k then Some v else dict_lookup d' k
  end.

(** [d[k] = v]: an existing key keeps its place. *)
Fixpoint dict_set (k : pystr) (v : value) (d : list (pystr * value))
  : list (pystr * value) :=
  match d with
  | [] => [(k, v)]
  | (k', v') :: d' =>
      if str_eqb k' k then (k', v) :: d' else (k', v') :: dict_set k v d'
  end.

(** Whether a float is different from [0.0] once rounded: a positive
    decimal rounds to zero exactly when it is at most [2^-1075]. *)
Definition float_nonzero (f : pyfloat) : bool :=
  match f with
  | Dec _ m e =>
      if (m =? 0)%N then false
      else if (0 <=? e)%Z then true
      else (10 ^ (- e) <? Z.of_N m * 2 ^ 1075)%Z
  | NaN | Inf _ => true
  end.

(** The truth value of an object, as [if x:] and [not x] test it. *)
Definition truthy (v : value) : bool :=
  match v with
  | VNone => false
  | VBool b => b
  | VInt z => negb (z =? 0)%Z
  | VFloat f => float_nonzero f
  | VStr s => match s with [] => false | _ => true end
  | VList l => match l with [] => false | _ => true end
  | VDict d => match d with [] => false | _ => true end
  end.

(** *** Lexical level *)

Inductive token :=
| TLBrace | TRBrace | TLBracket | TRBracket | TComma | TColon
| TString (s : pystr)
| TConst (a : atom).

(** The four whitespace characters of JSON. *)
Definition is_json_ws (c : char) : bool :=
  ((c =? 32) || (c =? 9) || (c =? 10) || (c =? 13))%N.

Definition is_digit (c : char) : bool := ((48 <=? c) && (c <=? 57))%N.

(** The characters of numbers and of the named constants. A value is
    always followed by whitespace, a comma, a closing bracket or the end
    of the text, so a maximal run of these characters must be one number
    or one constant. *)
Definition is_word_char (c : char) : bool :=
  (is_digit c || (65 <=? c) && (c <=? 90) || (97 <=? c) && (c <=? 122)
   || (c =? 43) || (c =? 45) || (c =? 46))%N.

Definition hex_digit (c : char) : option N :=
  if is_digit c then Some (c - 48)%N
  else if ((97 <=? c) && (c <=? 102))%N then Some (c - 87)%N
  else if ((65 <=? c) && (c <=? 70))%N then Some (c - 55)%N
  else None.

(** The one-character escapes of a string literal. *)
Definition simple_escape (c : char) : option char :=
  if (c =? 34)%N then Some 34%N
  else if (c =? 92)%N then Some 92%N
  else if (c =? 47)%N then Some 47%N
  else if (c =? 98)%N then Some 8%N
  else if (c =? 102)%N then Some 12%N
  else if (c =? 110)%N then Some 10%N
  else if (c =? 114)%N then Some 13%N
  else if (c =? 116)%N then Some 9%N
  else None.

Fixpoint span_digits (s : pystr) : pystr * pystr :=
  match s with
  | c :: s' =>
      if is_digit c then let (d, r) := span_digits s' in (c :: d, r)
      else ([], s)
  | [] => ([], [])
  end.

Definition digits_value (d : pystr) : N :=
  fold_left (fun a c => (10 * a + (c - 48))%N) d 0%N.

(** The exponent part that may end a number: [e] or [E], an optional
    sign, one digit or more. [Some None] when there is no exponent. *)
Definition exponent (s : pystr) : option (option Z) :=
  match s with
  | [] => Some None
  | c :: r =>
      if ((c =? 101) || (c =? 69))%N then
        let '(neg, r') :=
          match r with
          | x :: r'' => if (x =? 45)%N then (true, r'')
                        else if (x =? 43)%N then (false, r'')
                        else (false, r)
          | [] => (false, r)
          end in
        match span_digits r' with
        | ((_ :: _) as d, []) =>
            let n := Z.of_N (digits_value d) in
            Some (Some (if neg then (- n)%Z else n))
        | _ => None
        end
      else None
  end.

(** A whole word as a number: an optional minus sign, an integer part
    without a superfluous leading zero, an optional fraction (a dot and
    one digit or more), an optional exponent. It is an [int] when it has
    neither fraction nor exponent. *)
Definition number (w : pystr) : option atom :=
  let '(neg, r) :=
    match w with
    | c :: r => if (c =? 45)%N then (true, r) else (false, w)
    | [] => (false, w)
    end in
  match span_digits r with
  | ([], _) => None
  | ((c :: ip') as ip, r1) =>
      if (c =? 48)%N && negb (match ip' with [] => true | _ => false end)
      then None
      else
        match r1 with
        | [] =>
            let n := Z.of_N (digits_value ip) in
            Some (AInt (if neg then (- n)%Z else n))
        | x :: r2 =>
            if (x =? 46)%N then
              match span_digits r2 with
              | ([], _) => None
              | (fp, r3) =>
                  match exponent r3 with
                  | Some ex =>
                      let e := match ex with Some e => e | None => 0%Z end in
                      Some (AFloat (Dec neg (digits_value (ip ++ fp))
                                        (e - Z.of_nat (List.length fp))))
                  | None => None
                  end
              end
            else
              match exponent r1 with
              | Some (Some e) => Some (AFloat (Dec neg (digits_value ip) e))
              | _ => None
              end
        end
  end.

(** What a word stands for. *)
Definition constant (w : pystr) : option atom :=
  if str_eqb w (py "true") then Some (ABool true)
  else if str_eqb w (py "false") then Some (ABool false)
  else if str_eqb w (py "null") then Some ANone
  else if str_eqb w (py "NaN") then Some (AFloat NaN)
  else if str_eqb w (py "Infinity") then Some (AFloat (Inf false))
  else if str_eqb w (py "-Infinity") then Some (AFloat (Inf true))
  else number w.

(** The lexer reads one character at a time. In a string it keeps the
    characters read so far (latest first) and a high surrogate written as
    an escape and not yet paired. *)
Inductive lstate :=
| LTop
| LWord (acc : pystr)
| LStr (acc : pystr) (hi : option N)
| LEsc (acc : pystr) (hi : option N)
| LHex (acc : pystr) (hi : option N) (k : nat) (u : N).

Definition flush (hi : option N) (acc : pystr) : pystr :=
  match hi with Some h => h :: acc | None => acc end.

Definition is_high (u : N) : bool := ((55296 <=? u) && (u <=? 56319))%N.
Definition is_low (u : N) : bool := ((56320 <=? u) && (u <=? 57343))%N.

(** A [\uXXXX] escape has been read as [u]. *)
Definition after_escape (acc : pystr) (hi : option N) (u : N) : lstate :=
  match hi with
  | Some h =>
      if is_low u
      then LStr ((65536 + ((h - 55296) * 1024 + (u - 56320)))%N :: acc) None
      else if is_high u then LStr (h :: acc) (Some u)
      else LStr (u :: h :: acc) None
  | None => if is_high u then LStr acc (Some u) else LStr (u :: acc) None
  end.

Definition punctuation (c : char) : option token :=
  if (c =? 123)%N then Some TLBrace
  else if (c =? 125)%N then Some TRBrace
  else if (c =? 91)%N then Some TLBracket
  else if (c =? 93)%N then Some TRBracket
  else if (c =? 44)%N then Some TComma
  else if (c =? 58)%N then Some TColon
  else None.

Definition step_top (c : char) : option (list token * lstate) :=
  if is_json_ws c then Some ([], LTop)
  else
    match punctuation c with
    | Some t => Some ([t], LTop)
    | None =>
        if (c =? 34)%N then Some ([], LStr [] None)
        else if is_word_char c then Some ([], LWord [c])
        else None
    end.

Definition word_token (acc : pystr) : option token :=
  option_map TConst (constant (rev acc)).

Definition step (st : lstate) (c : char) : option (list token * lstate) :=
  match st with
  | LTop => step_top c
  | LWord acc =>
      if is_word_char c then Some ([], LWord (c :: acc))
      else
        match word_token acc, step_top c with
        | Some t, Some (ts, st') => Some (t :: ts, st')
        | _, _ => None
        end
  | LStr acc hi =>
      if (c =? 34)%N then Some ([TString (rev (flush hi acc))], LTop)
      else if (c =? 92)%N then Some ([], LEsc acc hi)
      else if (c <? 32)%N then None
      else Some ([], LStr (c :: flush hi acc) None)
  | LEsc acc hi =>
      if (c =? 117)%N then Some ([], LHex acc hi 3 0%N)
      else
        match simple_escape c with
        | Some e => Some ([], LStr (e :: flush hi acc) None)
        | None => None
        end
  | LHex acc hi k u =>
      match hex_digit c with
      | Some d =>
          let u' := (16 * u + d)%N in
          match k with
          | O => Some ([], after_escape acc hi u')
          | S k' => Some ([], LHex acc hi k' u')
          end
      | None => None
      end
  end.

Definition finish (st : lstate) : option (list token) :=
  match st with
  | LTop => Some []
  | LWord acc => option_map (fun t => [t]) (word_token acc)
  | _ => None
  end.

Fixpoint lex_from (st : lstate) (s : pystr) : option (list token) :=
  match s with
  | [] => finish st
  | c :: s' =>
      match step st c with
      | Some (ts, st') => option_map (app ts) (lex_from st' s')
      | None => None
      end
  end.

Definition lex (s : pystr) : option (list token) := lex_from LTop s.

(** *** Syntactic level: a pushdown recogniser that builds the value *)

(** An enclosing container whose next member is being read. *)
Inductive frame :=
| InList (done : list value)                      (* latest first *)
| InDict (done : list (pystr * value)) (key : pystr).

Inductive pstate :=
| AwaitValue (stk : list frame)
| ListOpen (stk : list frame)
| DictOpen (stk : list frame)
| AwaitKey (stk : list frame) (done : list (pystr * value))
| AwaitColon (stk : list frame) (done : list (pystr * value)) (key : pystr)
| AfterValue (stk : list frame) (v : value).

(** A token that starts a value. *)
Definition begin_value (stk : list frame) (t : token) : option pstate :=
  match t with
  | TConst a => Some (AfterValue stk (atom_value a))
  | TString s => Some (AfterValue stk (VStr s))
  | TLBracket => Some (ListOpen stk)
  | TLBrace => Some (DictOpen stk)
  | _ => None
  end.

Definition pstep (st : pstate) (t : token) : option pstate :=
  match st with
  | AwaitValue stk => begin_value stk t
  | ListOpen stk =>
      match t with
      | TRBracket => Some (AfterValue stk (VList []))
      | _ => begin_value (InList [] :: stk) t
      end
  | DictOpen stk =>
      match t with
      | TRBrace => Some (AfterValue stk (VDict []))
      | TString k => Some (AwaitColon stk [] k)
      | _ => None
      end
  | AwaitKey stk done =>
      match t with
      | TString k => Some (AwaitColon stk done k)
      | _ => None
      end
  | AwaitColon stk done k =>
      match t with
      | TColon => Some (AwaitValue (InDict done k :: stk))
      | _ => None
      end
  | AfterValue stk v =>
      match stk, t with
      | InList done :: stk', TComma => Some (AwaitValue (InList (v :: done) :: stk'))
      | InList done :: stk', TRBracket => Some (AfterValue stk' (VList (rev (v :: done))))
      | InDict done k :: stk', TComma => Some (AwaitKey stk' (dict_set k v done))
      | InDict done k :: stk', TRBrace => Some (AfterValue stk' (VDict (dict_set k v done)))
      | _, _ => None
      end
  end.

Fixpoint parse_from (st : pstate) (ts : list token) : option value :=
  match ts with
  | [] => match st with AfterValue [] v => Some v | _ => None end
  | t :: ts' =>
      match pstep st t with
      | Some st' => parse_from st' ts'
      | None => None
      end
  end.

Definition parse (ts : list token) : option value := parse_from (AwaitValue []) ts.

(** [json.loads(s)]: the value, or [None] of Rocq where Python raises
    [json.JSONDecodeError]. This is the decoder of an interpreter without
    limits; [Raising.loads] below adds the limits of the interpreter (the
    recursion depth, the digits of an integer literal) and the exceptions
    they raise. *)
Definition json_loads (s : pystr) : option value :=
  match lex s with
  | Some ts => parse ts
  | None => None
  end.

End Json.
Export Json.

(* ================================================================== *)
(** ** Effects *)
(* ================================================================== *)

(** A computation that returns a value and leaves a trace of events. *)
Module IO.

Definition io (E A : Type) : Type := (A * list E)%type.

Definition ret {E A} (a : A) : io E A := (a, []).

Definition bind {E A B} (m : io E A) (k : A -> io E B) : io E B :=
  let (a, t1) := m in let (b, t2) := k a in (b, t1 ++ t2).

Definition emit {E} (e : E) : io E unit := (tt, [e]).

Definition result_of {E A} (m : io E A) : A := fst m.
Definition trace_of {E A} (m : io E A) : list E := snd m.

(** [for x in l: body(x)] *)
Fixpoint for_each {E A} (l : list A) (body : A -> io E unit) : io E unit :=
  match l with
  | [] => ret tt
  | x :: l' => bind (body x) (fun _ => for_each l' body)
  end.

End IO.
Import IO.

Declare Scope io_scope.
Delimit Scope io_scope with io.
Notation "x <- m ;; k" := (bind m (fun x => k))
  (at level 61, m at next level, right associativity) : io_scope.
Notation "m ;; k" := (bind m (fun _ => k))
  (at level 61, right associativity) : io_scope.

(** What a call of an external service gives back: its text, or an
    exception with the text [str(e)] prints. *)
Inductive outcome :=
| Returns (text : pystr)
| Raises (message : pystr).

(* ================================================================== *)
(** ** extractor.py *)
(* ================================================================== *)

Module Extractor.

Local Open Scope io_scope.

(** The attachment sent with the prompt: the bytes of the file, or the
    UTF-8 encoding of a text. *)
Inductive payload :=
| FileBytes (bytes : list N)
| Utf8 (text : pystr).

(** The argument of [model.generate_content]. *)
Record request := {
  prompt : pystr;
  mime_type : option pystr;
  data : payload
}.

Inductive event :=
| Print (line : pystr)
| MakeDirs (path : pystr)
| GenerateContent (r : request)
| Dump (path : pystr) (doc : value)        (* json.dump into the file *)
| Move (src dst : pystr).                  (* shutil.move *)

(** The collaborators of the script: the directory tree, the files, the
    spreadsheet reader and the model. Here every listed entry of a vendor
    folder can be opened; [Raising.extract_invoice] below has the entries
    that cannot. The model is asked at most once for a file; its
    answer may depend on the file for which it is asked as well as on the
    request. *)
Record runtime := {
  listdir : pystr -> list pystr;
  isdir : pystr -> bool;
  read_bytes : pystr -> list N;
  guess_type : pystr -> option pystr;
  read_excel_to_csv : pystr -> outcome;
  generate_content : pystr -> request -> outcome
}.

Definition print (line : pystr) : io event unit := emit (Print line).

Definition FILE_HINTS : list (pystr * pystr) :=
  [ (py ".pdf", py "The following file is an invoice in PDF format.");
    (py ".png", py "The following file is a scanned image of an invoice.");
    (py ".jpg", py "The following file is a scanned image of an invoice.");
    (py ".jpeg", py "The following file is a scanned image of an invoice.");
    (py ".xlsx", py "The following file is an invoice spreadsheet (.xlsx format).");
    (py ".csv", py "The following file is an invoice in CSV format.") ].

Definition unlines (l : list pystr) : pystr := flat_map (fun x => x ++ nl) l.

Definition BASE_PROMPT : pystr :=
  nl ++ unlines
   [
     q "The JSON structure shown below is the desired output format. ";
     q "Extract the information and return it in this exact JSON format. ";
     q "The extracted data should include client details, seller information, invoice metadata, itemized product details, and payment instructions.";
     q "";
     q "Output only the JSON. Do not include explanations or formatting.";
     q "";
     q "{";
     q "  'invoice': {";
     q "    'client_name': '',";
     q "    'client_address': '',";
     q "    'seller_name': '',";
     q "    'seller_address': '',";
     q "    'invoice_number': '',";
     q "    'invoice_date': '',";
     q "    'due_date': ''";
     q "  },";
     q "  'items': [";
     q "    {";
     q "      'description': '',";
     q "      'quantity': '',";
     q "      'total_price': ''";
     q "    }";
     q "  ],";
     q "  'subtotal': {";
     q "    'tax': '',";
     q "    'discount': '',";
     q "    'total': ''";
     q "  },";
     q "  'payment_instructions': {";
     q "    'due_date': '',";
     q "    'bank_name': '',";
     q "    'account_number': '',";
     q "    'payment_method': ''";
     q "  }";
     q "}"
   ].

(** [d.get(k, default)] on a table of strings. *)
Fixpoint hints_get (d : list (pystr * pystr)) (k default : pystr) : pystr :=
  match d with
  | [] => default
  | (k', v) :: d' => if str_eqb k' k then v else hints_get d' k default
  end.

(** [re.search(r'\{.*\}', text, re.DOTALL)] and [match.group()].
    [upto_last_close s] is the longest prefix of [s] that ends with a
    closing brace, which is what the greedy [.*] followed by the brace
    matches; the search tries the start positions from the left. *)
Definition lbrace : char := 123%N.
Definition rbrace : char := 125%N.

Fixpoint upto_last_close (s : pystr) : option pystr :=
  match s with
  | [] => None
  | c :: s' =>
      match upto_last_close s' with
      | Some b => Some (c :: b)
      | None => if N.eqb c rbrace then Some [c] else None
      end
  end.

Fixpoint re_search (text : pystr) : option pystr :=
  match text with
  | [] => None
  | c :: s' =>
      if N.eqb c lbrace then
        match upto_last_close s' with
        | Some b => Some (c :: b)
        | None => re_search s'
        end
      else re_search s'
  end.

Definition warning_sign : pystr := [9888%N; 65039%N].
Definition cross_mark : pystr := [10060%N].
Definition magnifier : pystr := [128269%N].
Definition check_mark : pystr := [9989%N].

Definition extract_json (text : pystr) : io event (option value) :=
  match re_search text with
  | Some group =>
      match json_loads group with
      | Some v => ret (Some v)
      | None =>
          print (warning_sign ++ py " Still failed to decode JSON after regex cleanup.") ;;
          ret None
      end
  | None =>
      print (warning_sign ++ py " No valid JSON block found in text.") ;;
      ret None
  end.

Definition convert_xlsx_to_csv (rt : runtime) (xlsx_path : pystr)
  : io event (option pystr) :=
  match read_excel_to_csv rt xlsx_path with
  | Returns csv_string => ret (Some csv_string)
  | Raises e =>
      print (cross_mark ++ py " Error converting " ++ xlsx_path ++ py " to CSV: " ++ e) ;;
      ret None
  end.

Definition format_hint (ext : pystr) : pystr :=
  hints_get FILE_HINTS ext (py "The following file is an invoice document.").

Definition final_prompt (ext : pystr) : pystr :=
  format_hint ext ++ nl ++ nl ++ BASE_PROMPT.

(** The second half of [extract_invoice]: the prompt is built and the
    model is asked. *)
Definition ask_model (rt : runtime) (file_path ext : pystr)
    (mime : option pystr) (file_data : payload) : io event (option value) :=
  let req := {| prompt := final_prompt ext; mime_type := mime; data := file_data |} in
  emit (GenerateContent req) ;;
  match generate_content rt file_path req with
  | Returns text => extract_json text
  | Raises e =>
      print (cross_mark ++ py " Gemini API Error for " ++ file_path ++ py ": " ++ e) ;;
      ret None
  end.

Definition extract_invoice (rt : runtime) (file_path : pystr)
  : io event (option value) :=
  let ext := lower (snd (splitext file_path)) in
  if str_eqb ext (py ".xlsx") then
    csv_data <- convert_xlsx_to_csv rt file_path ;;
    match csv_data with
    | None | Some [] => ret None
    | Some csv => ask_model rt file_path (py ".csv") (Some (py "text/csv")) (Utf8 csv)
    end
  else
    ask_model rt file_path ext (guess_type rt file_path)
              (FileBytes (read_bytes rt file_path)).

Definition sorted_dir : pystr := py "sorted_invoices".
Definition output_dir : pystr := py "gemini_output".
Definition error_dir : pystr := py "error_invoices".

(** The body of the inner loop of [run_extractor]. [if json_data:] holds
    when [extract_invoice] returned an object that is true. *)
Definition process_file (rt : runtime) (folder_path file : pystr) : io event unit :=
  let file_path := join folder_path file in
  print (magnifier ++ py " Extracting from: " ++ file) ;;
  json_data <- extract_invoice rt file_path ;;
  let json_name := fst (splitext file) ++ py ".json" in
  let output_path := join output_dir json_name in
  match json_data with
  | Some doc =>
      if truthy doc then
        emit (Dump output_path doc) ;;
        print (check_mark ++ py " Saved JSON: " ++ json_name)
      else
        print (cross_mark ++ py " Extraction failed for " ++ file
               ++ py ". Moved to error folder.") ;;
        emit (Move file_path (join error_dir file))
  | None =>
      print (cross_mark ++ py " Extraction failed for " ++ file
             ++ py ". Moved to error folder.") ;;
      emit (Move file_path (join error_dir file))
  end.

Definition run_extractor (rt : runtime) : io event unit :=
  emit (MakeDirs output_dir) ;;
  emit (MakeDirs error_dir) ;;
  for_each (listdir rt sorted_dir) (fun seller =>
    let folder_path := join sorted_dir seller in
    if isdir rt folder_path then
      for_each (listdir rt folder_path) (process_file rt folder_path)
    else ret tt).

End Extractor.

(* ================================================================== *)
(** ** evaluator.py *)
(* ================================================================== *)

Module Evaluator.

Local Open Scope io_scope.

(** The prompt of [build_prompt] is a fixed text with four holes; the
    record keeps what fills the holes. *)
Record referee_prompt := {
  file_name : pystr;
  fields : list pystr;
  ground_truth : value;
  extracted : value
}.

(** A row of the report: five cells, each a Python object. *)
Definition row := list value.

Record table := {
  columns : list pystr;
  rows : list row
}.

Inductive event :=
| Print (line : pystr)
| GenerateContent (p : referee_prompt)
| Append (r : row)                           (* results.append(r) *)
| ToExcel (path : pystr) (df : table).

(** What is raised inside the [try] block and caught by
    [except Exception]. *)
Inductive exn :=
| ModelError (message : pystr)
| AttributeError (v : value)                 (* v.get, v not a dict *)
| TypeError (v : value).                     (* for ... in v, v not iterable *)

(** What ends the [try] block early: the two handlers. *)
Inductive raised :=
| JSONDecodeError
| Exception (e : exn).

(** The collaborators of the script: the configuration, the two
    collections of files (each holds a JSON document, which [json_load]
    gives), the model, and [str] on the values whose text is not computed
    here (floats, lists and dicts). *)
Record runtime := {
  deal_breakers : list pystr;
  listdir : pystr -> list pystr;
  path_exists : pystr -> bool;
  json_load : pystr -> value;
  generate_content : referee_prompt -> outcome;
  str_of : value -> pystr
}.

Definition print (line : pystr) : io event unit := emit (Print line).
Definition append (r : row) : io event unit := emit (Append r).

(** The rows a trace appends to [results], in order. *)
Fixpoint appended (t : list event) : list row :=
  match t with
  | [] => []
  | Append r :: t' => r :: appended t'
  | _ :: t' => appended t'
  end.

Definition build_prompt (gt_data output_data : value)
    (deal_breakers_set : list pystr) (file_name : pystr) : referee_prompt :=
  {| file_name := file_name;
     fields := sorted deal_breakers_set;
     ground_truth := gt_data;
     extracted := output_data |}.

(** [d.get(k, default)] *)
Definition get (d : list (pystr * value)) (k : pystr) (default : value) : value :=
  match dict_lookup d k with
  | Some v => v
  | None => default
  end.

(** [v == "literal"] *)
Definition equals_str (v : value) (s : pystr) : bool :=
  match v with
  | VStr x => str_eqb x s
  | _ => false
  end.

(** [str(v)], as an f-string formats [v]. *)
Definition py_str (rt : runtime) (v : value) : pystr :=
  match v with
  | VStr s => s
  | VNone => py "None"
  | VBool true => py "True"
  | VBool false => py "False"
  | VInt z => py (DecimalString.NilZero.string_of_int (Z.to_int z))
  | _ => str_of rt v
  end.

Definition type_name (v : value) : pystr :=
  match v with
  | VNone => py "NoneType"
  | VBool _ => py "bool"
  | VInt _ => py "int"
  | VFloat _ => py "float"
  | VStr _ => py "str"
  | VList _ => py "list"
  | VDict _ => py "dict"
  end.

(** [str(e)] *)
Definition exn_str (e : exn) : pystr :=
  match e with
  | ModelError message => message
  | AttributeError v => py "'" ++ type_name v ++ py "' object has no attribute 'get'"
  | TypeError v => py "'" ++ type_name v ++ py "' object is not iterable"
  end.

(** What [for x in v] goes through. *)
Definition iterate (v : value) : exn + list value :=
  match v with
  | VList l => inr l
  | VDict d => inr (map (fun kv => VStr (fst kv)) d)
  | VStr s => inr (map (fun c => VStr [c]) s)
  | _ => inl (TypeError v)
  end.

Definition dash : value := VStr (py "-").
Definition NA : value := VStr (py "N/A").

(** The loop over the mismatches. The result is the exception that ended
    it, if any; the rows appended before stay. *)
Fixpoint report_mismatches (base : pystr) (mismatches : list value)
  : io event (option exn) :=
  match mismatches with
  | [] => ret None
  | mismatch :: rest =>
      match mismatch with
      | VDict m =>
          append [VStr base; VStr (py "Mismatch");
                  get m (py "field") NA;
                  get m (py "expected") NA;
                  get m (py "actual") NA] ;;
          report_mismatches base rest
      | _ => ret (Some (AttributeError mismatch))
      end
  end.

(** Step 5 of the [try] block, from [status = eval_data.get(...)] on. *)
Definition report_verdict (rt : runtime) (base : pystr) (eval_data : value)
  : io event (option exn) :=
  match eval_data with
  | VDict d =>
      let status := get d (py "overall_status") (VStr (py "Parse Error")) in
      if equals_str status (py "Pass") then
        append [VStr base; VStr (py "Pass"); dash; dash; dash] ;;
        ret None
      else if equals_str status (py "Mismatch") then
        let mismatches := get d (py "mismatches") (VList []) in
        if negb (truthy mismatches) then
          append [VStr base; VStr (py "Mismatch"); VStr (py "Unknown");
                  VStr (py "Gemini reported a mismatch but did not provide details");
                  dash] ;;
          ret None
        else
          match iterate mismatches with
          | inr items => report_mismatches base items
          | inl e => ret (Some e)
          end
      else
        append [VStr base; VStr (py "Error"); VStr (py "Invalid Status");
                VStr (py "Gemini returned status: " ++ py_str rt status);
                dash] ;;
        ret None
  | _ => ret (Some (AttributeError eval_data))
  end.

Definition fence_open : pystr := py "```json".
Definition fence_close : pystr := py "```".

(** [res.text.strip().removeprefix("```json").removesuffix("```").strip()] *)
Definition cleaned_text (text : pystr) : pystr :=
  strip (removesuffix fence_close (removeprefix fence_open (strip text))).

(** Steps 3 to 5: the [try] block once the model has answered [text]. *)
Definition read_verdict (rt : runtime) (base text : pystr)
  : io event (option raised) :=
  match json_loads (cleaned_text text) with
  | Some eval_data =>
      e <- report_verdict rt base eval_data ;;
      ret (option_map Exception e)
  | None => ret (Some JSONDecodeError)
  end.

(** [except Exception as e] *)
Definition on_exception (base : pystr) (e : exn) : io event unit :=
  print (py "  -> Gemini Error for " ++ base ++ py ": " ++ exn_str e) ;;
  append [VStr base; VStr (py "Error"); VStr (py "API or other Error");
          VStr (exn_str e); dash].

(** [except json.JSONDecodeError] *)
Definition on_decode_error (base text : pystr) : io event unit :=
  print (py "  -> Error: Gemini did not return a valid JSON verdict for "
         ++ base ++ py ".") ;;
  append [VStr base; VStr (py "Error"); VStr (py "Invalid JSON Verdict");
          VStr text; dash].

(** The body of the loop over the ground-truth files. *)
Definition evaluate_file (rt : runtime) (file : pystr) : io event unit :=
  if negb (endswith file (py ".json")) then ret tt
  else
    let base := fst (splitext file) in
    print ([240%N; 376%N; 8221%N] ++ py " Requesting Gemini to evaluate invoice: " ++ base) ;;
    let gt_path := join (py "ground_truth") file in
    let out_path := join (py "gemini_output") file in
    if negb (path_exists rt out_path) then
      append [VStr base; VStr (py "Missing Output"); dash; dash; dash]
    else
      let gt := json_load rt gt_path in
      let out := json_load rt out_path in
      let prompt := build_prompt gt out (deal_breakers rt) base in
      emit (GenerateContent prompt) ;;
      match generate_content rt prompt with
      | Returns text =>
          r <- read_verdict rt base text ;;
          match r with
          | None => ret tt
          | Some JSONDecodeError => on_decode_error base text
          | Some (Exception e) => on_exception base e
          end
      | Raises message => on_exception base (ModelError message)
      end.

Definition loop (rt : runtime) : io event unit :=
  for_each (sorted (listdir rt (py "ground_truth"))) (evaluate_file rt).

(** The rows of [results] when the loop is over. *)
Definition results (rt : runtime) : list row := appended (trace_of (loop rt)).

Definition df (rt : runtime) : table :=
  {| columns := [py "Invoice"; py "Overall Status"; py "Field";
                 py "Expected"; py "Actual"];
     rows := results rt |}.

Definition run_evaluator (rt : runtime) : io event unit :=
  loop rt ;;
  emit (ToExcel (py "gemini_evaluation_report.xlsx") (df rt)) ;;
  print (nl ++ [226%N; 339%N; 8230%N] ++ py " Saved to gemini_evaluation_report.xlsx").

End Evaluator.

(* ================================================================== *)
(** ** What the statements observe *)
(* ================================================================== *)

(** A JSON text inside a markdown code fence. *)
Definition wrap_in_fence (json_text : pystr) : pystr :=
  py "```json" ++ nl ++ json_text ++ nl ++ py "```".

(** A text without braces. *)
Definition brace_free (s : pystr) : Prop :=
  Forall (fun c => c <> Extractor.lbrace /\ c <> Extractor.rbrace) s.

(** The events that settle where a file ends up. *)
Definition is_disposition (e : Extractor.event) : bool :=
  match e with
  | Extractor.Dump _ _ | Extractor.Move _ _ => true
  | _ => false
  end.

Definition dispositions (t : list Extractor.event) : list Extractor.event :=
  filter is_disposition t.

(** The files of the batch, each with its folder, in processing order. *)
Definition batch (rt : Extractor.runtime) : list (pystr * pystr) :=
  flat_map (fun seller =>
              let folder_path := join Extractor.sorted_dir seller in
              if Extractor.isdir rt folder_path
              then map (fun file => (folder_path, file)) (Extractor.listdir rt folder_path)
              else [])
           (Extractor.listdir rt Extractor.sorted_dir).

(** The object the evaluator parses out of the model's answer for a
    ground-truth file, when it gets that far. *)
Definition recovered_verdict (rt : Evaluator.runtime) (file : pystr) : option value :=
  if endswith file (py ".json")
     && Evaluator.path_exists rt (join (py "gemini_output") file)
  then
    match Evaluator.generate_content rt
            (Evaluator.build_prompt
               (Evaluator.json_load rt (join (py "ground_truth") file))
               (Evaluator.json_load rt (join (py "gemini_output") file))
               (Evaluator.deal_breakers rt)
               (fst (splitext file))) with
    | Returns text => json_loads (Evaluator.cleaned_text text)
    | Raises _ => None
    end
  else None.

Definition is_dict (v : value) : Prop :=
  match v with VDict _ => True | _ => False end.

(** The row the evaluator writes for one itemized mismatch. *)
Definition mismatch_row (base : pystr) (entry : value) : Evaluator.row :=
  match entry with
  | VDict m =>
      [VStr base; VStr (py "Mismatch");
       Evaluator.get m (py "field") Evaluator.NA;
       Evaluator.get m (py "expected") Evaluator.NA;
       Evaluator.get m (py "actual") Evaluator.NA]
  | _ => []
  end.

(** The two lines [extract_json] prints when it fails. *)
Definition no_block_line : pystr :=
  Extractor.warning_sign ++ py " No valid JSON block found in text.".

Definition still_failed_line : pystr :=
  Extractor.warning_sign ++ py " Still failed to decode JSON after regex cleanup.".

(** Where the extractor puts a file, given what [extract_invoice]
    returned for it. *)
Definition disposition_of (rt : Extractor.runtime) (folder_path file : pystr)
  : Extractor.event :=
  let moved := Extractor.Move (join folder_path file)
                              (join Extractor.error_dir file) in
  match result_of (Extractor.extract_invoice rt (join folder_path file)) with
  | Some doc =>
      if truthy doc
      then Extractor.Dump (join Extractor.output_dir
                                (fst (splitext file) ++ py ".json")) doc
      else moved
  | None => moved
  end.

(** [e] is one of the two dispositions of a file of the batch: its JSON
    document written under its base name, or the file moved to the error
    folder. *)
Definition disposed (entry : pystr * pystr) (e : Extractor.event) : Prop :=
  (exists doc,
      e = Extractor.Dump (join Extractor.output_dir
                               (fst (splitext (snd entry)) ++ py ".json")) doc)
  \/ e = Extractor.Move (join (fst entry) (snd entry))
                        (join Extractor.error_dir (snd entry)).

(** The key under which [extract_invoice] looks up the hint, as a function
    of the extension of the file. *)
Definition hint_key (extension : pystr) : pystr :=
  let ext := lower extension in
  if str_eqb ext (py ".xlsx") then py ".csv" else ext.

Definition default_hint : pystr := py "The following file is an invoice document.".

(** The states of the recogniser from which no object can result: the
    outermost container being read is a list, or a value that is not an
    object is complete. *)
Fixpoint root_is_list (stk : list frame) : bool :=
  match stk with
  | [] => false
  | f :: stk' =>
      match stk' with
      | [] => match f with InList _ => true | InDict _ _ => false end
      | _ :: _ => root_is_list stk'
      end
  end.

Definition not_dict_state (st : pstate) : Prop :=
  match st with
  | AfterValue [] v => ~ is_dict v
  | ListOpen [] => True
  | AwaitValue stk | ListOpen stk | DictOpen stk
  | AwaitKey stk _ | AwaitColon stk _ _ | AfterValue stk _ =>
      root_is_list stk = true
  end.

(** A run of JSON whitespace. *)
Definition json_ws (w : pystr) : Prop := Forall (fun c => is_json_ws c = true) w.

(** A run of the whitespace [strip] removes. *)
Definition spaces (w : pystr) : Prop := Forall (fun c => isspace c = true) w.

(** The lexer is inside a string or a word. *)
Definition in_token (st : lstate) : Prop :=
  match st with LTop => False | _ => True end.

(** [status = eval_data.get("overall_status", "Parse Error")] *)
Definition status_of (d : list (pystr * value)) : value :=
  Evaluator.get d (py "overall_status") (VStr (py "Parse Error")).

(** [mismatches = eval_data.get("mismatches", [])] *)
Definition mismatches_of (d : list (pystr * value)) : value :=
  Evaluator.get d (py "mismatches") (VList []).

(** The lines and rows of the evaluator that the statements name. *)
Definition requesting_line (base : pystr) : pystr :=
  [240%N; 376%N; 8221%N] ++ py " Requesting Gemini to evaluate invoice: " ++ base.

Definition pass_row (base : pystr) : Evaluator.row :=
  [VStr base; VStr (py "Pass"); Evaluator.dash; Evaluator.dash; Evaluator.dash].

Definition missing_output_row (base : pystr) : Evaluator.row :=
  [VStr base; VStr (py "Missing Output");
   Evaluator.dash; Evaluator.dash; Evaluator.dash].

Definition no_detail_row (base : pystr) : Evaluator.row :=
  [VStr base; VStr (py "Mismatch"); VStr (py "Unknown");
   VStr (py "Gemini reported a mismatch but did not provide details");
   Evaluator.dash].

Definition invalid_status_row (base status_text : pystr) : Evaluator.row :=
  [VStr base; VStr (py "Error"); VStr (py "Invalid Status");
   VStr (py "Gemini returned status: " ++ status_text);
   Evaluator.dash].

Definition is_generate (e : Evaluator.event) : bool :=
  match e with Evaluator.GenerateContent _ => true | _ => false end.

(** Runtimes for the examples: a model that always gives the same answer,
    over one vendor folder with one PDF, and over one ground-truth file. *)
Module Examples.

Definition extractor_rt (answer : outcome) : Extractor.runtime :=
  {| Extractor.listdir := fun p =>
       if str_eqb p Extractor.sorted_dir then [py "acme"] else [py "inv-001.pdf"];
     Extractor.isdir := fun _ => true;
     Extractor.read_bytes := fun _ => [37%N; 80%N; 68%N; 70%N];
     Extractor.guess_type := fun _ => Some (py "application/pdf");
     Extractor.read_excel_to_csv := fun _ => Raises (py "not a spreadsheet");
     Extractor.generate_content := fun _ _ => answer |}.

Definition evaluator_rt (has_output : bool) (answer : outcome) : Evaluator.runtime :=
  {| Evaluator.deal_breakers := [py "total"];
     Evaluator.listdir := fun _ => [py "inv-001.json"];
     Evaluator.path_exists := fun _ => has_output;
     Evaluator.json_load := fun _ => VDict [(py "invoice", VDict [(py "total", VStr (py "100.00"))])];
     Evaluator.generate_content := fun _ => answer;
     Evaluator.str_of := fun _ => py "<object>" |}.

End Examples.

(* ================================================================== *)
(** ** router.py *)
(* ================================================================== *)

Module Router.

Local Open Scope io_scope.

Inductive event :=
| Print (line : pystr)
| MakeDirs (path : pystr)
| GenerateContent (r : Extractor.request)
| Move (src dst : pystr).

(** What [open(path, "rb").read()] gives: the bytes, or the exception
    with its text. *)
Inductive read_outcome :=
| Bytes (bytes : list N)
| ReadError (message : pystr).

(** The collaborators of the script. The model is asked at most once for
    a file; its answer may depend on the file as well as on the request. *)
Record runtime := {
  listdir : pystr -> list pystr;
  open_read : pystr -> read_outcome;
  guess_type : pystr -> option pystr;
  read_excel_to_csv : pystr -> outcome;
  generate_content : pystr -> Extractor.request -> outcome
}.

Definition print (line : pystr) : io event unit := emit (Print line).

Definition convert_xlsx_to_csv (rt : runtime) (xlsx_path : pystr)
  : io event (option pystr) :=
  match read_excel_to_csv rt xlsx_path with
  | Returns csv_string => ret (Some csv_string)
  | Raises e =>
      print (Extractor.cross_mark ++ py " Error converting " ++ xlsx_path
             ++ py " to CSV: " ++ e) ;;
      ret None
  end.

Definition seller_prompt : pystr :=
  py "Extract only the **seller_name** from this invoice.".

Definition Unknown : pystr := py "Unknown".

(** The end of [extract_seller_name]: the model is asked; its answer is
    stripped, and replaced by ["Unknown"] when nothing is left. [inr] is
    the exception that leaves the function. *)
Definition ask_seller (rt : runtime) (file_path : pystr)
    (mime : option pystr) (content : Extractor.payload)
  : io event (pystr + pystr) :=
  let req := {| Extractor.prompt := seller_prompt;
                Extractor.mime_type := mime;
                Extractor.data := content |} in
  emit (GenerateContent req) ;;
  match generate_content rt file_path req with
  | Returns text =>
      match strip text with
      | [] => ret (inl Unknown)
      | seller => ret (inl seller)
      end
  | Raises e => ret (inr e)
  end.

Definition extract_seller_name (rt : runtime) (file_path : pystr)
  : io event (pystr + pystr) :=
  let ext := lower (snd (splitext file_path)) in
  if str_eqb ext (py ".xlsx") then
    csv_data <- convert_xlsx_to_csv rt file_path ;;
    match csv_data with
    | None | Some [] => ret (inl Unknown)
    | Some csv => ask_seller rt file_path (Some (py "text/csv")) (Extractor.Utf8 csv)
    end
  else
    let mime := guess_type rt file_path in
    match open_read rt file_path with
    | Bytes content => ask_seller rt file_path mime (Extractor.FileBytes content)
    | ReadError e => ret (inr e)
    end.

Definition input_dir : pystr := py "input_invoices".

(** The body of the loop of [route_files], while the folder can be made
    and the moves succeed; [Raising.route_file] below has the calls that
    raise. *)
Definition route_file (rt : runtime) (file : pystr) : io event unit :=
  let path := join input_dir file in
  r <- extract_seller_name rt path ;;
  match r with
  | inl seller =>
      let target := join Extractor.sorted_dir seller in
      emit (MakeDirs target) ;;
      emit (Move path (join target file)) ;;
      print (Extractor.check_mark ++ py " Moved " ++ file ++ py " to " ++ target)
  | inr e =>
      print (Extractor.cross_mark ++ py " Error with " ++ file ++ py ": " ++ e) ;;
      emit (Move path (join Extractor.error_dir file))
  end.

Definition route_files (rt : runtime) : io event unit :=
  for_each (listdir rt input_dir) (route_file rt).

End Router.

(* ================================================================== *)
(** ** What the further statements observe *)
(* ================================================================== *)

(** The states of the recogniser from which only an object can result:
    the outermost container being read is a dict, or an object is
    complete. *)
Fixpoint root_is_dict (stk : list frame) : bool :=
  match stk with
  | [] => false
  | f :: stk' =>
      match stk' with
      | [] => match f with InDict _ _ => true | InList _ => false end
      | _ :: _ => root_is_dict stk'
      end
  end.

Definition dict_state (st : pstate) : Prop :=
  match st with
  | AfterValue [] v => is_dict v
  | DictOpen [] | AwaitKey [] _ | AwaitColon [] _ _ => True
  | AwaitValue stk | ListOpen stk | DictOpen stk
  | AwaitKey stk _ | AwaitColon stk _ _ | AfterValue stk _ =>
      root_is_dict stk = true
  end.

(** The lexer is inside a string. *)
Definition in_string (st : lstate) : Prop :=
  match st with LStr _ _ | LEsc _ _ | LHex _ _ _ _ => True | _ => False end.

(** The calls of the model in a trace of the extractor, of the evaluator
    and of the router. *)
Definition extractor_requests (t : list Extractor.event) : list Extractor.request :=
  flat_map (fun e => match e with Extractor.GenerateContent r => [r] | _ => [] end) t.

Definition evaluator_requests (t : list Evaluator.event)
  : list Evaluator.referee_prompt :=
  flat_map (fun e => match e with Evaluator.GenerateContent r => [r] | _ => [] end) t.

Definition router_requests (t : list Router.event) : list Extractor.request :=
  flat_map (fun e => match e with Router.GenerateContent r => [r] | _ => [] end) t.

(** The moves in a trace of the router, as pairs of paths. *)
Definition router_moves (t : list Router.event) : list (pystr * pystr) :=
  flat_map (fun e => match e with Router.Move a b => [(a, b)] | _ => [] end) t.

(** The error rows of the evaluator. *)
Definition invalid_json_row (base text : pystr) : Evaluator.row :=
  [VStr base; VStr (py "Error"); VStr (py "Invalid JSON Verdict");
   VStr text; Evaluator.dash].

Definition other_error_row (base message : pystr) : Evaluator.row :=
  [VStr base; VStr (py "Error"); VStr (py "API or other Error");
   VStr message; Evaluator.dash].

(** The answer of the model for a ground-truth file that has an output. *)
Definition verdict_answer (rt : Evaluator.runtime) (file : pystr) : outcome :=
  Evaluator.generate_content rt
    (Evaluator.build_prompt
       (Evaluator.json_load rt (join (py "ground_truth") file))
       (Evaluator.json_load rt (join (py "gemini_output") file))
       (Evaluator.deal_breakers rt)
       (fst (splitext file))).

(** A row of five cells that starts with the name of the invoice. *)
Definition row_of (base : pystr) (r : Evaluator.row) : Prop :=
  List.length r = 5 /\ hd VNone r = VStr base.

(** A name with a character that is not a dot. *)
Definition has_non_dot (s : pystr) : bool :=
  existsb (fun c => negb (N.eqb c dot)) s.

(** Runtimes for the examples of the router. *)
Module RouterExamples.

Definition router_rt (answer : outcome) : Router.runtime :=
  {| Router.listdir := fun _ => [py "inv-001.pdf"];
     Router.open_read := fun _ => Router.Bytes [37%N; 80%N; 68%N; 70%N];
     Router.guess_type := fun _ => Some (py "application/pdf");
     Router.read_excel_to_csv := fun _ => Raises (py "not a spreadsheet");
     Router.generate_content := fun _ _ => answer |}.

Definition spreadsheet_rt (csv : outcome) : Router.runtime :=
  {| Router.listdir := fun _ => [py "inv-002.xlsx"];
     Router.open_read := fun _ => Router.ReadError (py "unreadable");
     Router.guess_type := fun _ => None;
     Router.read_excel_to_csv := fun _ => csv;
     Router.generate_content := fun _ _ => Returns (py "Acme") |}.

End RouterExamples.

(* ================================================================== *)
(** ** Exceptions that leave the functions *)
(* ================================================================== *)

(** The definitions above follow the scripts while every call of the
    operating system succeeds and [json.loads] stays within the limits of
    the interpreter. The definitions of this part follow the same
    functions together with the exceptions they do not handle: a
    computation returns [Done] with its value, or [Raised] with the
    exception that leaves it, and its trace holds what happened before. *)
Module Raising.

Local Open Scope io_scope.

Inductive exn :=
| ValueError (digits : nat)          (* [int]: a literal of that many digits *)
| RecursionError (array : bool)      (* in an array, or in an object *)
| UnicodeEncodeError (object : pystr)       (* [str.encode]: the text *)
| OSError (message : pystr)          (* [os], [open], [shutil], [json.dump] *)
| ModelError (message : pystr).      (* [model.generate_content], [response.text] *)

Inductive result (A : Type) :=
| Done (a : A)
| Raised (e : exn).
Arguments Done {A} a.
Arguments Raised {A} e.

(** What the interpreter fixes: the longest integer literal [int]
    converts ([sys.get_int_max_str_digits()], 0 for no limit), how many
    containers the scanner of [json] may have open at once before the
    recursion limit is reached, and the text of its own exceptions. *)
Record interpreter := {
  int_max_str_digits : nat;
  recursion_budget : nat;
  text_of : exn -> pystr
}.

(** [str(e)] *)
Definition str (python : interpreter) (e : exn) : pystr :=
  match e with
  | OSError m | ModelError m => m
  | _ => text_of python e
  end.

Definition bind {E A B} (m : io E (result A)) (k : A -> io E (result B))
  : io E (result B) :=
  let (r, t1) := m in
  match r with
  | Done a => let (b, t2) := k a in (b, t1 ++ t2)
  | Raised e => (Raised e, t1)
  end.

(** [for x in l: body(x)], left at the first exception. *)
Fixpoint for_each {E A} (l : list A) (body : A -> io E (result unit))
  : io E (result unit) :=
  match l with
  | [] => ret (Done tt)
  | x :: l' => bind (body x) (fun _ => for_each l' body)
  end.

(** A call of the operating system: it raises, or it has its effect. *)
Definition attempt {E} (failure : option pystr) (effect : E) : io E (result unit) :=
  match failure with
  | Some m => ret (Raised (OSError m))
  | None => emit effect ;; ret (Done tt)
  end.

(** *** [json.loads] within an interpreter *)

(** The scanner reads a number as the longest prefix that is one: an
    optional minus sign, [0] or a run of digits that starts with another
    digit, then a fraction, then an exponent. *)
Definition has_fraction (r : pystr) : bool :=
  match r with
  | d :: x :: _ => (d =? 46)%N && is_digit x
  | _ => false
  end.

Definition has_exponent (r : pystr) : bool :=
  match r with
  | e :: r' =>
      ((e =? 101) || (e =? 69))%N
      && match r' with
         | x :: r'' =>
             if ((x =? 45) || (x =? 43))%N
             then match r'' with y :: _ => is_digit y | [] => false end
             else is_digit x
         | [] => false
         end
  | [] => false
  end.

(** The number of digits of the number at the start of a word, when that
    number has neither fraction nor exponent: it is then converted by
    [int]. *)
Definition integer_digits (w : pystr) : option nat :=
  let r := match w with
           | c :: r => if (c =? 45)%N then r else w
           | [] => w
           end in
  match r with
  | c :: r' =>
      if (c =? 48)%N then
        if has_fraction r' || has_exponent r' then None else Some 1%nat
      else if is_digit c then
        let (d, r1) := span_digits r' in
        if has_fraction r1 || has_exponent r1 then None
        else Some (S (List.length d))
      else None
  | [] => None
  end.

(** [int] refuses a literal of more than 640 digits that is longer than
    the limit. *)
Definition too_long (python : interpreter) (n : nat) : bool :=
  ((640 <? n) && (0 <? int_max_str_digits python)
   && (int_max_str_digits python <? n))%nat.

Inductive ltoken :=
| Tok (t : token)
| TooLong (digits : nat)       (* a number that [int] refuses *)
| Bad.                         (* no token can be read here *)

(** The token of a word. The number at its start is converted before the
    character after it is looked at. *)
Definition word_ltoken (python : interpreter) (acc : pystr) : ltoken :=
  let of_constant :=
    match constant (rev acc) with
    | Some a => Tok (TConst a)
    | None => Bad
    end in
  match integer_digits (rev acc) with
  | Some n => if too_long python n then TooLong n else of_constant
  | None => of_constant
  end.

(** One character: the tokens it completes, and the next state of the
    lexer unless no token can be read. *)
Definition scan_step (python : interpreter) (st : lstate) (c : char)
  : list ltoken * option lstate :=
  match st with
  | LWord acc =>
      if is_word_char c then ([], Some (LWord (c :: acc)))
      else
        match step_top c with
        | Some (ts, st') => (word_ltoken python acc :: map Tok ts, Some st')
        | None => ([word_ltoken python acc], None)
        end
  | _ =>
      match step st c with
      | Some (ts, st') => (map Tok ts, Some st')
      | None => ([], None)
      end
  end.

(** The tokens of a text in the order in which the scanner meets them,
    up to the first place where it cannot go on. *)
Fixpoint scan_from (python : interpreter) (st : lstate) (s : pystr) : list ltoken :=
  match s with
  | [] =>
      match st with
      | LTop => []
      | LWord acc => [word_ltoken python acc]
      | _ => [Bad]
      end
  | c :: s' =>
      let (ts, next) := scan_step python st c in
      ts ++ match next with
            | Some st' => scan_from python st' s'
            | None => [Bad]
            end
  end.

(** The result of [json.loads]. *)
Inductive decoded :=
| Loaded (v : value)
| JSONDecodeError
| Raise (e : exn).

(** A value may start here. *)
Definition accepts_value (st : pstate) : bool :=
  match st with
  | AwaitValue _ | ListOpen _ => true
  | _ => false
  end.

(** The containers that are open. *)
Definition nesting (st : pstate) : nat :=
  match st with
  | AwaitValue stk | AfterValue stk _ => List.length stk
  | ListOpen stk | DictOpen stk | AwaitKey stk _ | AwaitColon stk _ _ =>
      S (List.length stk)
  end.

Definition opens (t : token) : bool :=
  match t with
  | TLBrace | TLBracket => true
  | _ => false
  end.

(** The recogniser over the tokens in turn. A number is converted, and a
    container is entered, only where a value may start; elsewhere the
    text is refused at the first character of the token. *)
Fixpoint decode_from (python : interpreter) (st : pstate) (ts : list ltoken)
  : decoded :=
  match ts with
  | [] => match st with AfterValue [] v => Loaded v | _ => JSONDecodeError end
  | Bad :: _ => JSONDecodeError
  | TooLong n :: _ =>
      if accepts_value st then Raise (ValueError n) else JSONDecodeError
  | Tok t :: ts' =>
      if opens t && accepts_value st && (recursion_budget python <=? nesting st)%nat
      then Raise (RecursionError (match t with TLBracket => true | _ => false end))
      else
        match pstep st t with
        | Some st' => decode_from python st' ts'
        | None => JSONDecodeError
        end
  end.

(** [json.loads(s)] *)
Definition loads (python : interpreter) (s : pystr) : decoded :=
  decode_from python (AwaitValue []) (scan_from python LTop s).

(** *** extractor.py *)

(** What can fail outside the interpreter: each call of the operating
    system raises with the given text, or succeeds. What a call that
    succeeds gives is in the runtime of the script. *)
Record system := {
  python : interpreter;
  listdir_error : pystr -> option pystr;
  makedirs_error : pystr -> option pystr;
  open_error : pystr -> option pystr;             (* [open(path, "rb")] and [read] *)
  dump_error : pystr -> value -> option pystr;    (* [open(path, "w")] and [json.dump] *)
  move_error : pystr -> pystr -> option pystr
}.

(** [json.JSONDecodeError] is the one exception that is caught. *)
Definition extract_json (python : interpreter) (text : pystr)
  : io Extractor.event (result (option value)) :=
  match Extractor.re_search text with
  | Some group =>
      match loads python group with
      | Loaded v => ret (Done (Some v))
      | JSONDecodeError =>
          Extractor.print (Extractor.warning_sign
                           ++ py " Still failed to decode JSON after regex cleanup.") ;;
          ret (Done None)
      | Raise e => ret (Raised e)
      end
  | None =>
      Extractor.print (Extractor.warning_sign
                       ++ py " No valid JSON block found in text.") ;;
      ret (Done None)
  end.

(** The [try] of [extract_invoice]: the call of the model and
    [extract_json] are inside, and every exception is caught. *)
Definition ask_model (rt : Extractor.runtime) (python : interpreter)
    (file_path ext : pystr) (mime : option pystr) (file_data : Extractor.payload)
  : io Extractor.event (option value) :=
  let req := {| Extractor.prompt := Extractor.final_prompt ext;
                Extractor.mime_type := mime;
                Extractor.data := file_data |} in
  let failed e :=
    Extractor.print (Extractor.cross_mark ++ py " Gemini API Error for "
                     ++ file_path ++ py ": " ++ e) ;;
    ret None in
  emit (Extractor.GenerateContent req) ;;
  match Extractor.generate_content rt file_path req with
  | Returns text =>
      r <- extract_json python text ;;
      match r with
      | Done json_data => ret json_data
      | Raised e => failed (str python e)
      end
  | Raises e => failed e
  end.

(** [s.encode('utf-8')] raises on a surrogate. *)
Definition has_surrogate (s : pystr) : bool :=
  existsb (fun c => (55296 <=? c) && (c <=? 57343))%N s.

(** The file is opened before the [try]. *)
Definition extract_invoice (rt : Extractor.runtime) (sys : system) (file_path : pystr)
  : io Extractor.event (result (option value)) :=
  let ext := lower (snd (splitext file_path)) in
  if str_eqb ext (py ".xlsx") then
    csv_data <- Extractor.convert_xlsx_to_csv rt file_path ;;
    match csv_data with
    | None | Some [] => ret (Done None)
    | Some csv =>
        if has_surrogate csv then ret (Raised (UnicodeEncodeError csv))
        else
          json_data <- ask_model rt (python sys) file_path (py ".csv")
                                 (Some (py "text/csv")) (Extractor.Utf8 csv) ;;
          ret (Done json_data)
    end
  else
    match open_error sys file_path with
    | Some m => ret (Raised (OSError m))
    | None =>
        json_data <- ask_model rt (python sys) file_path ext
                               (Extractor.guess_type rt file_path)
                               (Extractor.FileBytes (Extractor.read_bytes rt file_path)) ;;
        ret (Done json_data)
    end.

(** The body of the inner loop of [run_extractor]; nothing in it is
    inside a [try]. *)
Definition process_file (rt : Extractor.runtime) (sys : system)
    (folder_path file : pystr) : io Extractor.event (result unit) :=
  let file_path := join folder_path file in
  Extractor.print (Extractor.magnifier ++ py " Extracting from: " ++ file) ;;
  bind (extract_invoice rt sys file_path) (fun json_data =>
  let json_name := fst (splitext file) ++ py ".json" in
  let output_path := join Extractor.output_dir json_name in
  let failed :=
    Extractor.print (Extractor.cross_mark ++ py " Extraction failed for " ++ file
                     ++ py ". Moved to error folder.") ;;
    attempt (move_error sys file_path (join Extractor.error_dir file))
            (Extractor.Move file_path (join Extractor.error_dir file)) in
  match json_data with
  | Some doc =>
      if truthy doc then
        bind (attempt (dump_error sys output_path doc) (Extractor.Dump output_path doc))
             (fun _ =>
                Extractor.print (Extractor.check_mark ++ py " Saved JSON: " ++ json_name) ;;
                ret (Done tt))
      else failed
  | None => failed
  end).

Definition run_extractor (rt : Extractor.runtime) (sys : system)
  : io Extractor.event (result unit) :=
  bind (attempt (makedirs_error sys Extractor.output_dir)
                (Extractor.MakeDirs Extractor.output_dir)) (fun _ =>
  bind (attempt (makedirs_error sys Extractor.error_dir)
                (Extractor.MakeDirs Extractor.error_dir)) (fun _ =>
  match listdir_error sys Extractor.sorted_dir with
  | Some m => ret (Raised (OSError m))
  | None =>
      for_each (Extractor.listdir rt Extractor.sorted_dir) (fun seller =>
        let folder_path := join Extractor.sorted_dir seller in
        if Extractor.isdir rt folder_path then
          match listdir_error sys folder_path with
          | Some m => ret (Raised (OSError m))
          | None =>
              for_each (Extractor.listdir rt folder_path)
                       (process_file rt sys folder_path)
          end
        else ret (Done tt))
  end)).

(** *** router.py *)

Definition ask_seller (rt : Router.runtime) (file_path : pystr)
    (mime : option pystr) (content : Extractor.payload)
  : io Router.event (result pystr) :=
  let req := {| Extractor.prompt := Router.seller_prompt;
                Extractor.mime_type := mime;
                Extractor.data := content |} in
  emit (Router.GenerateContent req) ;;
  match Router.generate_content rt file_path req with
  | Returns text =>
      match strip text with
      | [] => ret (Done Router.Unknown)
      | seller => ret (Done seller)
      end
  | Raises e => ret (Raised (ModelError e))
  end.

Definition extract_seller_name (rt : Router.runtime) (file_path : pystr)
  : io Router.event (result pystr) :=
  let ext := lower (snd (splitext file_path)) in
  if str_eqb ext (py ".xlsx") then
    csv_data <- Router.convert_xlsx_to_csv rt file_path ;;
    match csv_data with
    | None | Some [] => ret (Done Router.Unknown)
    | Some csv =>
        if has_surrogate csv then ret (Raised (UnicodeEncodeError csv))
        else ask_seller rt file_path (Some (py "text/csv")) (Extractor.Utf8 csv)
    end
  else
    let mime := Router.guess_type rt file_path in
    match Router.open_read rt file_path with
    | Router.Bytes content =>
        ask_seller rt file_path mime (Extractor.FileBytes content)
    | Router.ReadError e => ret (Raised (OSError e))
    end.

(** The [try] of [route_files]. *)
Definition move_to_seller (rt : Router.runtime) (sys : system) (file : pystr)
  : io Router.event (result unit) :=
  let path := join Router.input_dir file in
  bind (extract_seller_name rt path) (fun seller =>
  let target := join Extractor.sorted_dir seller in
  bind (attempt (makedirs_error sys target) (Router.MakeDirs target)) (fun _ =>
  bind (attempt (move_error sys path (join target file))
                (Router.Move path (join target file))) (fun _ =>
  Router.print (Extractor.check_mark ++ py " Moved " ++ file ++ py " to " ++ target) ;;
  ret (Done tt)))).

(** The body of the loop of [route_files]: the [try], and the handler,
    whose own move is not inside a [try]. *)
Definition route_file (rt : Router.runtime) (sys : system) (file : pystr)
  : io Router.event (result unit) :=
  let path := join Router.input_dir file in
  r <- move_to_seller rt sys file ;;
  match r with
  | Done _ => ret (Done tt)
  | Raised e =>
      Router.print (Extractor.cross_mark ++ py " Error with " ++ file ++ py ": "
                    ++ str (python sys) e) ;;
      attempt (move_error sys path (join Extractor.error_dir file))
              (Router.Move path (join Extractor.error_dir file))
  end.

Definition route_files (rt : Router.runtime) (sys : system)
  : io Router.event (result unit) :=
  match listdir_error sys Router.input_dir with
  | Some m => ret (Raised (OSError m))
  | None => for_each (Router.listdir rt Router.input_dir) (route_file rt sys)
  end.

End Raising.

(** ** What the statements on exceptions observe *)

(** [json.loads] within an interpreter against [json_loads]: the same
    value, the same refusal, or an exception of the interpreter. Stated
    for an outcome of the recogniser started in any state, against the
    tokens of the lexer. *)
Definition refines (d : Raising.decoded) (tokens : option (list token))
    (st : pstate) : Prop :=
  match d with
  | Raising.Loaded v => exists ts, tokens = Some ts /\ parse_from st ts = Some v
  | Raising.JSONDecodeError => forall ts, tokens = Some ts -> parse_from st ts = None
  | Raising.Raise _ => True
  end.




(** An interpreter with the default limit of 4300 digits, and systems
    for the examples. *)
Module RaisingExamples.

Definition decimal (n : nat) : pystr :=
  py (DecimalString.NilZero.string_of_uint (Nat.to_uint n)).

Definition python : Raising.interpreter :=
  {| Raising.int_max_str_digits := 4300;
     Raising.recursion_budget := 900;
     Raising.text_of := fun e =>
       match e with
       | Raising.ValueError n =>
           py "Exceeds the limit (4300 digits) for integer string conversion: value has "
           ++ decimal n
           ++ py " digits; use sys.set_int_max_str_digits() to increase the limit"
       | Raising.RecursionError array =>
           py "maximum recursion depth exceeded while decoding a JSON "
           ++ (if array then py "array" else py "object")
           ++ py " from a unicode string"
       | _ => py "surrogates not allowed"
       end |}.

(** Every call of the operating system succeeds. *)
Definition sound : Raising.system :=
  {| Raising.python := python;
     Raising.listdir_error := fun _ => None;
     Raising.makedirs_error := fun _ => None;
     Raising.open_error := fun _ => None;
     Raising.dump_error := fun _ _ => None;
     Raising.move_error := fun _ _ => None |}.

(** A vendor folder that holds a folder and, after it, an invoice: what
    the router leaves for a seller named [acme/sub]. *)
Definition subfolder_rt : Extractor.runtime :=
  {| Extractor.listdir := fun p =>
       if str_eqb p Extractor.sorted_dir then [py "acme"]
       else if str_eqb p (py "sorted_invoices/acme") then [py "sub"; py "z.pdf"]
       else [];
     Extractor.isdir := fun p =>
       str_eqb p (py "sorted_invoices/acme") || str_eqb p (py "sorted_invoices/acme/sub");
     Extractor.read_bytes := fun _ => [37%N; 80%N; 68%N; 70%N];
     Extractor.guess_type := fun _ => Some (py "application/pdf");
     Extractor.read_excel_to_csv := fun _ => Raises (py "not a spreadsheet");
     Extractor.generate_content := fun _ _ => Returns (q "{'invoice': {'seller_name': 'acme'}}") |}.

Definition is_a_directory : pystr :=
  py "[Errno 21] Is a directory: 'sorted_invoices/acme/sub'".

Definition subfolder_sys : Raising.system :=
  {| Raising.python := python;
     Raising.listdir_error := fun _ => None;
     Raising.makedirs_error := fun _ => None;
     Raising.open_error := fun p =>
       if str_eqb p (py "sorted_invoices/acme/sub") then Some is_a_directory else None;
     Raising.dump_error := fun _ _ => None;
     Raising.move_error := fun _ _ => None |}.

(** A tree without the folder [error_invoices], which the router does not
    make: nothing can be moved into it. *)
Definition no_such_file (dst : pystr) : pystr :=
  py "[Errno 2] No such file or directory: '" ++ dst ++ py "'".

Definition no_error_folder : Raising.system :=
  {| Raising.python := python;
     Raising.listdir_error := fun _ => None;
     Raising.makedirs_error := fun _ => None;
     Raising.open_error := fun _ => None;
     Raising.dump_error := fun _ _ => None;
     Raising.move_error := fun _ dst =>
       if startswith dst (py "error_invoices/") then Some (no_such_file dst) else None |}.

(** A seller folder that cannot be made. *)
Definition read_only : Raising.system :=
  {| Raising.python := python;
     Raising.listdir_error := fun _ => None;
     Raising.makedirs_error := fun p =>
       Some (py "[Errno 30] Read-only file system: '" ++ p ++ py "'");
     Raising.open_error := fun _ => None;
     Raising.dump_error := fun _ _ => None;
     Raising.move_error := fun _ _ => None |}.

(** An object whose one member is an integer of [n] digits. *)
Definition long_integer (n : nat) : pystr :=
  q "{'total': " ++ repeat 57%N n ++ py "}".

End RaisingExamples.

(* ================================================================== *)
(** ** Traces *)
(* ================================================================== *)

Section Traces.

Context {E : Type}.

Lemma trace_bind {A B} (m : io E A) (k : A -> io E B) :
  trace_of (bind m k) = trace_of m ++ trace_of (k (result_of m)).
Proof.
  unfold bind, trace_of, result_of.
  destruct m as [a t1]; simpl. destruct (k a); reflexivity.
Qed.

Lemma result_bind {A B} (m : io E A) (k : A -> io E B) :
  result_of (bind m k) = result_of (k (result_of m)).
Proof.
  unfold bind, result_of.
  destruct m as [a t1]; simpl. destruct (k a); reflexivity.
Qed.

Lemma trace_for_each {A} (l : list A) (body : A -> io E unit) :
  trace_of (for_each l body) = flat_map (fun x => trace_of (body x)) l.
Proof.
  induction l as [|x l IH]; simpl.
  - reflexivity.
  - rewrite trace_bind, IH. reflexivity.
Qed.

Lemma trace_for_each_app {A} (l1 l2 : list A) (body : A -> io E unit) :
  trace_of (for_each (l1 ++ l2) body)
  = trace_of (for_each l1 body) ++ trace_of (for_each l2 body).
Proof.
  rewrite !trace_for_each. apply flat_map_app.
Qed.

End Traces.

(* ================================================================== *)
(** ** The definitions at work *)
(* ================================================================== *)

Example splitext_last_dot :
  splitext (py "sorted_invoices/acme.co/inv.2024.PDF")
  = (py "sorted_invoices/acme.co/inv.2024", py ".PDF").
Proof. reflexivity. Qed.

Example splitext_leading_dots :
  splitext (py "folder.d/..hidden") = (py "folder.d/..hidden", []).
Proof. reflexivity. Qed.

Example join_folder : join (py "gemini_output") (py "inv.json") = py "gemini_output/inv.json".
Proof. reflexivity. Qed.

Example loads_nested :
  json_loads (q "{'a': [1, -2.50e1, true, null], 'b': {'c': 'x\ny'}, 'a': 'last'}")
  = Some (VDict [(py "a", VStr (py "last"));
                 (py "b", VDict [(py "c", VStr [120; 10; 121]%N)])]).
Proof. vm_compute. reflexivity. Qed.

Example loads_numbers :
  json_loads (py "[0, -0, 12, 1.5, 1e3, -2.5E-2, NaN, -Infinity]")
  = Some (VList [VInt 0; VInt 0; VInt 12;
                 VFloat (Dec false 15 (-1)); VFloat (Dec false 1 3);
                 VFloat (Dec true 25 (-3)); VFloat NaN; VFloat (Inf true)]).
Proof. vm_compute. reflexivity. Qed.

Example loads_surrogate_pair :
  json_loads (q "'\ud83d\ude00 \ud83d'") = Some (VStr [128512; 32; 55357]%N).
Proof. vm_compute. reflexivity. Qed.

Example loads_rejects :
  map json_loads
      [py ""; py "01"; py "1."; py "+1"; py "[1,]"; q "{'a':1,}"; q "{'a' 1}";
       py "{} {}"; q "'open"; py "tru"; py "[1 2]"; py "{1: 2}"; q "'\x'"]
  = repeat None 13.
Proof. vm_compute. reflexivity. Qed.

Example search_is_greedy :
  Extractor.re_search (py "a } { b {c} d } e { f") = Some (py "{ b {c} d }").
Proof. reflexivity. Qed.

Example search_needs_a_closing_brace :
  Extractor.re_search (py "{invalid json") = None.
Proof. reflexivity. Qed.

Example cleaned_fenced_text :
  Evaluator.cleaned_text (py "  ```json
{}
```
") = py "{}".
Proof. reflexivity. Qed.

(** A spreadsheet is sent as CSV text and gets the hint of a CSV file. *)
Example spreadsheet_gets_the_csv_hint :
  Extractor.format_hint (hint_key (snd (splitext (py "acme/Invoice 7.XLSX"))))
  = py "The following file is an invoice in CSV format.".
Proof. reflexivity. Qed.

Example unknown_extension_gets_the_default_hint :
  Extractor.format_hint (hint_key (snd (splitext (py "acme/invoice.tiff"))))
  = default_hint.
Proof. reflexivity. Qed.

(** An entry of the mismatches that is not an object ends the loop: the
    rows of the entries before it stay and an error row follows. *)
Example entry_that_is_not_an_object :
  Evaluator.results
    (Examples.evaluator_rt true (Returns (q
       "{'overall_status': 'Mismatch', 'mismatches': [{'field': 'total'}, 3]}")))
  = [ [VStr (py "inv-001"); VStr (py "Mismatch"); VStr (py "total");
       Evaluator.NA; Evaluator.NA];
      [VStr (py "inv-001"); VStr (py "Error"); VStr (py "API or other Error");
       VStr (py "'int' object has no attribute 'get'"); Evaluator.dash] ].
Proof. vm_compute. reflexivity. Qed.

Example empty_object_is_false : truthy (VDict []) = false.
Proof. reflexivity. Qed.

Example tiny_float_is_false :
  truthy (VFloat (Dec false 1 (-400))) = false
  /\ truthy (VFloat (Dec false 1 (-300))) = true.
Proof. split; vm_compute; reflexivity. Qed.

(* ================================================================== *)
(** ** JSON recovery: failures *)
(* ================================================================== *)

(** C1 as stated fails: a text without a brace span and a text whose
    brace span is not JSON give the same returned value. *)
Lemma extract_json_failures_same_value :
  Extractor.re_search (py "no json here") = None
  /\ Extractor.re_search (py "{invalid json}") = Some (py "{invalid json}")
  /\ json_loads (py "{invalid json}") = None
  /\ result_of (Extractor.extract_json (py "no json here"))
     = result_of (Extractor.extract_json (py "{invalid json}")).
Proof. repeat split. Qed.

(* ================================================================== *)
(** ** The extractor: one disposition per file *)
(* ================================================================== *)

Lemma extract_json_no_disposition (text : pystr) :
  dispositions (trace_of (Extractor.extract_json text)) = [].
Proof.
  unfold Extractor.extract_json.
  destruct (Extractor.re_search text) as [g|]; [destruct (json_loads g)|];
    reflexivity.
Qed.

Lemma ask_model_no_disposition rt file_path ext mime file_data :
  dispositions (trace_of (Extractor.ask_model rt file_path ext mime file_data)) = [].
Proof.
  unfold Extractor.ask_model.
  rewrite trace_bind. unfold dispositions. rewrite filter_app.
  change (filter is_disposition (trace_of (emit (Extractor.GenerateContent _))))
    with (@nil Extractor.event).
  simpl app.
  destruct (Extractor.generate_content rt _ _).
  - apply extract_json_no_disposition.
  - reflexivity.
Qed.

Lemma extract_invoice_no_disposition rt file_path :
  dispositions (trace_of (Extractor.extract_invoice rt file_path)) = [].
Proof.
  unfold Extractor.extract_invoice.
  destruct (str_eqb _ _).
  - rewrite trace_bind. unfold dispositions. rewrite filter_app.
    unfold Extractor.convert_xlsx_to_csv.
    destruct (Extractor.read_excel_to_csv rt file_path) as [csv|e].
    + destruct csv as [|c csv]; [reflexivity|].
      apply ask_model_no_disposition.
    + reflexivity.
  - apply ask_model_no_disposition.
Qed.

Lemma process_file_dispositions rt folder_path file :
  dispositions (trace_of (Extractor.process_file rt folder_path file))
  = [disposition_of rt folder_path file].
Proof.
  unfold Extractor.process_file, disposition_of.
  rewrite trace_bind. cbv beta. rewrite trace_bind.
  unfold dispositions. rewrite !filter_app.
  fold (dispositions (trace_of (Extractor.extract_invoice rt (join folder_path file)))).
  rewrite extract_invoice_no_disposition.
  destruct (result_of (Extractor.extract_invoice rt (join folder_path file)))
    as [doc|]; [destruct (truthy doc)|]; reflexivity.
Qed.

Lemma disposition_of_disposed rt folder_path file :
  disposed (folder_path, file) (disposition_of rt folder_path file).
Proof.
  unfold disposed, disposition_of; simpl.
  destruct (result_of _) as [doc|]; [destruct (truthy doc)|]; eauto.
Qed.

(** C10. When the model answers a file with a text from which an empty
    object is recovered, the file is moved to the error folder and nothing
    is written for it. *)
Theorem empty_object_is_a_failure
    (rt : Extractor.runtime) (folder_path file : pystr) :
  result_of (Extractor.extract_invoice rt (join folder_path file)) = Some (VDict []) ->
  dispositions (trace_of (Extractor.process_file rt folder_path file))
  = [Extractor.Move (join folder_path file) (join Extractor.error_dir file)].
Proof.
  intros H. rewrite process_file_dispositions.
  unfold disposition_of. rewrite H. reflexivity.
Qed.

Lemma empty_object_is_a_failure_witness :
  dispositions (trace_of (Extractor.process_file
                            (Examples.extractor_rt (Returns (py "Here you go: {}")))
                            (py "sorted_invoices/acme") (py "inv-001.pdf")))
  = [Extractor.Move (py "sorted_invoices/acme/inv-001.pdf")
                    (py "error_invoices/inv-001.pdf")].
Proof.
  apply (empty_object_is_a_failure
           (Examples.extractor_rt (Returns (py "Here you go: {}")))
           (py "sorted_invoices/acme") (py "inv-001.pdf")).
  vm_compute. reflexivity.
Defined.

(* ================================================================== *)
(** ** The extraction prompt *)
(* ================================================================== *)

Lemma str_eqb_eq (a b : pystr) : str_eqb a b = true <-> a = b.
Proof.
  revert b. induction a as [|x a IH]; intros [|y b]; simpl;
    try (split; [discriminate | discriminate]); try tauto.
  rewrite andb_true_iff, N.eqb_eq, IH. split.
  - intros [-> ->]. reflexivity.
  - intros [= -> ->]. auto.
Qed.

Lemma hints_get_spec (d : list (pystr * pystr)) (k default : pystr) :
  In (k, Extractor.hints_get d k default) d
  \/ ((forall h, ~ In (k, h) d) /\ Extractor.hints_get d k default = default).
Proof.
  induction d as [|[k' v] d IH]; simpl.
  - right. split; [intros h [] | reflexivity].
  - destruct (str_eqb k' k) eqn:Hk.
    + apply str_eqb_eq in Hk. subst k'. left. left. reflexivity.
    + destruct IH as [IH | [IH1 IH2]].
      * left. right. exact IH.
      * right. split; [|exact IH2].
        intros h [[= -> ->] | Hin].
        -- assert (str_eqb k k = true) by (apply str_eqb_eq; reflexivity).
           congruence.
        -- exact (IH1 h Hin).
Qed.

Lemma extract_json_only_prints (text : pystr) (r : Extractor.request) :
  ~ In (Extractor.GenerateContent r) (trace_of (Extractor.extract_json text)).
Proof.
  unfold Extractor.extract_json.
  destruct (Extractor.re_search text) as [g|]; [destruct (json_loads g)|];
    simpl; intros H; repeat (destruct H as [H|H]; [discriminate H|]); exact H.
Qed.

Lemma ask_model_request rt file_path ext mime file_data (r : Extractor.request) :
  In (Extractor.GenerateContent r)
     (trace_of (Extractor.ask_model rt file_path ext mime file_data)) ->
  Extractor.prompt r = Extractor.final_prompt ext.
Proof.
  unfold Extractor.ask_model. rewrite trace_bind. cbv beta.
  intros H. apply in_app_or in H. destruct H as [H|H].
  - destruct H as [H|[]]. injection H as <-. reflexivity.
  - destruct (Extractor.generate_content rt _ _).
    + exfalso. exact (extract_json_only_prints _ _ H).
    + destruct H as [H|[]]. discriminate H.
Qed.

(** C9. Every prompt the extractor sends is a function of the extension
    of the file alone: the hint sentence the table has for the extension
    (the sentence of a generic document when the table has none), a blank
    line, and the one template [BASE_PROMPT]. Only the hint sentence
    varies. *)
Theorem prompt_is_hint_then_template
    (rt : Extractor.runtime) (file_path : pystr) (r : Extractor.request) :
  In (Extractor.GenerateContent r)
     (trace_of (Extractor.extract_invoice rt file_path)) ->
  let ext := hint_key (snd (splitext file_path)) in
  Extractor.prompt r = Extractor.format_hint ext ++ nl ++ nl ++ Extractor.BASE_PROMPT
  /\ (In (ext, Extractor.format_hint ext) Extractor.FILE_HINTS
      \/ ((forall h, ~ In (ext, h) Extractor.FILE_HINTS)
          /\ Extractor.format_hint ext = default_hint)).
Proof.
  intros H ext. split; [|apply hints_get_spec].
  unfold Extractor.extract_invoice in H. subst ext. unfold hint_key.
  destruct (str_eqb (lower (snd (splitext file_path))) (py ".xlsx")).
  - rewrite trace_bind in H. cbv beta in H.
    apply in_app_or in H. destruct H as [H|H].
    + unfold Extractor.convert_xlsx_to_csv in H.
      destruct (Extractor.read_excel_to_csv rt file_path);
        simpl in H; [destruct H | destruct H as [H|[]]; discriminate H].
    + destruct (result_of (Extractor.convert_xlsx_to_csv rt file_path)) as [[|c csv]|];
        try (destruct H; fail).
      exact (ask_model_request _ _ _ _ _ _ H).
  - exact (ask_model_request _ _ _ _ _ _ H).
Qed.

Lemma prompt_is_hint_then_template_witness :
  Extractor.prompt
    {| Extractor.prompt := Extractor.final_prompt (py ".pdf");
       Extractor.mime_type := Some (py "application/pdf");
       Extractor.data := Extractor.FileBytes [37%N; 80%N; 68%N; 70%N] |}
  = py "The following file is an invoice in PDF format." ++ nl ++ nl
    ++ Extractor.BASE_PROMPT.
Proof.
  refine (proj1 (prompt_is_hint_then_template
                   (Examples.extractor_rt (Returns (py "{}")))
                   (py "sorted_invoices/acme/inv-001.PDF") _ _)).
  vm_compute. left. reflexivity.
Defined.

(* ================================================================== *)
(** ** The evaluator: report rows *)
(* ================================================================== *)

Lemma appended_app (a b : list Evaluator.event) :
  Evaluator.appended (a ++ b) = Evaluator.appended a ++ Evaluator.appended b.
Proof.
  induction a as [|e a IH]; simpl; [reflexivity|].
  destruct e; simpl; rewrite IH; reflexivity.
Qed.

Lemma equals_str_true (v : value) (s : pystr) :
  Evaluator.equals_str v s = true <-> v = VStr s.
Proof.
  destruct v; simpl; try (split; [discriminate | discriminate]).
  rewrite str_eqb_eq. split; [intros -> | intros [= ->]]; reflexivity.
Qed.

Lemma equals_str_false (v : value) (s : pystr) :
  v <> VStr s -> Evaluator.equals_str v s = false.
Proof.
  intros H. destruct (Evaluator.equals_str v s) eqn:E; [|reflexivity].
  apply equals_str_true in E. contradiction.
Qed.

(** What [evaluate_file] does once a verdict has been recovered and the
    rest of the [try] block raises nothing. *)
Lemma evaluate_file_recovered rt file v :
  recovered_verdict rt file = Some v ->
  result_of (Evaluator.report_verdict rt (fst (splitext file)) v) = None ->
  Evaluator.appended (trace_of (Evaluator.evaluate_file rt file))
  = Evaluator.appended
      (trace_of (Evaluator.report_verdict rt (fst (splitext file)) v)).
Proof.
  unfold recovered_verdict, Evaluator.evaluate_file.
  destruct (endswith file (py ".json")); [|discriminate].
  destruct (Evaluator.path_exists rt _); [|discriminate].
  cbn [andb negb].
  destruct (Evaluator.generate_content rt _) as [text|e]; [|discriminate].
  intros Hv Hr.
  rewrite trace_bind, appended_app. cbv beta.
  rewrite trace_bind, appended_app. cbv beta.
  rewrite trace_bind, appended_app.
  assert (Ht : trace_of (Evaluator.read_verdict rt (fst (splitext file)) text)
               = trace_of (Evaluator.report_verdict rt (fst (splitext file)) v)).
  { unfold Evaluator.read_verdict. rewrite Hv, trace_bind. apply app_nil_r. }
  assert (Hn : result_of (Evaluator.read_verdict rt (fst (splitext file)) text) = None).
  { unfold Evaluator.read_verdict. rewrite Hv, result_bind, Hr. reflexivity. }
  rewrite Ht, Hn.
  change (Evaluator.appended (trace_of (Evaluator.print _))) with (@nil Evaluator.row).
  change (Evaluator.appended (trace_of (emit (Evaluator.GenerateContent _))))
    with (@nil Evaluator.row).
  change (Evaluator.appended (trace_of (@ret Evaluator.event unit tt)))
    with (@nil Evaluator.row).
  rewrite app_nil_r. reflexivity.
Qed.

Lemma report_mismatches_rows (base : pystr) (entries : list value) :
  Forall is_dict entries ->
  Evaluator.report_mismatches base entries
  = (None, map (fun entry => Evaluator.Append (mismatch_row base entry)) entries).
Proof.
  induction 1 as [|entry entries Hd _ IH]; simpl.
  - reflexivity.
  - destruct entry; try contradiction. rewrite IH. reflexivity.
Qed.

Lemma appended_map_append (l : list Evaluator.row) :
  Evaluator.appended (map Evaluator.Append l) = l.
Proof.
  induction l as [|r l IH]; simpl; [|rewrite IH]; reflexivity.
Qed.

(** C5. A recovered verdict that says "Mismatch" and itemizes one entry or
    more appends one row per entry, with the base name of the file and the
    field, the expected and the actual value of the entry; a recovered
    verdict that says "Pass" appends the one row with the three dashes. *)
Theorem rows_of_mismatch_and_pass
    (rt : Evaluator.runtime) (file : pystr) (d : list (pystr * value)) :
  recovered_verdict rt file = Some (VDict d) ->
  (forall entries,
      status_of d = VStr (py "Mismatch") ->
      mismatches_of d = VList entries ->
      entries <> [] ->
      Forall is_dict entries ->
      Evaluator.appended (trace_of (Evaluator.evaluate_file rt file))
      = map (mismatch_row (fst (splitext file))) entries
      /\ List.length (Evaluator.appended (trace_of (Evaluator.evaluate_file rt file)))
         = List.length entries)
  /\ (status_of d = VStr (py "Pass") ->
      Evaluator.appended (trace_of (Evaluator.evaluate_file rt file))
      = [pass_row (fst (splitext file))]).
Proof.
  intros Hrec. split.
  - intros entries Hs Hm Hne Hd.
    assert (Hrv : Evaluator.report_verdict rt (fst (splitext file)) (VDict d)
                  = (None, map (fun entry => Evaluator.Append
                                               (mismatch_row (fst (splitext file)) entry))
                               entries)).
    { unfold Evaluator.report_verdict.
      fold (status_of d). fold (mismatches_of d). rewrite Hs, Hm.
      destruct entries as [|e0 es]; [contradiction|].
      change (Evaluator.equals_str (VStr (py "Mismatch")) (py "Pass")) with false.
      change (Evaluator.equals_str (VStr (py "Mismatch")) (py "Mismatch")) with true.
      cbn [truthy negb Evaluator.iterate].
      apply report_mismatches_rows. exact Hd. }
    rewrite (evaluate_file_recovered rt file _ Hrec); rewrite Hrv; [|reflexivity].
    unfold trace_of; cbn [snd].
    rewrite <- (map_map (mismatch_row (fst (splitext file))) Evaluator.Append).
    rewrite appended_map_append. split; [reflexivity|apply length_map].
  - intros Hs.
    assert (Hrv : Evaluator.report_verdict rt (fst (splitext file)) (VDict d)
                  = (None, [Evaluator.Append (pass_row (fst (splitext file)))])).
    { unfold Evaluator.report_verdict. fold (status_of d). rewrite Hs.
      change (Evaluator.equals_str (VStr (py "Pass")) (py "Pass")) with true.
      reflexivity. }
    rewrite (evaluate_file_recovered rt file _ Hrec); rewrite Hrv; reflexivity.
Qed.

Lemma rows_of_mismatch_and_pass_witness :
  let file := py "inv-001.json" in
  let entries :=
    [VDict [(py "field", VStr (py "total")); (py "expected", VStr (py "$100.00"));
            (py "actual", VStr (py "100.00"))];
     VDict [(py "field", VStr (py "due_date"))]] in
  Evaluator.appended
    (trace_of (Evaluator.evaluate_file
       (Examples.evaluator_rt true (Returns (q
          "```json
{'overall_status': 'Mismatch',
 'mismatches': [{'field': 'total', 'expected': '$100.00', 'actual': '100.00'},
                {'field': 'due_date'}]}
```")))
       file))
  = map (mismatch_row (fst (splitext file))) entries
  /\ Evaluator.appended
       (trace_of (Evaluator.evaluate_file
          (Examples.evaluator_rt true
             (Returns (q "{'overall_status': 'Pass', 'mismatches': []}")))
          file))
     = [pass_row (fst (splitext file))].
Proof.
  intros file entries. split.
  - refine (proj1 (proj1 (rows_of_mismatch_and_pass _ file
              [(py "overall_status", VStr (py "Mismatch"));
               (py "mismatches", VList entries)] _)
              entries _ _ _ _)).
    + vm_compute. reflexivity.
    + reflexivity.
    + reflexivity.
    + discriminate.
    + repeat constructor.
  - refine (proj2 (rows_of_mismatch_and_pass _ file
              [(py "overall_status", VStr (py "Pass"));
               (py "mismatches", VList [])] _) _).
    + vm_compute. reflexivity.
    + reflexivity.
Defined.

(** C6. A recovered verdict that says "Mismatch" and lists no mismatch
    appends exactly one row, labelled "Mismatch", whose text says that no
    detail was given; no "Pass" row is appended for it. *)
Theorem mismatch_without_detail
    (rt : Evaluator.runtime) (file : pystr) (d : list (pystr * value)) :
  recovered_verdict rt file = Some (VDict d) ->
  status_of d = VStr (py "Mismatch") ->
  mismatches_of d = VList [] ->
  Evaluator.appended (trace_of (Evaluator.evaluate_file rt file))
  = [no_detail_row (fst (splitext file))]
  /\ ~ In (pass_row (fst (splitext file)))
          (Evaluator.appended (trace_of (Evaluator.evaluate_file rt file))).
Proof.
  intros Hrec Hs Hm.
  assert (Hrv : Evaluator.report_verdict rt (fst (splitext file)) (VDict d)
                = (None, [Evaluator.Append (no_detail_row (fst (splitext file)))])).
  { unfold Evaluator.report_verdict.
    fold (status_of d). fold (mismatches_of d). rewrite Hs, Hm.
    change (Evaluator.equals_str (VStr (py "Mismatch")) (py "Pass")) with false.
    change (Evaluator.equals_str (VStr (py "Mismatch")) (py "Mismatch")) with true.
    reflexivity. }
  rewrite (evaluate_file_recovered rt file _ Hrec); rewrite Hrv; [|reflexivity].
  split; [reflexivity|].
  intros [H|[]]. unfold no_detail_row, pass_row in H. discriminate H.
Qed.

Lemma mismatch_without_detail_witness :
  Evaluator.appended
    (trace_of (Evaluator.evaluate_file
       (Examples.evaluator_rt true
          (Returns (q "{'overall_status': 'Mismatch', 'mismatches': []}")))
       (py "inv-001.json")))
  = [no_detail_row (fst (splitext (py "inv-001.json")))].
Proof.
  refine (proj1 (mismatch_without_detail _ (py "inv-001.json")
            [(py "overall_status", VStr (py "Mismatch"));
             (py "mismatches", VList [])] _ _ _)).
  - vm_compute. reflexivity.
  - reflexivity.
  - reflexivity.
Defined.

(** C7. A recovered verdict whose status is neither "Pass" nor "Mismatch"
    appends exactly one row, an error row that carries the status; when
    the key is absent the status it carries is the default,
    "Parse Error". *)
Theorem invalid_status_reported
    (rt : Evaluator.runtime) (file : pystr) (d : list (pystr * value)) :
  recovered_verdict rt file = Some (VDict d) ->
  (status_of d <> VStr (py "Pass") ->
   status_of d <> VStr (py "Mismatch") ->
   Evaluator.appended (trace_of (Evaluator.evaluate_file rt file))
   = [invalid_status_row (fst (splitext file)) (Evaluator.py_str rt (status_of d))])
  /\ (dict_lookup d (py "overall_status") = None ->
      Evaluator.appended (trace_of (Evaluator.evaluate_file rt file))
      = [invalid_status_row (fst (splitext file)) (py "Parse Error")]).
Proof.
  intros Hrec.
  assert (Hgen : status_of d <> VStr (py "Pass") ->
                 status_of d <> VStr (py "Mismatch") ->
                 Evaluator.appended (trace_of (Evaluator.evaluate_file rt file))
                 = [invalid_status_row (fst (splitext file))
                                       (Evaluator.py_str rt (status_of d))]).
  { intros Hp Hm.
    assert (Hrv : Evaluator.report_verdict rt (fst (splitext file)) (VDict d)
                  = (None, [Evaluator.Append
                              (invalid_status_row (fst (splitext file))
                                 (Evaluator.py_str rt (status_of d)))])).
    { unfold Evaluator.report_verdict. fold (status_of d).
      rewrite (equals_str_false _ _ Hp), (equals_str_false _ _ Hm). reflexivity. }
    rewrite (evaluate_file_recovered rt file _ Hrec); rewrite Hrv; reflexivity. }
  split; [exact Hgen|].
  intros Hnone.
  assert (Hs : status_of d = VStr (py "Parse Error")).
  { unfold status_of, Evaluator.get. rewrite Hnone. reflexivity. }
  rewrite Hgen; rewrite Hs; [reflexivity | discriminate | discriminate].
Qed.

Lemma invalid_status_reported_witness :
  Evaluator.appended
    (trace_of (Evaluator.evaluate_file
       (Examples.evaluator_rt true (Returns (q "{'overall_status': 'Fail'}")))
       (py "inv-001.json")))
  = [invalid_status_row (fst (splitext (py "inv-001.json"))) (py "Fail")]
  /\ Evaluator.appended
       (trace_of (Evaluator.evaluate_file
          (Examples.evaluator_rt true (Returns (q "{'mismatches': []}")))
          (py "inv-001.json")))
     = [invalid_status_row (fst (splitext (py "inv-001.json"))) (py "Parse Error")].
Proof.
  split.
  - refine (proj1 (invalid_status_reported _ (py "inv-001.json")
              [(py "overall_status", VStr (py "Fail"))] _) _ _).
    + vm_compute. reflexivity.
    + discriminate.
    + discriminate.
  - refine (proj2 (invalid_status_reported _ (py "inv-001.json")
              [(py "mismatches", VList [])] _) _).
    + vm_compute. reflexivity.
    + reflexivity.
Defined.

(** C8. A ground-truth file without an extracted output appends exactly
    one row, "Missing Output" with dashes; the model is not called for it,
    nothing is raised, and the loop goes on with the files that follow. *)
Theorem missing_output_reported
    (rt : Evaluator.runtime) (before after : list pystr) (file : pystr) :
  sorted (Evaluator.listdir rt (py "ground_truth")) = before ++ file :: after ->
  endswith file (py ".json") = true ->
  Evaluator.path_exists rt (join (py "gemini_output") file) = false ->
  let base := fst (splitext file) in
  trace_of (Evaluator.evaluate_file rt file)
  = [Evaluator.Print (requesting_line base);
     Evaluator.Append (missing_output_row base)]
  /\ filter is_generate (trace_of (Evaluator.evaluate_file rt file)) = []
  /\ Evaluator.results rt
     = Evaluator.appended (trace_of (for_each before (Evaluator.evaluate_file rt)))
       ++ missing_output_row base
       :: Evaluator.appended (trace_of (for_each after (Evaluator.evaluate_file rt))).
Proof.
  intros Hl He Hp base.
  assert (Ht : trace_of (Evaluator.evaluate_file rt file)
               = [Evaluator.Print (requesting_line base);
                  Evaluator.Append (missing_output_row base)]).
  { unfold Evaluator.evaluate_file. rewrite He, Hp. reflexivity. }
  split; [exact Ht|]. split.
  - rewrite Ht. reflexivity.
  - unfold Evaluator.results, Evaluator.loop. rewrite Hl.
    rewrite trace_for_each_app, appended_app.
    change (for_each (file :: after) (Evaluator.evaluate_file rt))
      with (bind (Evaluator.evaluate_file rt file)
                 (fun _ => for_each after (Evaluator.evaluate_file rt))).
    rewrite trace_bind, appended_app, Ht. reflexivity.
Qed.

Lemma missing_output_reported_witness :
  Evaluator.results (Examples.evaluator_rt false (Raises (py "not called")))
  = [missing_output_row (py "inv-001")].
Proof.
  refine (proj2 (proj2 (missing_output_reported
            (Examples.evaluator_rt false (Raises (py "not called")))
            [] [] (py "inv-001.json") _ _ _))).
  - reflexivity.
  - reflexivity.
  - reflexivity.
Defined.

(* ================================================================== *)
(** ** The shape of a text that parses to an object *)
(* ================================================================== *)

(** *** Tokens: the first is an opening brace, the last a closing one *)

Lemma atom_value_not_dict (a : atom) : ~ is_dict (atom_value a).
Proof. destruct a; exact (fun H => H). Qed.

Lemma root_is_list_cons (f : frame) (stk : list frame) :
  stk <> [] -> root_is_list (f :: stk) = root_is_list stk.
Proof. destruct stk; [contradiction | reflexivity]. Qed.

Lemma root_is_list_nonempty (stk : list frame) :
  root_is_list stk = true -> stk <> [].
Proof. destruct stk; [discriminate | discriminate]. Qed.

Lemma not_dict_after (stk : list frame) (v : value) :
  root_is_list stk = true -> not_dict_state (AfterValue stk v).
Proof. destruct stk; [discriminate | exact (fun H => H)]. Qed.

Lemma not_dict_list_open (stk : list frame) :
  root_is_list stk = true -> not_dict_state (ListOpen stk).
Proof. destruct stk; [discriminate | exact (fun H => H)]. Qed.

Lemma begin_value_not_dict (stk : list frame) (t : token) (st : pstate) :
  root_is_list stk = true ->
  begin_value stk t = Some st -> not_dict_state st.
Proof.
  intros Hr. destruct t; simpl; try discriminate; intros [= <-].
  - exact Hr.
  - apply not_dict_list_open, Hr.
  - apply not_dict_after, Hr.
  - apply not_dict_after, Hr.
Qed.

Lemma pstep_not_dict (st st' : pstate) (t : token) :
  not_dict_state st -> pstep st t = Some st' -> not_dict_state st'.
Proof.
  destruct st as [stk|stk|stk|stk done|stk done k|stk v]; simpl.
  - apply begin_value_not_dict.
  - intros Hr. destruct stk as [|f stk].
    + destruct t; simpl; try discriminate; intros [= <-]; simpl; auto.
    + assert (Hr' : root_is_list (InList [] :: f :: stk) = true) by exact Hr.
      destruct t; try (apply (begin_value_not_dict _ _ _ Hr')).
      intros [= <-]. exact Hr.
  - intros Hr. destruct t; try discriminate; intros [= <-].
    + apply not_dict_after, Hr.
    + exact Hr.
  - intros Hr. destruct t; try discriminate; intros [= <-]. exact Hr.
  - intros Hr. destruct t; try discriminate; intros [= <-].
    change (root_is_list (InDict done k :: stk) = true).
    rewrite root_is_list_cons; [exact Hr | apply root_is_list_nonempty, Hr].
  - destruct stk as [|f stk]; [discriminate|].
    intros Hr.
    destruct f as [done|done k]; destruct t; try discriminate; intros [= <-].
    + destruct stk; [exact (fun H => H) | exact Hr].
    + simpl. destruct stk; [reflexivity | exact Hr].
    + destruct stk; [discriminate Hr | apply not_dict_after; exact Hr].
    + simpl. destruct stk; [discriminate Hr | exact Hr].
Qed.

Lemma parse_from_not_dict (ts : list token) (st : pstate) (v : value) :
  not_dict_state st -> parse_from st ts = Some v -> ~ is_dict v.
Proof.
  revert st. induction ts as [|t ts IH]; intros st Hst; simpl.
  - destruct st as [| | | | |stk v0]; try discriminate.
    destruct stk; [|discriminate]. intros [= <-]. exact Hst.
  - destruct (pstep st t) as [st'|] eqn:Hp; [|discriminate].
    apply IH. exact (pstep_not_dict _ _ _ Hst Hp).
Qed.

Lemma parse_dict_first (ts : list token) (d : list (pystr * value)) :
  parse ts = Some (VDict d) -> exists ts', ts = TLBrace :: ts'.
Proof.
  unfold parse. destruct ts as [|t ts]; [discriminate|].
  simpl. intros H.
  destruct t; try discriminate; try (eexists; reflexivity); exfalso;
    simpl in H.
  - exact (@parse_from_not_dict ts (ListOpen []) (VDict d) I H I).
  - exact (@parse_from_not_dict ts (AfterValue [] (VStr s)) (VDict d)
             (fun x => x) H I).
  - exact (@parse_from_not_dict ts (AfterValue [] (atom_value a)) (VDict d)
             (@atom_value_not_dict a) H I).
Qed.

Lemma pstep_completes_dict (st : pstate) (t : token) (d : list (pystr * value)) :
  pstep st t = Some (AfterValue [] (VDict d)) -> t = TRBrace.
Proof.
  destruct st as [stk|stk|stk|stk done|stk done k|stk v]; simpl.
  - destruct t; simpl; try discriminate.
    intros [= _ H]. destruct a; discriminate H.
  - destruct t; simpl; try discriminate.
  - destruct t; try discriminate. reflexivity.
  - destruct t; discriminate.
  - destruct t; discriminate.
  - destruct stk as [|[done|done k] stk]; destruct t; try discriminate.
    reflexivity.
Qed.

Lemma parse_from_dict_last (ts : list token) (st : pstate) (d : list (pystr * value)) :
  ts <> [] -> parse_from st ts = Some (VDict d) ->
  exists ts', ts = ts' ++ [TRBrace].
Proof.
  revert st. induction ts as [|t ts IH]; intros st Hne; [contradiction|].
  simpl. destruct (pstep st t) as [st'|] eqn:Hp; [|discriminate].
  destruct ts as [|t' ts].
  - simpl. destruct st' as [| | | | |stk v]; try discriminate.
    destruct stk; [|discriminate]. intros [= ->].
    apply pstep_completes_dict in Hp. subst t. exists []. reflexivity.
  - intros H. destruct (IH st' ltac:(discriminate) H) as [ts' Hts].
    rewrite Hts.
    exists (t :: ts'). reflexivity.
Qed.

Lemma parse_dict_last (ts : list token) (d : list (pystr * value)) :
  parse ts = Some (VDict d) -> exists ts', ts = ts' ++ [TRBrace].
Proof.
  intros H. apply (@parse_from_dict_last ts (AwaitValue []) d); [|exact H].
  intros ->. discriminate H.
Qed.

(** *** Characters: whitespace around the tokens does not count *)

Lemma is_json_ws_cases (c : char) :
  is_json_ws c = true -> c = 32%N \/ c = 9%N \/ c = 10%N \/ c = 13%N.
Proof.
  unfold is_json_ws. rewrite !orb_true_iff, !N.eqb_eq. tauto.
Qed.

Ltac ws_cases H :=
  apply is_json_ws_cases in H; destruct H as [H|[H|[H|H]]]; subst.

Lemma option_map_app_nil {A} (x : option (list A)) : option_map (app []) x = x.
Proof. destruct x; reflexivity. Qed.

Lemma option_map_app_some {A} (l0 r : list A) (x : option (list A)) :
  option_map (app l0) x = Some r -> exists r', x = Some r' /\ r = l0 ++ r'.
Proof. destruct x as [r'|]; [intros [= <-]; eauto | discriminate]. Qed.

Lemma step_top_ws (c : char) : is_json_ws c = true -> step_top c = Some ([], LTop).
Proof. unfold step_top. intros ->. reflexivity. Qed.

Lemma lex_ws_tail (w : pystr) :
  json_ws w -> forall st, lex_from st w = finish st.
Proof.
  induction 1 as [|c w Hc _ IH]; intros st; [reflexivity|].
  destruct st as [|acc|acc hi|acc hi|acc hi k u].
  - simpl. rewrite (step_top_ws c Hc). rewrite option_map_app_nil. apply IH.
  - simpl. replace (is_word_char c) with false by (ws_cases Hc; reflexivity).
    rewrite (step_top_ws c Hc).
    destruct (word_token acc) as [t|]; [|reflexivity].
    rewrite IH. reflexivity.
  - ws_cases Hc; [|reflexivity..].
    cbn [lex_from step N.eqb N.ltb N.compare Pos.eqb Pos.compare Pos.compare_cont].
    rewrite IH. reflexivity.
  - ws_cases Hc; reflexivity.
  - ws_cases Hc; reflexivity.
Qed.

Lemma lex_ws_before (w s : pystr) :
  json_ws w -> lex_from LTop (w ++ s) = lex_from LTop s.
Proof.
  induction 1 as [|c w Hc _ IH]; [reflexivity|].
  simpl. rewrite (step_top_ws c Hc), option_map_app_nil. exact IH.
Qed.

Lemma lex_ws_after (s w : pystr) (st : lstate) :
  json_ws w -> lex_from st (s ++ w) = lex_from st s.
Proof.
  intros Hw. revert st. induction s as [|c s IH]; intros st; simpl.
  - apply lex_ws_tail, Hw.
  - destruct (step st c) as [[ts st']|]; [|reflexivity].
    rewrite IH. reflexivity.
Qed.

Lemma json_loads_trim (w1 s w2 : pystr) :
  json_ws w1 -> json_ws w2 -> json_loads (w1 ++ s ++ w2) = json_loads s.
Proof.
  intros H1 H2. unfold json_loads, lex.
  rewrite (lex_ws_before w1 (s ++ w2) H1), (lex_ws_after s w2 LTop H2). reflexivity.
Qed.

(** *** Characters: where the two braces are *)

Lemma exists_last_or_nil {A} (l : list A) :
  l = [] \/ exists l' x, l = l' ++ [x].
Proof.
  destruct l as [|a l]; [left; reflexivity | right].
  destruct (@exists_last A (a :: l)) as (l' & x & H); [discriminate|].
  exists l', x. exact H.
Qed.

Lemma punctuation_lbrace (c : char) :
  punctuation c = Some TLBrace -> c = Extractor.lbrace.
Proof.
  unfold punctuation.
  repeat match goal with
         | |- context [N.eqb c ?n] => destruct (N.eqb_spec c n)
         end; try discriminate.
  intros _. assumption.
Qed.

Lemma punctuation_rbrace (c : char) :
  punctuation c = Some TRBrace -> c = Extractor.rbrace.
Proof.
  unfold punctuation.
  repeat match goal with
         | |- context [N.eqb c ?n] => destruct (N.eqb_spec c n)
         end; try discriminate.
  intros _. assumption.
Qed.

Lemma after_escape_in_token (acc : pystr) (hi : option N) (u : N) :
  in_token (after_escape acc hi u).
Proof.
  unfold after_escape.
  destruct hi; [destruct (is_low u)|]; try destruct (is_high u); exact I.
Qed.

(** Inside a string or a word the next token is not a brace. *)
Lemma lex_in_token_first (s : pystr) :
  forall st ts, in_token st -> lex_from st s <> Some (TLBrace :: ts).
Proof.
  induction s as [|c s IH]; intros st ts Hst.
  - destruct st; try contradiction; simpl; try discriminate.
    unfold word_token. destruct (constant (rev acc)); discriminate.
  - destruct st as [|acc|acc hi|acc hi|acc hi k u]; try contradiction; simpl.
    + destruct (is_word_char c).
      * rewrite option_map_app_nil. apply IH. exact I.
      * unfold word_token. destruct (constant (rev acc)); [|discriminate].
        simpl. destruct (step_top c) as [[ts0 st']|]; [|discriminate].
        destruct (lex_from st' s); discriminate.
    + destruct (N.eqb c 34).
      { destruct (lex_from LTop s); discriminate. }
      destruct (N.eqb c 92).
      { rewrite option_map_app_nil. apply IH. exact I. }
      destruct (N.ltb c 32); [discriminate|].
      rewrite option_map_app_nil. apply IH. exact I.
    + destruct (N.eqb c 117).
      { rewrite option_map_app_nil. apply IH. exact I. }
      destruct (simple_escape c); [|discriminate].
      rewrite option_map_app_nil. apply IH. exact I.
    + destruct (hex_digit c); [|discriminate].
      destruct k; rewrite option_map_app_nil; apply IH;
        [apply after_escape_in_token | exact I].
Qed.

Lemma lex_first_brace (s : pystr) (ts : list token) :
  lex s = Some (TLBrace :: ts) ->
  exists w r, s = w ++ Extractor.lbrace :: r /\ json_ws w.
Proof.
  unfold lex. induction s as [|c s IH]; [discriminate|].
  simpl. unfold step_top.
  destruct (is_json_ws c) eqn:Hws.
  - rewrite option_map_app_nil. intros H.
    destruct (IH H) as (w & r & -> & Hw).
    exists (c :: w), r. split; [reflexivity | constructor; assumption].
  - destruct (punctuation c) as [t|] eqn:Hp.
    + intros H. apply option_map_app_some in H. destruct H as (r' & _ & H).
      injection H as Ht _. subst t.
      apply punctuation_lbrace in Hp. subst c.
      exists [], s. split; [reflexivity | constructor].
    + destruct (N.eqb c 34).
      { rewrite option_map_app_nil. intros H.
        exfalso. exact (lex_in_token_first s (LStr [] None) ts I H). }
      destruct (is_word_char c); [|discriminate].
      rewrite option_map_app_nil. intros H.
      exfalso. exact (lex_in_token_first s (LWord [c]) ts I H).
Qed.

(** When nothing more is produced, the lexer is between tokens and only
    whitespace is left. *)
Lemma lex_nothing (s : pystr) :
  forall st, lex_from st s = Some [] -> st = LTop /\ json_ws s.
Proof.
  induction s as [|c s IH]; intros st.
  - destruct st; simpl; try discriminate.
    + intros _. split; [reflexivity | constructor].
    + destruct (word_token acc); discriminate.
  - simpl. destruct (step st c) as [[ts0 st']|] eqn:Hstep; [|discriminate].
    intros H. apply option_map_app_some in H. destruct H as (r' & Hr & H).
    symmetry in H. apply app_eq_nil in H. destruct H as [-> ->].
    destruct (IH st' Hr) as [-> Hs].
    destruct st as [|acc|acc hi|acc hi|acc hi k u]; simpl in Hstep.
    + unfold step_top in Hstep.
      destruct (is_json_ws c) eqn:Hws.
      * split; [reflexivity | constructor; assumption].
      * destruct (punctuation c); [discriminate|].
        destruct (N.eqb c 34); [discriminate|].
        destruct (is_word_char c); discriminate.
    + destruct (is_word_char c); [discriminate|].
      destruct (word_token acc); [|discriminate].
      destruct (step_top c) as [[? ?]|]; discriminate.
    + destruct (N.eqb c 34); [discriminate|].
      destruct (N.eqb c 92); [discriminate|].
      destruct (N.ltb c 32); discriminate.
    + destruct (N.eqb c 117); [discriminate|].
      destruct (simple_escape c); discriminate.
    + destruct (hex_digit c); [|discriminate].
      destruct k; [|discriminate].
      injection Hstep as Hstep.
      match type of Hstep with
      | after_escape ?a ?h ?x = _ => pose proof (after_escape_in_token a h x) as Hin
      end.
      rewrite Hstep in Hin. contradiction.
Qed.

(** Only a closing brace makes the lexer end its output with the token of
    a closing brace. *)
Lemma step_last_brace (st st' : lstate) (c : char) (ts : list token) :
  step st c = Some (ts ++ [TRBrace], st') -> c = Extractor.rbrace.
Proof.
  assert (Htop : forall ts0 st0, step_top c = Some (ts0, st0) ->
                 forall l, ts0 = l ++ [TRBrace] -> c = Extractor.rbrace).
  { unfold step_top. intros ts0 st0.
    destruct (is_json_ws c).
    { intros [= <- _] l H. destruct l; discriminate H. }
    destruct (punctuation c) as [t|] eqn:Hp.
    { intros [= <- _] l H. destruct l as [|x l].
      - injection H as ->. apply punctuation_rbrace, Hp.
      - destruct l; discriminate H. }
    destruct (N.eqb c 34).
    { intros [= <- _] l H. destruct l; discriminate H. }
    destruct (is_word_char c); [|discriminate].
    intros [= <- _] l H. destruct l; discriminate H. }
  destruct st as [|acc|acc hi|acc hi|acc hi k u]; simpl.
  - intros H. exact (Htop _ _ H ts eq_refl).
  - destruct (is_word_char c).
    { intros [= H _]. destruct ts; discriminate H. }
    unfold word_token. destruct (constant (rev acc)) as [a|]; [|discriminate].
    simpl. destruct (step_top c) as [[ts0 st0]|] eqn:Hs; [|discriminate].
    intros [= H _]. destruct ts as [|x ts].
    + discriminate H.
    + injection H as _ H. exact (Htop _ _ eq_refl ts H).
  - destruct (N.eqb c 34).
    { intros [= H _]. destruct ts as [|x ts]; [discriminate H|].
      destruct ts; discriminate H. }
    destruct (N.eqb c 92).
    { intros [= H _]. destruct ts; discriminate H. }
    destruct (N.ltb c 32); [discriminate|].
    intros [= H _]. destruct ts; discriminate H.
  - destruct (N.eqb c 117).
    { intros [= H _]. destruct ts; discriminate H. }
    destruct (simple_escape c); [|discriminate].
    intros [= H _]. destruct ts; discriminate H.
  - destruct (hex_digit c); [|discriminate].
    destruct k; intros [= H _]; destruct ts; discriminate H.
Qed.

Lemma lex_from_last_brace (s : pystr) :
  forall st ts, lex_from st s = Some (ts ++ [TRBrace]) ->
  exists r w, s = r ++ Extractor.rbrace :: w /\ json_ws w.
Proof.
  induction s as [|c s IH]; intros st ts.
  - destruct st; simpl; try discriminate.
    + intros [= H]. destruct ts; discriminate H.
    + unfold word_token. destruct (constant (rev acc)); [|discriminate].
      simpl. intros [= H]. destruct ts as [|x ts]; [discriminate H|].
      destruct ts; discriminate H.
  - simpl. destruct (step st c) as [[ts0 st']|] eqn:Hstep; [|discriminate].
    intros H. apply option_map_app_some in H. destruct H as (rest & Hr & H).
    destruct (exists_last_or_nil rest) as [-> | (rest' & x & ->)].
    + rewrite app_nil_r in H. subst ts0.
      apply step_last_brace in Hstep. subst c.
      destruct (lex_nothing s st' Hr) as [_ Hs].
      exists [], s. split; [reflexivity | exact Hs].
    + rewrite app_assoc in H. apply app_inj_tail in H. destruct H as [_ <-].
      destruct (IH st' rest' Hr) as (r & w & -> & Hw).
      exists (c :: r), w. split; [reflexivity | exact Hw].
Qed.

(** *** An object text is an opening brace, a body, a closing brace,
        with whitespace around *)

Lemma two_marks {A} (a b : A) (w1 r1 r2 w2 : list A) :
  w1 ++ a :: r1 = r2 ++ b :: w2 -> a <> b -> ~ In b w1 ->
  exists body, r1 = body ++ b :: w2 /\ r2 = w1 ++ a :: body.
Proof.
  revert r2. induction w1 as [|x w1 IH]; intros r2 H Hab Hb.
  - destruct r2 as [|y r2]; simpl in H.
    + injection H as H _. contradiction.
    + injection H as -> ->. exists r2. split; reflexivity.
  - destruct r2 as [|y r2]; simpl in H.
    + injection H as -> _. exfalso. apply Hb. left. reflexivity.
    + injection H as -> H.
      destruct (IH r2 H Hab) as (body & -> & ->).
      * intros Hin. apply Hb. right. exact Hin.
      * exists body. split; reflexivity.
Qed.

Lemma json_ws_no_brace (w : pystr) (b : char) :
  json_ws w -> is_json_ws b = false -> ~ In b w.
Proof.
  intros Hw Hb Hin. unfold json_ws in Hw. rewrite Forall_forall in Hw.
  rewrite (Hw b Hin) in Hb. discriminate Hb.
Qed.

Lemma object_text_shape (j : pystr) (d : list (pystr * value)) :
  json_loads j = Some (VDict d) ->
  exists w1 body w2,
    j = w1 ++ Extractor.lbrace :: body ++ Extractor.rbrace :: w2
    /\ json_ws w1 /\ json_ws w2.
Proof.
  unfold json_loads. destruct (lex j) as [ts|] eqn:Hlex; [|discriminate].
  intros Hp.
  destruct (parse_dict_first ts d Hp) as [ts1 H1].
  destruct (parse_dict_last ts d Hp) as [ts2 H2].
  assert (Hl1 := Hlex). rewrite H1 in Hl1.
  apply lex_first_brace in Hl1. destruct Hl1 as (w1 & r1 & Hj1 & Hw1).
  rewrite H2 in Hlex. apply lex_from_last_brace in Hlex.
  destruct Hlex as (r2 & w2 & Hj2 & Hw2).
  rewrite Hj1 in Hj2.
  destruct (two_marks _ _ _ _ _ _ Hj2) as (body & -> & _).
  - discriminate.
  - apply json_ws_no_brace; [exact Hw1 | reflexivity].
  - exists w1, body, w2. auto.
Qed.

(** *** The brace span of a text *)

Lemma upto_last_close_app (body post : pystr) :
  Forall (fun c => c <> Extractor.rbrace) post ->
  Extractor.upto_last_close (body ++ Extractor.rbrace :: post)
  = Some (body ++ [Extractor.rbrace]).
Proof.
  intros Hpost.
  assert (Hnone : Extractor.upto_last_close post = None).
  { induction Hpost as [|c post Hc _ IH]; simpl; [reflexivity|].
    rewrite IH. destruct (N.eqb_spec c Extractor.rbrace); [contradiction|reflexivity]. }
  induction body as [|c body IH]; simpl.
  - rewrite Hnone. reflexivity.
  - rewrite IH. reflexivity.
Qed.

Lemma re_search_span (pre body post : pystr) :
  Forall (fun c => c <> Extractor.lbrace) pre ->
  Forall (fun c => c <> Extractor.rbrace) post ->
  Extractor.re_search (pre ++ Extractor.lbrace :: body ++ Extractor.rbrace :: post)
  = Some (Extractor.lbrace :: body ++ [Extractor.rbrace]).
Proof.
  intros Hpre Hpost. induction Hpre as [|c pre Hc _ IH]; simpl.
  - rewrite (upto_last_close_app body post Hpost). reflexivity.
  - destruct (N.eqb_spec c Extractor.lbrace); [contradiction|]. exact IH.
Qed.

Lemma json_ws_not (w : pystr) (b : char) :
  json_ws w -> is_json_ws b = false -> Forall (fun c => c <> b) w.
Proof.
  intros Hw Hb. unfold json_ws in Hw. rewrite Forall_forall in *.
  intros c Hc ->. rewrite (Hw b Hc) in Hb. discriminate Hb.
Qed.

Lemma extract_json_result (text : pystr) :
  result_of (Extractor.extract_json text)
  = match Extractor.re_search text with
    | Some group => json_loads group
    | None => None
    end.
Proof.
  unfold Extractor.extract_json.
  destruct (Extractor.re_search text) as [g|]; [|reflexivity].
  destruct (json_loads g); reflexivity.
Qed.

(** An object text with anything around it that has no opening brace
    before and no closing brace after is recovered. *)
Lemma embedded_object_recovered (pre j post : pystr) (d : list (pystr * value)) :
  json_loads j = Some (VDict d) ->
  Forall (fun c => c <> Extractor.lbrace) pre ->
  Forall (fun c => c <> Extractor.rbrace) post ->
  result_of (Extractor.extract_json (pre ++ j ++ post)) = Some (VDict d).
Proof.
  intros Hj Hpre Hpost.
  destruct (object_text_shape j d Hj) as (w1 & body & w2 & Hshape & Hw1 & Hw2).
  assert (Hcore : json_loads (Extractor.lbrace :: body ++ [Extractor.rbrace])
                  = Some (VDict d)).
  { rewrite <- Hj, Hshape.
    rewrite <- (json_loads_trim w1 (Extractor.lbrace :: body ++ [Extractor.rbrace]) w2 Hw1 Hw2).
    f_equal. simpl. rewrite <- app_assoc. reflexivity. }
  rewrite extract_json_result.
  replace (pre ++ j ++ post)
    with ((pre ++ w1) ++ Extractor.lbrace :: body ++ Extractor.rbrace :: (w2 ++ post)).
  - rewrite re_search_span.
    + exact Hcore.
    + apply Forall_app. split; [exact Hpre | apply json_ws_not; [exact Hw1 | reflexivity]].
    + apply Forall_app. split; [apply json_ws_not; [exact Hw2 | reflexivity] | exact Hpost].
  - rewrite Hshape. rewrite <- !app_assoc. simpl. rewrite <- !app_assoc. reflexivity.
Qed.

(** C4. A valid object text inside a code fence, or inside a prose without
    braces, is recovered as its strict parse; what is parsed is always the
    span from the first opening brace to the last closing brace. *)
Theorem fenced_object_is_recovered (j : pystr) (d : list (pystr * value)) :
  json_loads j = Some (VDict d) ->
  result_of (Extractor.extract_json (wrap_in_fence j)) = json_loads j
  /\ (forall pre post, brace_free pre -> brace_free post ->
        result_of (Extractor.extract_json (pre ++ j ++ post)) = json_loads j)
  /\ (forall text, result_of (Extractor.extract_json text)
                   = match Extractor.re_search text with
                     | Some group => json_loads group
                     | None => None
                     end)
  /\ (forall pre body post,
        Forall (fun c => c <> Extractor.lbrace) pre ->
        Forall (fun c => c <> Extractor.rbrace) post ->
        Extractor.re_search (pre ++ Extractor.lbrace :: body ++ Extractor.rbrace :: post)
        = Some (Extractor.lbrace :: body ++ [Extractor.rbrace])).
Proof.
  intros Hj. repeat split.
  - rewrite Hj. unfold wrap_in_fence.
    replace (py "```json" ++ nl ++ j ++ nl ++ py "```")
      with ((py "```json" ++ nl) ++ j ++ (nl ++ py "```"))
      by (rewrite <- !app_assoc; reflexivity).
    apply embedded_object_recovered; [exact Hj | |];
      repeat constructor; discriminate.
  - intros pre post Hpre Hpost. rewrite Hj.
    apply embedded_object_recovered; [exact Hj | |].
    + eapply Forall_impl; [|exact Hpre]. intros c [H _]. exact H.
    + eapply Forall_impl; [|exact Hpost]. intros c [_ H]. exact H.
  - apply extract_json_result.
  - apply re_search_span.
Qed.

Lemma fenced_object_is_recovered_witness :
  result_of (Extractor.extract_json
               (wrap_in_fence (q " {'invoice': {'total': '100.00'}, 'items': []} ")))
  = Some (VDict [(py "invoice", VDict [(py "total", VStr (py "100.00"))]);
                 (py "items", VList [])]).
Proof.
  refine (eq_trans (proj1 (fenced_object_is_recovered
            (q " {'invoice': {'total': '100.00'}, 'items': []} ")
            [(py "invoice", VDict [(py "total", VStr (py "100.00"))]);
             (py "items", VList [])] _)) _).
  - vm_compute. reflexivity.
  - vm_compute. reflexivity.
Defined.

(* ================================================================== *)
(** ** The cleanup of the evaluator against [extract_json] *)
(* ================================================================== *)

Lemma lstrip_split (s : pystr) : exists w, s = w ++ lstrip s /\ spaces w.
Proof.
  induction s as [|c s (w & IH & Hw)]; simpl.
  - exists []. split; [reflexivity | constructor].
  - destruct (isspace c) eqn:Hc.
    + exists (c :: w). split; [simpl; f_equal; exact IH | constructor; assumption].
    + exists []. split; [reflexivity | constructor].
Qed.

Lemma rstrip_split (s : pystr) : exists w, s = rstrip s ++ w /\ spaces w.
Proof.
  induction s as [|c s (w & IH & Hw)]; simpl.
  - exists []. split; [reflexivity | constructor].
  - destruct (rstrip s) as [|x r] eqn:Hr.
    + destruct (isspace c) eqn:Hc.
      * exists (c :: w). split; [simpl in IH; rewrite <- IH; reflexivity
                                 | constructor; assumption].
      * exists w. split; [simpl in *; f_equal; exact IH | exact Hw].
    + exists w. split; [simpl in *; f_equal; exact IH | exact Hw].
Qed.

Lemma strip_split (s : pystr) :
  exists a b, s = a ++ strip s ++ b /\ spaces a /\ spaces b.
Proof.
  destruct (lstrip_split s) as (a & Ha & Hsa).
  destruct (rstrip_split (lstrip s)) as (b & Hb & Hsb).
  exists a, b. unfold strip. rewrite <- Hb. auto.
Qed.

Lemma startswith_split (s p : pystr) :
  startswith s p = true -> s = p ++ skipn (List.length p) s.
Proof.
  revert s. induction p as [|y p IH]; intros s; [reflexivity|].
  destruct s as [|x s]; simpl; [discriminate|].
  rewrite andb_true_iff, N.eqb_eq. intros [-> H]. f_equal. apply IH, H.
Qed.

Lemma removeprefix_split (p s : pystr) :
  exists p', s = p' ++ removeprefix p s /\ (p' = [] \/ p' = p).
Proof.
  unfold removeprefix. destruct (startswith s p) eqn:H.
  - exists p. split; [apply startswith_split, H | right; reflexivity].
  - exists []. split; [reflexivity | left; reflexivity].
Qed.

Lemma removesuffix_split (p s : pystr) :
  exists p', s = removesuffix p s ++ p' /\ (p' = [] \/ p' = p).
Proof.
  unfold removesuffix. destruct p as [|y p].
  - exists []. split; [symmetry; apply app_nil_r | left; reflexivity].
  - destruct (endswith s (y :: p)) eqn:H.
    + exists (y :: p). split; [|right; reflexivity].
      unfold endswith in H. apply andb_true_iff in H. destruct H as [_ H].
      apply str_eqb_eq in H.
      transitivity (firstn (List.length s - List.length (y :: p)) s
                    ++ skipn (List.length s - List.length (y :: p)) s).
      * symmetry. apply firstn_skipn.
      * f_equal. exact H.
    + exists []. split; [symmetry; apply app_nil_r | left; reflexivity].
Qed.

Lemma spaces_not (w : pystr) (b : char) :
  spaces w -> isspace b = false -> Forall (fun c => c <> b) w.
Proof.
  intros Hw Hb. unfold spaces in Hw. rewrite Forall_forall in *.
  intros c Hc ->. rewrite (Hw b Hc) in Hb. discriminate Hb.
Qed.

(** What the cleanup removes has no brace. *)
Lemma cleaned_text_split (text : pystr) :
  exists pre post,
    text = pre ++ Evaluator.cleaned_text text ++ post
    /\ Forall (fun c => c <> Extractor.lbrace) pre
    /\ Forall (fun c => c <> Extractor.rbrace) post.
Proof.
  unfold Evaluator.cleaned_text.
  destruct (strip_split text) as (a1 & b1 & H1 & Ha1 & Hb1).
  destruct (removeprefix_split Evaluator.fence_open (strip text)) as (p & H2 & Hp).
  destruct (removesuffix_split Evaluator.fence_close
              (removeprefix Evaluator.fence_open (strip text))) as (x & H3 & Hx).
  destruct (strip_split (removesuffix Evaluator.fence_close
              (removeprefix Evaluator.fence_open (strip text))))
    as (a2 & b2 & H4 & Ha2 & Hb2).
  exists (a1 ++ p ++ a2), (b2 ++ x ++ b1). split; [|split].
  - rewrite H1 at 1. rewrite H2 at 1. rewrite H3 at 1. rewrite H4 at 1.
    rewrite <- !app_assoc. reflexivity.
  - repeat (apply Forall_app; split).
    + apply spaces_not; [exact Ha1 | reflexivity].
    + destruct Hp as [-> | ->]; repeat constructor; discriminate.
    + apply spaces_not; [exact Ha2 | reflexivity].
  - repeat (apply Forall_app; split).
    + apply spaces_not; [exact Hb2 | reflexivity].
    + destruct Hx as [-> | ->]; repeat constructor; discriminate.
    + apply spaces_not; [exact Hb1 | reflexivity].
Qed.

(** C2, as the code has it. The evaluator cleans the answer in its own
    way and has no search for a brace span; the two paths agree in one
    direction: an object that the cleanup and strict parse of the
    evaluator recovers from a text is the object [extract_json] recovers
    from that text. *)
Theorem cleaned_verdict_is_what_extract_json_recovers
    (text : pystr) (d : list (pystr * value)) :
  json_loads (Evaluator.cleaned_text text) = Some (VDict d) ->
  result_of (Extractor.extract_json text) = Some (VDict d).
Proof.
  intros H.
  destruct (cleaned_text_split text) as (pre & post & Ht & Hpre & Hpost).
  rewrite Ht. apply embedded_object_recovered; assumption.
Qed.

Lemma cleaned_verdict_is_what_extract_json_recovers_witness :
  result_of (Extractor.extract_json
               (q "  ```json
{'overall_status': 'Pass', 'mismatches': []}
```
"))
  = Some (VDict [(py "overall_status", VStr (py "Pass")); (py "mismatches", VList [])]).
Proof.
  apply cleaned_verdict_is_what_extract_json_recovers.
  vm_compute. reflexivity.
Defined.

(** C2 as stated fails: on an answer that has a word before the object,
    [extract_json] recovers the object and the evaluator fails to parse. *)
Lemma verdict_cleanup_differs_from_extract_json :
  json_loads (Evaluator.cleaned_text (q "Verdict: {'overall_status': 'Pass'}")) = None
  /\ result_of (Extractor.extract_json (q "Verdict: {'overall_status': 'Pass'}"))
     = Some (VDict [(py "overall_status", VStr (py "Pass"))])
  /\ json_loads (Evaluator.cleaned_text (q "Verdict: {'overall_status': 'Pass'}"))
     <> result_of (Extractor.extract_json (q "Verdict: {'overall_status': 'Pass'}")).
Proof.
  split; [vm_compute; reflexivity|].
  split; [vm_compute; reflexivity|].
  vm_compute. discriminate.
Qed.

(* ================================================================== *)
(** ** The brace span, conversely *)
(* ================================================================== *)

Lemma upto_last_close_none (s : pystr) :
  Extractor.upto_last_close s = None <-> Forall (fun c => c <> Extractor.rbrace) s.
Proof.
  induction s as [|c s IH]; simpl.
  - split; [constructor | reflexivity].
  - destruct (Extractor.upto_last_close s) as [b|].
    + split; [discriminate|]. intros H. inversion H; subst.
      destruct IH as [_ IH]. discriminate (IH H3).
    + destruct (N.eqb_spec c Extractor.rbrace) as [->|Hc].
      * split; [discriminate|]. intros H. inversion H; subst. contradiction.
      * split; [|reflexivity]. intros _. constructor; [exact Hc|].
        apply IH. reflexivity.
Qed.

Lemma upto_last_close_some (s b : pystr) :
  Extractor.upto_last_close s = Some b ->
  exists body post,
    b = body ++ [Extractor.rbrace] /\ s = b ++ post
    /\ Forall (fun c => c <> Extractor.rbrace) post.
Proof.
  revert b. induction s as [|c s IH]; intros b; simpl; [discriminate|].
  destruct (Extractor.upto_last_close s) as [b'|] eqn:Hs.
  - intros [= <-]. destruct (IH b' eq_refl) as (body & post & -> & Hs' & Hp).
    exists (c :: body), post. repeat split; [rewrite Hs' at 1; reflexivity | exact Hp].
  - destruct (N.eqb_spec c Extractor.rbrace) as [->|Hc]; [|discriminate].
    intros [= <-]. exists [], s. repeat split.
    apply upto_last_close_none, Hs.
Qed.

Lemma re_search_without_close (s : pystr) :
  Forall (fun c => c <> Extractor.rbrace) s -> Extractor.re_search s = None.
Proof.
  induction 1 as [|c s Hc Hs IH]; simpl; [reflexivity|].
  rewrite IH. apply upto_last_close_none in Hs. rewrite Hs.
  destruct (N.eqb c Extractor.lbrace); reflexivity.
Qed.

Lemma re_search_shape (text group : pystr) :
  Extractor.re_search text = Some group ->
  exists pre body post,
    text = pre ++ group ++ post
    /\ group = Extractor.lbrace :: body ++ [Extractor.rbrace]
    /\ Forall (fun c => c <> Extractor.lbrace) pre
    /\ Forall (fun c => c <> Extractor.rbrace) post.
Proof.
  revert group. induction text as [|c s IH]; intros group; simpl; [discriminate|].
  destruct (N.eqb_spec c Extractor.lbrace) as [->|Hc].
  - destruct (Extractor.upto_last_close s) as [b|] eqn:Hs.
    + intros [= <-].
      destruct (upto_last_close_some s b Hs) as (body & post & -> & Hs' & Hp).
      exists [], body, post. split; [|split; [|split]].
      * simpl. f_equal. exact Hs'.
      * reflexivity.
      * constructor.
      * exact Hp.
    + apply upto_last_close_none in Hs.
      rewrite (re_search_without_close s Hs). discriminate.
  - intros H. destruct (IH group H) as (pre & body & post & -> & Hg & Hpre & Hpost).
    exists (c :: pre), body, post. split; [|split; [|split]].
    + reflexivity.
    + exact Hg.
    + constructor; assumption.
    + exact Hpost.
Qed.

(** X1. What [re.search] finds is a part of the text that starts with the
    first opening brace of the text and ends with its last closing
    brace. *)
Theorem re_search_is_first_to_last (text group : pystr) :
  Extractor.re_search text = Some group ->
  exists pre body post,
    text = pre ++ group ++ post
    /\ group = Extractor.lbrace :: body ++ [Extractor.rbrace]
    /\ Forall (fun c => c <> Extractor.lbrace) pre
    /\ Forall (fun c => c <> Extractor.rbrace) post.
Proof. apply re_search_shape. Qed.

Lemma re_search_is_first_to_last_witness :
  exists pre body post,
    py "ok: {a}{b} end" = pre ++ py "{a}{b}" ++ post
    /\ py "{a}{b}" = Extractor.lbrace :: body ++ [Extractor.rbrace]
    /\ Forall (fun c => c <> Extractor.lbrace) pre
    /\ Forall (fun c => c <> Extractor.rbrace) post.
Proof.
  apply (re_search_is_first_to_last (py "ok: {a}{b} end") (py "{a}{b}")).
  reflexivity.
Defined.

(** X2. [re.search] finds nothing exactly when no opening brace of the
    text has a closing brace after it. *)
Theorem re_search_none_iff (text : pystr) :
  Extractor.re_search text = None
  <-> ~ exists pre mid post,
        text = pre ++ Extractor.lbrace :: mid ++ Extractor.rbrace :: post.
Proof.
  split.
  - induction text as [|c s IH]; simpl.
    + intros _ (pre & mid & post & H). destruct pre; discriminate H.
    + intros H (pre & mid & post & Ht).
      assert (Hin : In Extractor.rbrace s).
      { destruct pre as [|x pre]; simpl in Ht; injection Ht as _ ->;
          repeat (rewrite in_app_iff; simpl); auto. }
      destruct (N.eqb_spec c Extractor.lbrace) as [->|Hc].
      * destruct (Extractor.upto_last_close s) eqn:Hs; [discriminate|].
        apply upto_last_close_none in Hs. rewrite Forall_forall in Hs.
        exact (Hs _ Hin eq_refl).
      * destruct pre as [|x pre]; simpl in Ht.
        -- injection Ht as -> _. contradiction.
        -- injection Ht as _ ->. apply (IH H). eauto.
  - intros Hno. destruct (Extractor.re_search text) as [g|] eqn:Hg; [|reflexivity].
    exfalso. apply Hno.
    destruct (re_search_shape text g Hg)
      as (pre & body & post & -> & -> & _ & _).
    exists pre, body, post. simpl. rewrite <- app_assoc. reflexivity.
Qed.

(* ================================================================== *)
(** ** What [extract_json] returns is an object *)
(* ================================================================== *)

Lemma root_is_dict_cons (f : frame) (stk : list frame) :
  stk <> [] -> root_is_dict (f :: stk) = root_is_dict stk.
Proof. destruct stk; [contradiction | reflexivity]. Qed.

Lemma dict_state_rooted (stk : list frame) :
  root_is_dict stk = true ->
  (forall v, dict_state (AfterValue stk v))
  /\ dict_state (DictOpen stk)
  /\ (forall done, dict_state (AwaitKey stk done))
  /\ (forall done k, dict_state (AwaitColon stk done k)).
Proof. destruct stk; [discriminate | intros H; repeat split; intros; exact H]. Qed.

Lemma begin_value_dict (stk : list frame) (t : token) (st : pstate) :
  root_is_dict stk = true ->
  begin_value stk t = Some st -> dict_state st.
Proof.
  intros Hr. destruct (dict_state_rooted stk Hr) as (Ha & Hd & _ & _).
  destruct t; simpl; try discriminate; intros [= <-].
  - exact Hd.
  - exact Hr.
  - apply Ha.
  - apply Ha.
Qed.

Lemma pstep_dict (st st' : pstate) (t : token) :
  dict_state st -> pstep st t = Some st' -> dict_state st'.
Proof.
  destruct st as [stk|stk|stk|stk done|stk done k|stk v]; simpl.
  - apply begin_value_dict.
  - intros Hr. destruct t;
      try (apply (begin_value_dict (InList [] :: stk));
           rewrite root_is_dict_cons; [exact Hr | destruct stk; discriminate]).
    intros [= <-]. apply (dict_state_rooted stk Hr).
  - destruct stk as [|f stk].
    + intros _. destruct t; try discriminate; intros [= <-]; exact I.
    + intros Hr. destruct (dict_state_rooted (f :: stk) Hr) as (Ha & _ & _ & Hc).
      destruct t; try discriminate; intros [= <-]; [apply Ha | apply Hc].
  - destruct stk as [|f stk].
    + intros _. destruct t; try discriminate; intros [= <-]; exact I.
    + intros Hr. destruct t; try discriminate; intros [= <-]. exact Hr.
  - destruct stk as [|f stk].
    + intros _. destruct t; try discriminate; intros [= <-]. reflexivity.
    + intros Hr. destruct t; try discriminate; intros [= <-]. exact Hr.
  - destruct stk as [|f stk]; [discriminate|].
    intros Hr.
    destruct f as [done|done k]; destruct t; try discriminate; intros [= <-].
    + destruct stk; [discriminate Hr | exact Hr].
    + destruct stk; [discriminate Hr | exact Hr].
    + destruct stk; [exact I | exact Hr].
    + destruct stk; [exact I | exact Hr].
Qed.

Lemma parse_from_dict (ts : list token) (st : pstate) (v : value) :
  dict_state st -> parse_from st ts = Some v -> is_dict v.
Proof.
  revert st. induction ts as [|t ts IH]; intros st Hst; simpl.
  - destruct st as [| | | | |stk v0]; try discriminate.
    destruct stk; [|discriminate]. intros [= <-]. exact Hst.
  - destruct (pstep st t) as [st'|] eqn:Hp; [|discriminate].
    apply IH. exact (pstep_dict _ _ _ Hst Hp).
Qed.

(** A text that starts with an opening brace parses to an object or not
    at all. *)
Lemma json_loads_brace_dict (r : pystr) (v : value) :
  json_loads (Extractor.lbrace :: r) = Some v -> is_dict v.
Proof.
  unfold json_loads, lex.
  change (lex_from LTop (Extractor.lbrace :: r))
    with (option_map (app [TLBrace]) (lex_from LTop r)).
  destruct (lex_from LTop r) as [ts|]; [|discriminate].
  simpl. apply (parse_from_dict ts (DictOpen [])). exact I.
Qed.

Lemma extract_json_dict (text : pystr) (v : value) :
  result_of (Extractor.extract_json text) = Some v -> is_dict v.
Proof.
  rewrite extract_json_result.
  destruct (Extractor.re_search text) as [g|] eqn:Hg; [|discriminate].
  destruct (re_search_shape text g Hg) as (_ & body & _ & _ & -> & _ & _).
  apply json_loads_brace_dict.
Qed.

(** X3. Whatever the text, [extract_json] returns [None] or a dict: a
    list or a scalar is never returned, even when that is all the text
    holds. *)
Theorem extract_json_returns_a_dict (text : pystr) (v : value) :
  result_of (Extractor.extract_json text) = Some v -> exists d, v = VDict d.
Proof.
  intros H. apply extract_json_dict in H.
  destruct v; try contradiction. eauto.
Qed.

Lemma extract_json_returns_a_dict_witness :
  exists d, VDict [(py "a", VInt 1)] = VDict d.
Proof.
  apply (extract_json_returns_a_dict (q "[{'a': 1}]")).
  vm_compute. reflexivity.
Defined.

(* ================================================================== *)
(** ** The extractor: what is written, and when the model is asked *)
(* ================================================================== *)

Lemma ask_model_result rt file_path ext mime file_data :
  result_of (Extractor.ask_model rt file_path ext mime file_data)
  = match Extractor.generate_content rt file_path
            {| Extractor.prompt := Extractor.final_prompt ext;
               Extractor.mime_type := mime; Extractor.data := file_data |} with
    | Returns text => result_of (Extractor.extract_json text)
    | Raises _ => None
    end.
Proof.
  unfold Extractor.ask_model. rewrite result_bind.
  destruct (Extractor.generate_content rt file_path _); reflexivity.
Qed.

Lemma extract_invoice_dict rt file_path (v : value) :
  result_of (Extractor.extract_invoice rt file_path) = Some v -> is_dict v.
Proof.
  unfold Extractor.extract_invoice.
  destruct (str_eqb _ _).
  - rewrite result_bind. unfold Extractor.convert_xlsx_to_csv.
    destruct (Extractor.read_excel_to_csv rt file_path) as [[|c csv]|e];
      try discriminate.
    cbn [result_of ret fst]. rewrite ask_model_result.
    destruct (Extractor.generate_content rt file_path _); [|discriminate].
    apply extract_json_dict.
  - rewrite ask_model_result.
    destruct (Extractor.generate_content rt file_path _); [|discriminate].
    apply extract_json_dict.
Qed.

(** X4. A file is written exactly when [extract_invoice] returned a dict
    with at least one key, and what is written is that dict; it is moved
    to the error folder exactly when [extract_invoice] returned [None] or
    the empty dict. *)
Theorem written_iff_nonempty_dict
    (rt : Extractor.runtime) (folder_path file : pystr) :
  let r := result_of (Extractor.extract_invoice rt (join folder_path file)) in
  let t := dispositions (trace_of (Extractor.process_file rt folder_path file)) in
  (forall doc,
      t = [Extractor.Dump (join Extractor.output_dir
                                (fst (splitext file) ++ py ".json")) doc]
      <-> r = Some doc /\ exists kv d, doc = VDict (kv :: d))
  /\ (t = [Extractor.Move (join folder_path file) (join Extractor.error_dir file)]
      <-> r = None \/ r = Some (VDict [])).
Proof.
  intros r t. subst t. rewrite process_file_dispositions.
  unfold disposition_of. fold r.
  pose proof (extract_invoice_dict rt (join folder_path file)) as Hd. fold r in Hd.
  destruct r as [v|].
  - specialize (Hd v eq_refl). destruct v as [| | | | | |d]; try contradiction.
    destruct d as [|kv d]; simpl; split.
    + intros doc. split; [discriminate|].
      intros [[= <-] (kv & d & H)]. discriminate H.
    + split; [auto | reflexivity].
    + intros doc. split.
      * intros [= <-]. split; [reflexivity | eauto].
      * intros [[= <-] _]. reflexivity.
    + split; [discriminate | intros [H|H]; discriminate H].
  - split.
    + intros doc. split; [discriminate | intros [H _]; discriminate H].
    + split; [auto | reflexivity].
Qed.

Lemma extract_json_no_request (text : pystr) :
  extractor_requests (trace_of (Extractor.extract_json text)) = [].
Proof.
  unfold Extractor.extract_json.
  destruct (Extractor.re_search text) as [g|]; [destruct (json_loads g)|];
    reflexivity.
Qed.

Lemma extractor_requests_app (a b : list Extractor.event) :
  extractor_requests (a ++ b) = extractor_requests a ++ extractor_requests b.
Proof. apply flat_map_app. Qed.

Lemma ask_model_requests rt file_path ext mime file_data :
  extractor_requests (trace_of (Extractor.ask_model rt file_path ext mime file_data))
  = [{| Extractor.prompt := Extractor.final_prompt ext;
        Extractor.mime_type := mime; Extractor.data := file_data |}].
Proof.
  unfold Extractor.ask_model. rewrite trace_bind, extractor_requests_app.
  destruct (Extractor.generate_content rt file_path _).
  - rewrite extract_json_no_request. reflexivity.
  - reflexivity.
Qed.

(** X5. A spreadsheet that cannot be read, or whose CSV text is empty, is
    given up without asking the model: [extract_invoice] returns [None]
    and sends no request. *)
Theorem unconverted_spreadsheet_is_not_sent
    (rt : Extractor.runtime) (file_path : pystr) :
  lower (snd (splitext file_path)) = py ".xlsx" ->
  (Extractor.read_excel_to_csv rt file_path = Returns []
   \/ exists e, Extractor.read_excel_to_csv rt file_path = Raises e) ->
  result_of (Extractor.extract_invoice rt file_path) = None
  /\ extractor_requests (trace_of (Extractor.extract_invoice rt file_path)) = [].
Proof.
  intros Hext Hcsv. unfold Extractor.extract_invoice. rewrite Hext.
  change (str_eqb (py ".xlsx") (py ".xlsx")) with true. cbv iota.
  rewrite result_bind, trace_bind, extractor_requests_app.
  unfold Extractor.convert_xlsx_to_csv.
  destruct Hcsv as [-> | [e ->]]; split; reflexivity.
Qed.

Lemma unconverted_spreadsheet_is_not_sent_witness :
  result_of (Extractor.extract_invoice
               (Examples.extractor_rt (Returns (py "{}")))
               (py "sorted_invoices/acme/inv-002.XLSX")) = None
  /\ extractor_requests
       (trace_of (Extractor.extract_invoice
                    (Examples.extractor_rt (Returns (py "{}")))
                    (py "sorted_invoices/acme/inv-002.XLSX"))) = [].
Proof.
  apply unconverted_spreadsheet_is_not_sent.
  - reflexivity.
  - right. exists (py "not a spreadsheet"). reflexivity.
Defined.

(** X6. The model is asked at most once for a file. A spreadsheet is sent
    as the UTF-8 encoding of its CSV text with the MIME type [text/csv]
    and the prompt of a CSV file; any other file is sent as its bytes with
    the guessed MIME type. When the call raises, [extract_invoice] returns
    [None]. *)
Theorem one_request_per_file (rt : Extractor.runtime) (file_path : pystr) :
  let ext := lower (snd (splitext file_path)) in
  let sent := extractor_requests (trace_of (Extractor.extract_invoice rt file_path)) in
  (List.length sent <= 1)%nat
  /\ (forall r, In r sent ->
        (ext = py ".xlsx"
         /\ exists csv,
             Extractor.read_excel_to_csv rt file_path = Returns csv
             /\ r = {| Extractor.prompt := Extractor.final_prompt (py ".csv");
                       Extractor.mime_type := Some (py "text/csv");
                       Extractor.data := Extractor.Utf8 csv |})
        \/ (ext <> py ".xlsx"
            /\ r = {| Extractor.prompt := Extractor.final_prompt ext;
                      Extractor.mime_type := Extractor.guess_type rt file_path;
                      Extractor.data :=
                        Extractor.FileBytes (Extractor.read_bytes rt file_path) |}))
  /\ (forall r e, In r sent ->
        Extractor.generate_content rt file_path r = Raises e ->
        result_of (Extractor.extract_invoice rt file_path) = None).
Proof.
  intros ext sent. subst ext sent. unfold Extractor.extract_invoice.
  destruct (str_eqb (lower (snd (splitext file_path))) (py ".xlsx")) eqn:Hext.
  - apply str_eqb_eq in Hext.
    rewrite result_bind, trace_bind, extractor_requests_app.
    unfold Extractor.convert_xlsx_to_csv.
    destruct (Extractor.read_excel_to_csv rt file_path) as [[|c csv]|e].
    + split; [simpl; lia | split; [intros r [] | intros r e []]].
    + cbn [result_of trace_of ret fst snd extractor_requests flat_map app].
      rewrite ask_model_requests, ask_model_result.
      split; [simpl; lia | split].
      * intros r [<-|[]]. left. split; [exact Hext|].
        exists (c :: csv). split; reflexivity.
      * intros r e [<-|[]] ->. reflexivity.
    + split; [simpl; lia | split; [intros r [] | intros r e' []]].
  - rewrite ask_model_requests, ask_model_result.
    split; [simpl; lia | split].
    + intros r [<-|[]]. right. split; [|reflexivity].
      intros H. apply str_eqb_eq in H. congruence.
    + intros r e [<-|[]] ->. reflexivity.
Qed.

Lemma one_request_per_file_witness :
  result_of (Extractor.extract_invoice
               (Examples.extractor_rt (Raises (py "quota exceeded")))
               (py "sorted_invoices/acme/inv-001.pdf")) = None.
Proof.
  refine (proj2 (proj2 (one_request_per_file
            (Examples.extractor_rt (Raises (py "quota exceeded")))
            (py "sorted_invoices/acme/inv-001.pdf")))
          {| Extractor.prompt := Extractor.final_prompt (py ".pdf");
             Extractor.mime_type := Some (py "application/pdf");
             Extractor.data := Extractor.FileBytes [37%N; 80%N; 68%N; 70%N] |}
          (py "quota exceeded") _ _).
  - vm_compute. left. reflexivity.
  - reflexivity.
Defined.

(* ================================================================== *)
(** ** The evaluator: error rows *)
(* ================================================================== *)

(** The rows of a file whose output exists, from the answer of the
    model. *)
Lemma evaluate_file_rows rt file :
  endswith file (py ".json") = true ->
  Evaluator.path_exists rt (join (py "gemini_output") file) = true ->
  Evaluator.appended (trace_of (Evaluator.evaluate_file rt file))
  = match verdict_answer rt file with
    | Raises e => [other_error_row (fst (splitext file)) e]
    | Returns text =>
        match json_loads (Evaluator.cleaned_text text) with
        | None => [invalid_json_row (fst (splitext file)) text]
        | Some v =>
            Evaluator.appended
              (trace_of (Evaluator.report_verdict rt (fst (splitext file)) v))
            ++ match result_of (Evaluator.report_verdict rt (fst (splitext file)) v) with
               | None => []
               | Some e => [other_error_row (fst (splitext file)) (Evaluator.exn_str e)]
               end
        end
    end.
Proof.
  intros He Hp. unfold Evaluator.evaluate_file, verdict_answer. rewrite He, Hp.
  cbn [negb].
  rewrite trace_bind, appended_app. cbv beta.
  rewrite trace_bind, appended_app. cbv beta.
  change (Evaluator.appended (trace_of (Evaluator.print _))) with (@nil Evaluator.row).
  change (Evaluator.appended (trace_of (emit (Evaluator.GenerateContent _))))
    with (@nil Evaluator.row).
  cbn [app].
  destruct (Evaluator.generate_content rt _) as [text|e]; [|reflexivity].
  rewrite trace_bind, appended_app. unfold Evaluator.read_verdict.
  destruct (json_loads (Evaluator.cleaned_text text)) as [v|]; [|reflexivity].
  rewrite trace_bind, result_bind, appended_app.
  destruct (result_of (Evaluator.report_verdict rt (fst (splitext file)) v));
    cbn [result_of ret fst option_map trace_of snd Evaluator.appended];
    rewrite ?app_nil_r; reflexivity.
Qed.



(** X9. When the call of the model raises, and when the answer decodes to
    something that is not a dict, exactly one row is appended, "API or
    other Error": it carries the text of the exception, which for an
    answer that is not a dict says that its type has no attribute
    [get]. *)
Theorem failed_call_and_non_dict_are_reported
    (rt : Evaluator.runtime) (file : pystr) :
  endswith file (py ".json") = true ->
  Evaluator.path_exists rt (join (py "gemini_output") file) = true ->
  (forall e, verdict_answer rt file = Raises e ->
     Evaluator.appended (trace_of (Evaluator.evaluate_file rt file))
     = [other_error_row (fst (splitext file)) e])
  /\ (forall text v,
        verdict_answer rt file = Returns text ->
        json_loads (Evaluator.cleaned_text text) = Some v ->
        ~ is_dict v ->
        Evaluator.appended (trace_of (Evaluator.evaluate_file rt file))
        = [other_error_row (fst (splitext file))
             (py "'" ++ Evaluator.type_name v ++ py "' object has no attribute 'get'")]).
Proof.
  intros He Hp. split.
  - intros e Ha. rewrite (evaluate_file_rows rt file He Hp), Ha. reflexivity.
  - intros text v Ha Hj Hv.
    rewrite (evaluate_file_rows rt file He Hp), Ha, Hj.
    destruct v; try reflexivity. exfalso. apply Hv. exact I.
Qed.

Lemma failed_call_and_non_dict_are_reported_witness :
  Evaluator.appended
    (trace_of (Evaluator.evaluate_file
       (Examples.evaluator_rt true (Raises (py "429 quota exceeded")))
       (py "inv-001.json")))
  = [other_error_row (fst (splitext (py "inv-001.json"))) (py "429 quota exceeded")]
  /\ Evaluator.appended
       (trace_of (Evaluator.evaluate_file
          (Examples.evaluator_rt true (Returns (q "[{'overall_status': 'Pass'}]")))
          (py "inv-001.json")))
     = [other_error_row (fst (splitext (py "inv-001.json")))
                        (py "'list' object has no attribute 'get'")].
Proof.
  split.
  - refine (proj1 (failed_call_and_non_dict_are_reported
              (Examples.evaluator_rt true (Raises (py "429 quota exceeded")))
              (py "inv-001.json") _ _) _ _); reflexivity.
  - refine (proj2 (failed_call_and_non_dict_are_reported
              (Examples.evaluator_rt true (Returns (q "[{'overall_status': 'Pass'}]")))
              (py "inv-001.json") _ _) _ (VList [VDict [(py "overall_status", VStr (py "Pass"))]])
              _ _ _).
    + reflexivity.
    + reflexivity.
    + reflexivity.
    + vm_compute. reflexivity.
    + exact (fun H => H).
Defined.

(* ================================================================== *)
(** ** The evaluator: every file is reported, in rows of five cells *)
(* ================================================================== *)

Lemma report_mismatches_shape (base : pystr) (items : list value) :
  Forall (row_of base)
         (Evaluator.appended (trace_of (Evaluator.report_mismatches base items))).
Proof.
  induction items as [|m items IH]; cbn [Evaluator.report_mismatches];
    [constructor|].
  destruct m; try constructor.
  rewrite trace_bind, appended_app. apply Forall_app. split; [|exact IH].
  repeat constructor.
Qed.

Lemma report_mismatches_progress (base : pystr) (items : list value) :
  items <> [] ->
  result_of (Evaluator.report_mismatches base items) = None ->
  Evaluator.appended (trace_of (Evaluator.report_mismatches base items)) <> [].
Proof.
  destruct items as [|m items]; [contradiction|]. intros _.
  cbn [Evaluator.report_mismatches].
  destruct m; try discriminate.
  intros _. rewrite trace_bind, appended_app. discriminate.
Qed.

Lemma truthy_iterate (v : value) (items : list value) :
  truthy v = true -> Evaluator.iterate v = inr items -> items <> [].
Proof.
  destruct v; simpl; try discriminate.
  - destruct s; [discriminate|]. intros _ [= <-]. discriminate.
  - destruct l; [discriminate|]. intros _ [= <-]. discriminate.
  - destruct d; [discriminate|]. intros _ [= <-]. discriminate.
Qed.

Lemma report_verdict_shape (rt : Evaluator.runtime) (base : pystr) (v : value) :
  Forall (row_of base)
         (Evaluator.appended (trace_of (Evaluator.report_verdict rt base v)))
  /\ (result_of (Evaluator.report_verdict rt base v) = None ->
      Evaluator.appended (trace_of (Evaluator.report_verdict rt base v)) <> []).
Proof.
  unfold Evaluator.report_verdict.
  destruct v as [| | | | | |d]; try (split; [constructor | discriminate]).
  destruct (Evaluator.equals_str _ (py "Pass")).
  { split; [repeat constructor | discriminate]. }
  destruct (Evaluator.equals_str _ (py "Mismatch")).
  - destruct (truthy _) eqn:Ht; cbn [negb].
    + destruct (Evaluator.iterate _) as [e|items] eqn:Hi.
      * split; [constructor | discriminate].
      * split; [apply report_mismatches_shape|].
        apply report_mismatches_progress.
        exact (truthy_iterate _ _ Ht Hi).
    + split; [repeat constructor | discriminate].
  - split; [repeat constructor | discriminate].
Qed.

(** X10. A file of the ground truth whose name does not end in [.json]
    is passed over without a trace. Any other file gets at least one row,
    and each of its rows has five cells, the first being the base name of
    the file: no file is left out of the report, whatever the model
    answers. *)
Theorem every_ground_truth_file_is_reported
    (rt : Evaluator.runtime) (file : pystr) :
  (endswith file (py ".json") = false ->
   trace_of (Evaluator.evaluate_file rt file) = [])
  /\ (endswith file (py ".json") = true ->
      Evaluator.appended (trace_of (Evaluator.evaluate_file rt file)) <> []
      /\ Forall (row_of (fst (splitext file)))
                (Evaluator.appended (trace_of (Evaluator.evaluate_file rt file)))).
Proof.
  split.
  - intros He. unfold Evaluator.evaluate_file. rewrite He. reflexivity.
  - intros He.
    destruct (Evaluator.path_exists rt (join (py "gemini_output") file)) eqn:Hp.
    + rewrite (evaluate_file_rows rt file He Hp).
      destruct (verdict_answer rt file) as [text|e].
      * destruct (json_loads (Evaluator.cleaned_text text)) as [v|].
        -- destruct (report_verdict_shape rt (fst (splitext file)) v) as [Hs Hn].
           destruct (result_of (Evaluator.report_verdict rt (fst (splitext file)) v)).
           ++ split; [intros H; apply app_eq_nil in H; destruct H; discriminate|].
              apply Forall_app. split; [exact Hs | repeat constructor].
           ++ rewrite app_nil_r. split; [apply Hn; reflexivity | exact Hs].
        -- split; [discriminate | repeat constructor].
      * split; [discriminate | repeat constructor].
    + unfold Evaluator.evaluate_file. rewrite He, Hp.
      split; [discriminate | repeat constructor].
Qed.

Lemma every_ground_truth_file_is_reported_witness :
  trace_of (Evaluator.evaluate_file
              (Examples.evaluator_rt true (Returns (py "{}")))
              (py "notes.txt")) = []
  /\ Evaluator.appended
       (trace_of (Evaluator.evaluate_file
                    (Examples.evaluator_rt true (Returns (py "no verdict")))
                    (py "inv-001.json"))) <> [].
Proof.
  split.
  - apply (proj1 (every_ground_truth_file_is_reported
                    (Examples.evaluator_rt true (Returns (py "{}"))) (py "notes.txt"))).
    reflexivity.
  - apply (proj2 (every_ground_truth_file_is_reported
                    (Examples.evaluator_rt true (Returns (py "no verdict")))
                    (py "inv-001.json"))).
    reflexivity.
Defined.

Lemma evaluator_requests_app (a b : list Evaluator.event) :
  evaluator_requests (a ++ b) = evaluator_requests a ++ evaluator_requests b.
Proof. apply flat_map_app. Qed.

Lemma report_mismatches_no_request (base : pystr) (items : list value) :
  evaluator_requests (trace_of (Evaluator.report_mismatches base items)) = [].
Proof.
  induction items as [|m items IH]; cbn [Evaluator.report_mismatches];
    [reflexivity|].
  destruct m; try reflexivity.
  rewrite trace_bind, evaluator_requests_app, IH. reflexivity.
Qed.

Lemma report_verdict_no_request (rt : Evaluator.runtime) (base : pystr) (v : value) :
  evaluator_requests (trace_of (Evaluator.report_verdict rt base v)) = [].
Proof.
  unfold Evaluator.report_verdict.
  destruct v as [| | | | | |d]; try reflexivity.
  destruct (Evaluator.equals_str _ (py "Pass")); [reflexivity|].
  destruct (Evaluator.equals_str _ (py "Mismatch")); [|reflexivity].
  destruct (truthy _); cbn [negb]; [|reflexivity].
  destruct (Evaluator.iterate _); [reflexivity|].
  apply report_mismatches_no_request.
Qed.

(** X11. The model is asked exactly once for a file of the ground truth
    that ends in [.json] and has an output, with the prompt built from the
    two documents, the configured fields and the base name; it is not
    asked for any other file. *)
Theorem model_is_asked_once_per_pair (rt : Evaluator.runtime) (file : pystr) :
  evaluator_requests (trace_of (Evaluator.evaluate_file rt file))
  = if endswith file (py ".json")
       && Evaluator.path_exists rt (join (py "gemini_output") file)
    then [Evaluator.build_prompt
            (Evaluator.json_load rt (join (py "ground_truth") file))
            (Evaluator.json_load rt (join (py "gemini_output") file))
            (Evaluator.deal_breakers rt)
            (fst (splitext file))]
    else [].
Proof.
  unfold Evaluator.evaluate_file.
  destruct (endswith file (py ".json")); [|reflexivity].
  destruct (Evaluator.path_exists rt _); [|reflexivity].
  cbn [negb andb].
  rewrite trace_bind, evaluator_requests_app. cbv beta.
  rewrite trace_bind, evaluator_requests_app. cbv beta.
  change (evaluator_requests (trace_of (Evaluator.print _)))
    with (@nil Evaluator.referee_prompt).
  cbn [app]. cbn [evaluator_requests flat_map trace_of emit snd app].
  f_equal.
  destruct (Evaluator.generate_content rt _) as [text|e]; [|reflexivity].
  rewrite trace_bind, evaluator_requests_app. unfold Evaluator.read_verdict.
  destruct (json_loads (Evaluator.cleaned_text text)) as [v|]; [|reflexivity].
  rewrite trace_bind, result_bind, evaluator_requests_app, report_verdict_no_request.
  destruct (result_of (Evaluator.report_verdict rt (fst (splitext file)) v));
    reflexivity.
Qed.

(* ================================================================== *)
(** ** The evaluator: mismatches that are not a list of objects *)
(* ================================================================== *)

Lemma recovered_verdict_inv rt file v :
  recovered_verdict rt file = Some v ->
  endswith file (py ".json") = true
  /\ Evaluator.path_exists rt (join (py "gemini_output") file) = true
  /\ exists text, verdict_answer rt file = Returns text
                  /\ json_loads (Evaluator.cleaned_text text) = Some v.
Proof.
  unfold recovered_verdict, verdict_answer.
  destruct (endswith file (py ".json")); [|discriminate].
  destruct (Evaluator.path_exists rt _); [|discriminate].
  cbn [andb].
  destruct (Evaluator.generate_content rt _) as [text|e]; [|discriminate].
  intros H. repeat split. exists text. split; [reflexivity | exact H].
Qed.

Lemma evaluate_file_verdict_rows rt file v :
  recovered_verdict rt file = Some v ->
  Evaluator.appended (trace_of (Evaluator.evaluate_file rt file))
  = Evaluator.appended
      (trace_of (Evaluator.report_verdict rt (fst (splitext file)) v))
    ++ match result_of (Evaluator.report_verdict rt (fst (splitext file)) v) with
       | None => []
       | Some e => [other_error_row (fst (splitext file)) (Evaluator.exn_str e)]
       end.
Proof.
  intros H. destruct (recovered_verdict_inv rt file v H) as (He & Hp & text & Ha & Hj).
  rewrite (evaluate_file_rows rt file He Hp), Ha, Hj. reflexivity.
Qed.

Lemma report_mismatches_stops (base : pystr) (good rest : list value) (bad : value) :
  Forall is_dict good -> ~ is_dict bad ->
  Evaluator.report_mismatches base (good ++ bad :: rest)
  = (Some (Evaluator.AttributeError bad),
     map (fun entry => Evaluator.Append (mismatch_row base entry)) good).
Proof.
  intros Hg Hb. induction Hg as [|m good Hm _ IH]; simpl.
  - destruct bad; try reflexivity. exfalso. apply Hb. exact I.
  - destruct m; try contradiction. rewrite IH. reflexivity.
Qed.

Lemma report_verdict_mismatch rt base d :
  status_of d = VStr (py "Mismatch") ->
  Evaluator.report_verdict rt base (VDict d)
  = if negb (truthy (mismatches_of d))
    then (None, [Evaluator.Append (no_detail_row base)])
    else match Evaluator.iterate (mismatches_of d) with
         | inr items => Evaluator.report_mismatches base items
         | inl e => (Some e, [])
         end.
Proof.
  intros Hs. unfold Evaluator.report_verdict.
  fold (status_of d). fold (mismatches_of d). rewrite Hs.
  change (Evaluator.equals_str (VStr (py "Mismatch")) (py "Pass")) with false.
  change (Evaluator.equals_str (VStr (py "Mismatch")) (py "Mismatch")) with true.
  cbv iota. destruct (negb (truthy (mismatches_of d))); reflexivity.
Qed.

(** X12. When an entry of the mismatches is not an object, the rows of
    the entries before it stay in the report, the entries after it are
    dropped, and one "API or other Error" row follows that names the type
    of the entry. *)
Theorem entry_that_is_no_object_ends_the_rows
    (rt : Evaluator.runtime) (file : pystr) (d : list (pystr * value))
    (good rest : list value) (bad : value) :
  recovered_verdict rt file = Some (VDict d) ->
  status_of d = VStr (py "Mismatch") ->
  mismatches_of d = VList (good ++ bad :: rest) ->
  Forall is_dict good ->
  ~ is_dict bad ->
  Evaluator.appended (trace_of (Evaluator.evaluate_file rt file))
  = map (mismatch_row (fst (splitext file))) good
    ++ [other_error_row (fst (splitext file))
          (py "'" ++ Evaluator.type_name bad ++ py "' object has no attribute 'get'")].
Proof.
  intros Hrec Hs Hm Hg Hb.
  rewrite (evaluate_file_verdict_rows rt file _ Hrec).
  rewrite (report_verdict_mismatch rt _ d Hs), Hm.
  replace (negb (truthy (VList (good ++ bad :: rest)))) with false
    by (destruct good; reflexivity).
  cbn [Evaluator.iterate].
  rewrite (report_mismatches_stops _ good rest bad Hg Hb).
  cbn [trace_of result_of fst snd].
  rewrite <- (map_map (mismatch_row (fst (splitext file))) Evaluator.Append).
  rewrite appended_map_append. reflexivity.
Qed.

Lemma entry_that_is_no_object_ends_the_rows_witness :
  Evaluator.appended
    (trace_of (Evaluator.evaluate_file
       (Examples.evaluator_rt true (Returns (q
          "{'overall_status': 'Mismatch', 'mismatches': [{'field': 'total'}, 'due_date', {'field': 'tax'}]}")))
       (py "inv-001.json")))
  = map (mismatch_row (fst (splitext (py "inv-001.json"))))
        [VDict [(py "field", VStr (py "total"))]]
    ++ [other_error_row (fst (splitext (py "inv-001.json")))
          (py "'str' object has no attribute 'get'")].
Proof.
  refine (entry_that_is_no_object_ends_the_rows _ (py "inv-001.json")
            [(py "overall_status", VStr (py "Mismatch"));
             (py "mismatches",
              VList ([VDict [(py "field", VStr (py "total"))]]
                     ++ VStr (py "due_date") :: [VDict [(py "field", VStr (py "tax"))]]))]
            [VDict [(py "field", VStr (py "total"))]]
            [VDict [(py "field", VStr (py "tax"))]]
            (VStr (py "due_date")) _ _ _ _ _).
  - vm_compute. reflexivity.
  - reflexivity.
  - reflexivity.
  - repeat constructor.
  - exact (fun H => H).
Defined.

(** X13. "Mismatch" with mismatches that are true but not a list gives
    one "API or other Error" row and nothing else: a non-empty dict or
    string is gone through and its first item, a string, has no [get]; a
    number or [true] is not iterable. *)
Theorem mismatches_that_are_no_list
    (rt : Evaluator.runtime) (file : pystr) (d : list (pystr * value)) :
  recovered_verdict rt file = Some (VDict d) ->
  status_of d = VStr (py "Mismatch") ->
  truthy (mismatches_of d) = true ->
  (forall l, mismatches_of d <> VList l) ->
  Evaluator.appended (trace_of (Evaluator.evaluate_file rt file))
  = [other_error_row (fst (splitext file))
       match mismatches_of d with
       | VDict _ | VStr _ => py "'str' object has no attribute 'get'"
       | m => py "'" ++ Evaluator.type_name m ++ py "' object is not iterable"
       end].
Proof.
  intros Hrec Hs Ht Hl.
  rewrite (evaluate_file_verdict_rows rt file _ Hrec).
  rewrite (report_verdict_mismatch rt _ d Hs), Ht. cbn [negb].
  destruct (mismatches_of d) as [| | | |s|l|m]; try discriminate Ht; try reflexivity.
  - destruct s; [discriminate Ht | reflexivity].
  - exfalso. exact (Hl l eq_refl).
  - destruct m as [|[k v] m]; [discriminate Ht | reflexivity].
Qed.

Lemma mismatches_that_are_no_list_witness :
  Evaluator.appended
    (trace_of (Evaluator.evaluate_file
       (Examples.evaluator_rt true (Returns (q
          "{'overall_status': 'Mismatch', 'mismatches': 2}")))
       (py "inv-001.json")))
  = [other_error_row (fst (splitext (py "inv-001.json")))
                     (py "'int' object is not iterable")].
Proof.
  refine (mismatches_that_are_no_list _ (py "inv-001.json")
            [(py "overall_status", VStr (py "Mismatch")); (py "mismatches", VInt 2)]
            _ _ _ _).
  - vm_compute. reflexivity.
  - reflexivity.
  - reflexivity.
  - discriminate.
Defined.

(** X14. "Mismatch" with mismatches that are false gives the one row that
    says no detail was given: so it is when the key is absent, and when
    its value is [null], [0], [false], an empty string or an empty
    object. *)
Theorem mismatch_without_list
    (rt : Evaluator.runtime) (file : pystr) (d : list (pystr * value)) :
  recovered_verdict rt file = Some (VDict d) ->
  status_of d = VStr (py "Mismatch") ->
  (truthy (mismatches_of d) = false ->
   Evaluator.appended (trace_of (Evaluator.evaluate_file rt file))
   = [no_detail_row (fst (splitext file))])
  /\ (dict_lookup d (py "mismatches") = None ->
      Evaluator.appended (trace_of (Evaluator.evaluate_file rt file))
      = [no_detail_row (fst (splitext file))]).
Proof.
  intros Hrec Hs.
  assert (H : truthy (mismatches_of d) = false ->
              Evaluator.appended (trace_of (Evaluator.evaluate_file rt file))
              = [no_detail_row (fst (splitext file))]).
  { intros Ht. rewrite (evaluate_file_verdict_rows rt file _ Hrec).
    rewrite (report_verdict_mismatch rt _ d Hs), Ht. reflexivity. }
  split; [exact H|].
  intros Hn. apply H. unfold mismatches_of, Evaluator.get. rewrite Hn. reflexivity.
Qed.

Lemma mismatch_without_list_witness :
  Evaluator.appended
    (trace_of (Evaluator.evaluate_file
       (Examples.evaluator_rt true (Returns (q "{'overall_status': 'Mismatch'}")))
       (py "inv-001.json")))
  = [no_detail_row (fst (splitext (py "inv-001.json")))]
  /\ Evaluator.appended
       (trace_of (Evaluator.evaluate_file
          (Examples.evaluator_rt true
             (Returns (q "{'overall_status': 'Mismatch', 'mismatches': null}")))
          (py "inv-001.json")))
     = [no_detail_row (fst (splitext (py "inv-001.json")))].
Proof.
  split.
  - refine (proj2 (mismatch_without_list _ (py "inv-001.json")
              [(py "overall_status", VStr (py "Mismatch"))] _ _) _).
    + vm_compute. reflexivity.
    + reflexivity.
    + reflexivity.
  - refine (proj1 (mismatch_without_list _ (py "inv-001.json")
              [(py "overall_status", VStr (py "Mismatch")); (py "mismatches", VNone)]
              _ _) _).
    + vm_compute. reflexivity.
    + reflexivity.
    + reflexivity.
Defined.

(* ================================================================== *)
(** ** The cleanup of the evaluator keeps a JSON text *)
(* ================================================================== *)

Lemma isspace_range (c : char) :
  isspace c = true -> (c <= 32 \/ 133 <= c)%N.
Proof.
  unfold isspace.
  repeat rewrite ?orb_true_iff, ?andb_true_iff, ?N.leb_le, ?N.eqb_eq.
  lia.
Qed.

Ltac compare_chars :=
  repeat match goal with
         | |- context [N.eqb ?c ?k] => destruct (N.eqb_spec c k); [lia|]
         | |- context [N.leb ?a ?b] => destruct (N.leb_spec a b)
         | |- context [N.ltb ?a ?b] => destruct (N.ltb_spec a b)
         end;
  try lia; try reflexivity.

Lemma space_no_punctuation (c : char) : isspace c = true -> punctuation c = None.
Proof. intros H. apply isspace_range in H. unfold punctuation. compare_chars. Qed.

Lemma space_no_word_char (c : char) : isspace c = true -> is_word_char c = false.
Proof.
  intros H. apply isspace_range in H. unfold is_word_char, is_digit. compare_chars.
Qed.

Lemma space_no_hex_digit (c : char) : isspace c = true -> hex_digit c = None.
Proof.
  intros H. apply isspace_range in H. unfold hex_digit, is_digit. compare_chars.
Qed.

Lemma space_no_escape (c : char) :
  isspace c = true -> simple_escape c = None /\ N.eqb c 117 = false.
Proof.
  intros H. apply isspace_range in H. unfold simple_escape. split; compare_chars.
Qed.

Lemma space_no_quote (c : char) :
  isspace c = true -> N.eqb c 34 = false /\ N.eqb c 92 = false.
Proof. intros H. apply isspace_range in H. split; compare_chars. Qed.

Lemma space_step_top (c : char) :
  isspace c = true ->
  step_top c = if is_json_ws c then Some ([], LTop) else None.
Proof.
  intros H. unfold step_top.
  rewrite (space_no_punctuation c H), (space_no_word_char c H).
  destruct (space_no_quote c H) as [-> _].
  destruct (is_json_ws c); reflexivity.
Qed.

Lemma in_string_spaces (w : pystr) :
  spaces w -> forall st, in_string st -> lex_from st w = None.
Proof.
  induction 1 as [|c w Hc _ IH]; intros st Hst.
  - destruct st; try contradiction; reflexivity.
  - destruct st as [| |acc hi|acc hi|acc hi k u]; try contradiction; simpl.
    + destruct (space_no_quote c Hc) as [-> ->].
      destruct (N.ltb c 32); [reflexivity|].
      rewrite (IH (LStr (c :: flush hi acc) None) I). reflexivity.
    + destruct (space_no_escape c Hc) as [-> ->]. reflexivity.
    + rewrite (space_no_hex_digit c Hc). reflexivity.
Qed.

Lemma lex_spaces_json (w : pystr) :
  spaces w -> forall st ts, lex_from st w = Some ts -> json_ws w.
Proof.
  induction 1 as [|c w Hc Hw IH]; intros st ts; [constructor|].
  destruct st as [|acc|acc hi|acc hi|acc hi k u].
  - simpl. rewrite (space_step_top c Hc).
    destruct (is_json_ws c) eqn:Hj; [|discriminate].
    rewrite option_map_app_nil. intros H. constructor; [exact Hj | exact (IH _ _ H)].
  - simpl. rewrite (space_no_word_char c Hc), (space_step_top c Hc).
    destruct (word_token acc) as [t|]; [|discriminate].
    destruct (is_json_ws c) eqn:Hj; [|discriminate].
    intros H. apply option_map_app_some in H. destruct H as (r & H & _).
    constructor; [exact Hj | exact (IH _ _ H)].
  - rewrite (in_string_spaces (c :: w)); [discriminate | constructor; assumption | exact I].
  - rewrite (in_string_spaces (c :: w)); [discriminate | constructor; assumption | exact I].
  - rewrite (in_string_spaces (c :: w)); [discriminate | constructor; assumption | exact I].
Qed.

Lemma lex_trailing_spaces (x b : pystr) :
  spaces b -> forall st ts, lex_from st (x ++ b) = Some ts -> json_ws b.
Proof.
  intros Hb. induction x as [|c x IH]; intros st ts; simpl.
  - apply lex_spaces_json, Hb.
  - destruct (step st c) as [[ts0 st']|]; [|discriminate].
    intros H. apply option_map_app_some in H. destruct H as (r & H & _).
    exact (IH _ _ H).
Qed.

Lemma lex_leading_spaces (a s : pystr) (ts : list token) :
  spaces a -> lex_from LTop (a ++ s) = Some ts -> json_ws a.
Proof.
  induction 1 as [|c a Hc _ IH]; [constructor|].
  simpl. rewrite (space_step_top c Hc).
  destruct (is_json_ws c) eqn:Hj; [|discriminate].
  rewrite option_map_app_nil. intros H. constructor; [exact Hj | exact (IH H)].
Qed.

(** Stripping a text that parses leaves a text that parses to the same
    value. *)
Lemma json_loads_strip (j : pystr) (v : value) :
  json_loads j = Some v -> json_loads (strip j) = Some v.
Proof.
  intros H. destruct (strip_split j) as (a & b & Hj & Ha & Hb).
  assert (Hlex : exists ts, lex_from LTop (a ++ strip j ++ b) = Some ts).
  { rewrite <- Hj. unfold json_loads, lex in H.
    destruct (lex_from LTop j) as [ts|]; [eauto | discriminate]. }
  destruct Hlex as [ts Hlex].
  assert (Hwa : json_ws a) by exact (lex_leading_spaces a _ ts Ha Hlex).
  assert (Hwb : json_ws b).
  { rewrite app_assoc in Hlex. exact (lex_trailing_spaces _ b Hb _ _ Hlex). }
  rewrite <- (json_loads_trim a (strip j) b Hwa Hwb), <- Hj. exact H.
Qed.

Lemma lex_backtick_end (s : pystr) :
  forall st, lex_from st (s ++ [96%N]) = None.
Proof.
  induction s as [|c s IH]; intros st.
  - destruct st as [|acc|acc hi|acc hi|acc hi k u]; try reflexivity.
    simpl. destruct (word_token acc); reflexivity.
  - simpl. destruct (step st c) as [[ts st']|]; [|reflexivity].
    rewrite IH. reflexivity.
Qed.

Lemma endswith_split (s p : pystr) :
  endswith s p = true -> exists x, s = x ++ p.
Proof.
  unfold endswith. intros H. apply andb_true_iff in H. destruct H as [_ H].
  apply str_eqb_eq in H.
  exists (firstn (List.length s - List.length p) s).
  transitivity (firstn (List.length s - List.length p) s
                ++ skipn (List.length s - List.length p) s).
  - symmetry. apply firstn_skipn.
  - f_equal. exact H.
Qed.

(** A text that parses neither starts nor ends with a fence. *)
Lemma json_loads_no_fence (j : pystr) (v : value) :
  json_loads j = Some v ->
  removesuffix Evaluator.fence_close (removeprefix Evaluator.fence_open j) = j.
Proof.
  intros H.
  assert (Hp : startswith j Evaluator.fence_open = false).
  { destruct (startswith j Evaluator.fence_open) eqn:Hs; [|reflexivity].
    apply startswith_split in Hs. rewrite Hs in H. discriminate H. }
  assert (Hs : endswith j Evaluator.fence_close = false).
  { destruct (endswith j Evaluator.fence_close) eqn:Hs; [|reflexivity].
    apply endswith_split in Hs. destruct Hs as [x Hx].
    rewrite Hx in H. unfold json_loads, lex in H.
    change Evaluator.fence_close with ([96%N; 96%N] ++ [96%N]) in H.
    rewrite app_assoc, lex_backtick_end in H. discriminate H. }
  unfold removeprefix. rewrite Hp.
  unfold removesuffix, Evaluator.fence_close. cbn [py map list_ascii_of_string].
  unfold Evaluator.fence_close in Hs. cbn [py map list_ascii_of_string] in Hs.
  rewrite Hs. reflexivity.
Qed.

Lemma cleaned_text_keeps_json (j : pystr) (v : value) :
  json_loads j = Some v -> json_loads (Evaluator.cleaned_text j) = Some v.
Proof.
  intros H. unfold Evaluator.cleaned_text.
  apply json_loads_strip in H.
  rewrite (json_loads_no_fence (strip j) v H).
  apply json_loads_strip, H.
Qed.

Lemma rstrip_last_nonspace (x : pystr) (c : char) :
  isspace c = false -> rstrip (x ++ [c]) = x ++ [c].
Proof.
  intros Hc. induction x as [|a x IH]; simpl.
  - rewrite Hc. reflexivity.
  - rewrite IH. destruct (x ++ [c]) eqn:E; [|reflexivity].
    destruct x; discriminate E.
Qed.

Lemma removeprefix_app (p r : pystr) : removeprefix p (p ++ r) = r.
Proof.
  unfold removeprefix.
  assert (H : startswith (p ++ r) p = true).
  { induction p as [|y p IH]; simpl; [destruct r; reflexivity|].
    rewrite N.eqb_refl. exact IH. }
  rewrite H. rewrite skipn_app, skipn_all, Nat.sub_diag. reflexivity.
Qed.

Lemma str_eqb_refl (a : pystr) : str_eqb a a = true.
Proof. apply str_eqb_eq. reflexivity. Qed.

Lemma endswith_app (x p : pystr) : endswith (x ++ p) p = true.
Proof.
  unfold endswith. rewrite length_app.
  replace (List.length x + List.length p - List.length p)%nat with (List.length x) by lia.
  rewrite skipn_app, skipn_all, Nat.sub_diag. simpl.
  rewrite str_eqb_refl. rewrite andb_true_r. apply Nat.leb_le. lia.
Qed.

Lemma removesuffix_app (x p : pystr) : p <> [] -> removesuffix p (x ++ p) = x.
Proof.
  intros Hp. unfold removesuffix. destruct p as [|y p]; [contradiction|].
  rewrite endswith_app, length_app.
  replace (List.length x + List.length (y :: p) - List.length (y :: p))%nat
    with (List.length x) by lia.
  rewrite firstn_app, firstn_all, Nat.sub_diag. simpl. apply app_nil_r.
Qed.

Lemma cleaned_text_of_fence (j : pystr) :
  Evaluator.cleaned_text (wrap_in_fence j) = strip (nl ++ j ++ nl).
Proof.
  unfold Evaluator.cleaned_text, wrap_in_fence.
  assert (Hs : strip (py "```json" ++ nl ++ j ++ nl ++ py "```")
               = Evaluator.fence_open ++ (nl ++ j ++ nl) ++ Evaluator.fence_close).
  { unfold strip.
    change (lstrip (py "```json" ++ nl ++ j ++ nl ++ py "```"))
      with (py "```json" ++ nl ++ j ++ nl ++ py "```").
    replace (py "```json" ++ nl ++ j ++ nl ++ py "```")
      with ((py "```json" ++ nl ++ j ++ nl ++ [96%N; 96%N]) ++ [96%N])
      by (rewrite <- !app_assoc; reflexivity).
    rewrite rstrip_last_nonspace by reflexivity.
    rewrite <- !app_assoc. reflexivity. }
  rewrite Hs, removeprefix_app, removesuffix_app by discriminate.
  reflexivity.
Qed.

(** X15. The evaluator decodes a JSON text given bare, and a JSON text
    given inside a code fence, to the value [json.loads] gives for the
    text itself, whatever whitespace surrounds it. *)
Theorem evaluator_decodes_bare_and_fenced (j : pystr) (v : value) :
  json_loads j = Some v ->
  json_loads (Evaluator.cleaned_text j) = Some v
  /\ json_loads (Evaluator.cleaned_text (wrap_in_fence j)) = Some v.
Proof.
  intros H. split.
  - apply cleaned_text_keeps_json, H.
  - rewrite cleaned_text_of_fence. apply json_loads_strip.
    rewrite (json_loads_trim nl j nl); [exact H | |]; repeat constructor.
Qed.

Lemma evaluator_decodes_bare_and_fenced_witness :
  json_loads (Evaluator.cleaned_text (q "  {'overall_status': 'Pass'}
"))
  = Some (VDict [(py "overall_status", VStr (py "Pass"))]).
Proof.
  apply (proj1 (evaluator_decodes_bare_and_fenced
                  (q "  {'overall_status': 'Pass'}
")
                  (VDict [(py "overall_status", VStr (py "Pass"))]) ltac:(vm_compute; reflexivity))).
Defined.

(* ================================================================== *)
(** ** The order of the report *)
(* ================================================================== *)

Lemma str_leb_total (a b : pystr) : str_leb a b = false -> str_leb b a = true.
Proof.
  revert b. induction a as [|x a IH]; intros [|y b]; simpl; try discriminate;
    try reflexivity.
  rewrite orb_false_iff, andb_false_iff, N.ltb_ge. intros [Hlt Hor].
  apply orb_true_iff.
  destruct (N.eqb_spec x y) as [->|Hne].
  - right. rewrite N.eqb_refl. simpl.
    destruct Hor as [Hor|Hor]; [discriminate | apply IH, Hor].
  - left. apply N.ltb_lt. lia.
Qed.

Lemma insert_sorted_perm (x : pystr) (l : list pystr) :
  Permutation (insert_sorted x l) (x :: l).
Proof.
  induction l as [|y l IH]; simpl; [apply Permutation_refl|].
  destruct (str_leb x y); [apply Permutation_refl|].
  apply perm_trans with (y :: x :: l); [apply perm_skip, IH | apply perm_swap].
Qed.

Lemma insert_sorted_sorted (x : pystr) (l : list pystr) :
  Sorted (fun a b => str_leb a b = true) l ->
  Sorted (fun a b => str_leb a b = true) (insert_sorted x l).
Proof.
  induction 1 as [|y l Hs IH Hh]; simpl.
  - repeat constructor.
  - destruct (str_leb x y) eqn:Hxy.
    + constructor; [constructor; assumption | constructor; exact Hxy].
    + constructor; [exact IH|].
      destruct l as [|z l]; simpl.
      * constructor. apply str_leb_total, Hxy.
      * destruct (str_leb x z).
        -- constructor. apply str_leb_total, Hxy.
        -- inversion Hh; subst. constructor. assumption.
Qed.

Lemma appended_flat_map {A} (f : A -> list Evaluator.event) (l : list A) :
  Evaluator.appended (flat_map f l)
  = flat_map (fun x => Evaluator.appended (f x)) l.
Proof.
  induction l as [|x l IH]; simpl; [reflexivity|].
  rewrite appended_app, IH. reflexivity.
Qed.

Lemma sorted_perm (l : list pystr) : Permutation (sorted l) l.
Proof.
  induction l as [|x l IH]; simpl.
  - constructor.
  - apply perm_trans with (x :: sorted l);
      [apply insert_sorted_perm | apply perm_skip, IH].
Qed.

Lemma sorted_is_sorted (l : list pystr) :
  Sorted (fun a b => str_leb a b = true) (sorted l).
Proof.
  induction l as [|x l IH]; simpl.
  - constructor.
  - apply insert_sorted_sorted, IH.
Qed.

(** X16. The rows of the report are grouped by file, and the files come
    in ascending order of their names, by code points, each file of the
    listing once, whatever order the listing of the directory has. *)
Theorem report_follows_the_sorted_names (rt : Evaluator.runtime) :
  let files := sorted (Evaluator.listdir rt (py "ground_truth")) in
  Evaluator.results rt
  = flat_map (fun file =>
                Evaluator.appended (trace_of (Evaluator.evaluate_file rt file)))
             files
  /\ Permutation files (Evaluator.listdir rt (py "ground_truth"))
  /\ Sorted (fun a b => str_leb a b = true) files.
Proof.
  intros files. subst files. split; [|split].
  - unfold Evaluator.results, Evaluator.loop.
    rewrite trace_for_each. apply appended_flat_map.
  - apply sorted_perm.
  - apply sorted_is_sorted.
Qed.

(* ================================================================== *)
(** ** From the name of a source file to the name in the report *)
(* ================================================================== *)

Lemma rfind_from_absent (c : char) (s : pystr) :
  ~ In c s -> forall i, rfind_from i c s = (-1)%Z.
Proof.
  induction s as [|x s IH]; intros Hc i; simpl; [reflexivity|].
  rewrite IH by (intros H; apply Hc; right; exact H).
  simpl. destruct (N.eqb_spec x c) as [->|_]; [|reflexivity].
  exfalso. apply Hc. left. reflexivity.
Qed.

Lemma rfind_from_last (c : char) (a b : pystr) :
  ~ In c b -> forall i, (0 <= i)%Z ->
  rfind_from i c (a ++ c :: b) = (i + Z.of_nat (List.length a))%Z.
Proof.
  intros Hb. induction a as [|x a IH]; intros i Hi; simpl.
  - rewrite (rfind_from_absent c b Hb). simpl. rewrite N.eqb_refl. lia.
  - rewrite IH by lia.
    destruct (Z.leb_spec 0 (i + 1 + Z.of_nat (List.length a))); lia.
Qed.

Lemma splitext_json (base : pystr) :
  ~ In slash base -> has_non_dot base = true ->
  splitext (base ++ py ".json") = (base, py ".json").
Proof.
  intros Hs Hd. unfold splitext, rfind.
  rewrite (rfind_from_absent slash (base ++ py ".json")).
  2:{ intros H. apply in_app_or in H. destruct H as [H|H]; [exact (Hs H)|].
      simpl in H. unfold slash in H.
      repeat (destruct H as [H|H]; [discriminate H|]). exact H. }
  change (py ".json") with (dot :: py "json").
  rewrite (rfind_from_last dot base (py "json")).
  2:{ intros H. simpl in H. unfold dot in H.
      repeat (destruct H as [H|H]; [discriminate H|]). exact H. }
  2:{ lia. }
  replace (-1 <? 0 + Z.of_nat (List.length base))%Z with true
    by (symmetry; apply Z.ltb_lt; lia).
  replace (Z.to_nat (-1 + 1)) with 0%nat by reflexivity.
  replace (Z.to_nat (0 + Z.of_nat (List.length base))) with (List.length base) by lia.
  rewrite firstn_app, firstn_all, Nat.sub_diag. simpl firstn. rewrite app_nil_r.
  simpl skipn at 1. fold (has_non_dot base). rewrite Hd.
  rewrite skipn_app, skipn_all, Nat.sub_diag. reflexivity.
Qed.

Lemma splitext_fst_in (c : char) (p : pystr) :
  In c (fst (splitext p)) -> In c p.
Proof.
  unfold splitext.
  destruct (_ <? _)%Z; [|exact (fun H => H)].
  destruct (existsb _ _); [|exact (fun H => H)].
  simpl. intros H. rewrite <- (firstn_skipn (Z.to_nat (rfind dot p)) p).
  apply in_or_app. left. exact H.
Qed.

(** X17. The JSON file that the extractor writes for a source file is
    the file the evaluator looks for when the ground truth has a file of
    that name, and the evaluator reports it under the base name of the
    source file: for a file name without a slash whose base name is not
    made of dots alone. *)
Theorem output_is_reported_under_the_base_name (file : pystr) :
  ~ In slash file ->
  has_non_dot (fst (splitext file)) = true ->
  let json_name := fst (splitext file) ++ py ".json" in
  join Extractor.output_dir json_name = join (py "gemini_output") json_name
  /\ endswith json_name (py ".json") = true
  /\ fst (splitext json_name) = fst (splitext file).
Proof.
  intros Hs Hd json_name. subst json_name. split; [reflexivity|]. split.
  - apply endswith_app.
  - rewrite splitext_json; [reflexivity | | exact Hd].
    intros H. apply Hs. exact (splitext_fst_in slash file H).
Qed.

Lemma output_is_reported_under_the_base_name_witness :
  fst (splitext (fst (splitext (py "inv.2024-01.PDF")) ++ py ".json"))
  = fst (splitext (py "inv.2024-01.PDF")).
Proof.
  refine (proj2 (proj2 (output_is_reported_under_the_base_name
                          (py "inv.2024-01.PDF") _ _))).
  - simpl. unfold slash. intros H.
    repeat (destruct H as [H|H]; [discriminate H|]). exact H.
  - reflexivity.
Defined.

Example name_of_dots_is_not_kept :
  fst (splitext (fst (splitext (py "...")) ++ py ".json")) = py "....json".
Proof. reflexivity. Qed.

(* ================================================================== *)
(** ** The router *)
(* ================================================================== *)

Lemma router_moves_app (a b : list Router.event) :
  router_moves (a ++ b) = router_moves a ++ router_moves b.
Proof. apply flat_map_app. Qed.

Lemma router_requests_app (a b : list Router.event) :
  router_requests (a ++ b) = router_requests a ++ router_requests b.
Proof. apply flat_map_app. Qed.

Lemma ask_seller_run rt file_path mime content :
  Router.ask_seller rt file_path mime content
  = (match Router.generate_content rt file_path
             {| Extractor.prompt := Router.seller_prompt;
                Extractor.mime_type := mime; Extractor.data := content |} with
     | Returns text =>
         inl match strip text with [] => Router.Unknown | seller => seller end
     | Raises e => inr e
     end,
     [Router.GenerateContent
        {| Extractor.prompt := Router.seller_prompt;
           Extractor.mime_type := mime; Extractor.data := content |}]).
Proof.
  unfold Router.ask_seller.
  destruct (Router.generate_content rt file_path _) as [text|e]; [|reflexivity].
  destruct (strip text); reflexivity.
Qed.

Lemma extract_seller_name_no_move rt file_path :
  router_moves (trace_of (Router.extract_seller_name rt file_path)) = [].
Proof.
  unfold Router.extract_seller_name.
  destruct (str_eqb _ _).
  - rewrite trace_bind, router_moves_app. unfold Router.convert_xlsx_to_csv.
    destruct (Router.read_excel_to_csv rt file_path) as [[|c csv]|e];
      try reflexivity.
    cbn [result_of ret fst]. rewrite ask_seller_run. reflexivity.
  - destruct (Router.open_read rt file_path); [|reflexivity].
    rewrite ask_seller_run. reflexivity.
Qed.

Lemma extract_seller_name_nonempty rt file_path seller :
  result_of (Router.extract_seller_name rt file_path) = inl seller -> seller <> [].
Proof.
  assert (Hask : forall mime content,
             result_of (Router.ask_seller rt file_path mime content) = inl seller ->
             seller <> []).
  { intros mime content. rewrite ask_seller_run. cbn [result_of fst].
    destruct (Router.generate_content rt file_path _) as [text|e]; [|discriminate].
    destruct (strip text); intros [= <-]; discriminate. }
  unfold Router.extract_seller_name.
  destruct (str_eqb _ _).
  - rewrite result_bind. unfold Router.convert_xlsx_to_csv.
    destruct (Router.read_excel_to_csv rt file_path) as [[|c csv]|e];
      cbn [result_of ret fst];
      try (intros [= <-]; discriminate).
    apply Hask.
  - destruct (Router.open_read rt file_path); [apply Hask | discriminate].
Qed.

Lemma route_file_moves rt file :
  router_moves (trace_of (Router.route_file rt file))
  = [(join Router.input_dir file,
      match result_of (Router.extract_seller_name rt (join Router.input_dir file)) with
      | inl seller => join (join Extractor.sorted_dir seller) file
      | inr _ => join Extractor.error_dir file
      end)].
Proof.
  unfold Router.route_file. rewrite trace_bind, router_moves_app.
  rewrite extract_seller_name_no_move.
  destruct (result_of (Router.extract_seller_name rt (join Router.input_dir file)));
    reflexivity.
Qed.

Lemma lstrip_spaces (w : pystr) : spaces w -> lstrip w = [].
Proof.
  induction 1 as [|c w Hc _ IH]; simpl; [reflexivity|]. rewrite Hc. exact IH.
Qed.

(** X19. A file goes to the folder [Unknown] when the answer of the model
    is empty or only whitespace, and when the file is a spreadsheet that
    cannot be read or has an empty CSV text; in that second case the
    model is not asked. *)
Theorem unknown_seller (rt : Router.runtime) (file : pystr) :
  let path := join Router.input_dir file in
  let unknown := [(path, join (join Extractor.sorted_dir Router.Unknown) file)] in
  (forall content text,
      lower (snd (splitext path)) <> py ".xlsx" ->
      Router.open_read rt path = Router.Bytes content ->
      Router.generate_content rt path
        {| Extractor.prompt := Router.seller_prompt;
           Extractor.mime_type := Router.guess_type rt path;
           Extractor.data := Extractor.FileBytes content |} = Returns text ->
      spaces text ->
      router_moves (trace_of (Router.route_file rt file)) = unknown)
  /\ (lower (snd (splitext path)) = py ".xlsx" ->
      (Router.read_excel_to_csv rt path = Returns []
       \/ exists e, Router.read_excel_to_csv rt path = Raises e) ->
      router_moves (trace_of (Router.route_file rt file)) = unknown
      /\ router_requests (trace_of (Router.route_file rt file)) = []).
Proof.
  intros path unknown. subst unknown. split.
  - intros content text Hext Hopen Hgen Hsp.
    rewrite route_file_moves. fold path.
    unfold Router.extract_seller_name.
    destruct (str_eqb (lower (snd (splitext path))) (py ".xlsx")) eqn:He.
    { apply str_eqb_eq in He. contradiction. }
    rewrite Hopen, ask_seller_run, Hgen. cbn [result_of fst].
    unfold strip. rewrite (lstrip_spaces text Hsp). reflexivity.
  - intros Hext Hcsv. split.
    + rewrite route_file_moves. fold path.
      unfold Router.extract_seller_name. rewrite Hext.
      change (str_eqb (py ".xlsx") (py ".xlsx")) with true. cbv iota.
      rewrite result_bind. unfold Router.convert_xlsx_to_csv.
      destruct Hcsv as [-> | [e ->]]; reflexivity.
    + unfold Router.route_file. fold path.
      rewrite trace_bind, router_requests_app.
      unfold Router.extract_seller_name. rewrite Hext.
      change (str_eqb (py ".xlsx") (py ".xlsx")) with true. cbv iota.
      rewrite result_bind, trace_bind, router_requests_app.
      unfold Router.convert_xlsx_to_csv.
      destruct Hcsv as [-> | [e ->]]; reflexivity.
Qed.

Lemma unknown_seller_witness :
  router_moves (trace_of (Router.route_file
                            (RouterExamples.router_rt (Returns (py "  
 ")))
                            (py "inv-001.pdf")))
  = [(py "input_invoices/inv-001.pdf", py "sorted_invoices/Unknown/inv-001.pdf")]
  /\ router_requests (trace_of (Router.route_file
                                  (RouterExamples.spreadsheet_rt (Raises (py "corrupt")))
                                  (py "inv-002.xlsx"))) = [].
Proof.
  split.
  - refine (proj1 (unknown_seller (RouterExamples.router_rt (Returns (py "  
 ")))
                     (py "inv-001.pdf")) [37%N; 80%N; 68%N; 70%N] (py "  
 ") _ _ _ _).
    + vm_compute. discriminate.
    + reflexivity.
    + reflexivity.
    + repeat constructor.
  - refine (proj2 (proj2 (unknown_seller
                            (RouterExamples.spreadsheet_rt (Raises (py "corrupt")))
                            (py "inv-002.xlsx")) _ _)).
    + reflexivity.
    + right. exists (py "corrupt"). reflexivity.
Defined.

(** X20. When the file cannot be read, and when the call of the model
    raises, the router prints the error and moves the file to
    [error_invoices]; no vendor folder is made for it. *)
Theorem failure_goes_to_the_error_folder (rt : Router.runtime) (file : pystr) :
  let path := join Router.input_dir file in
  lower (snd (splitext path)) <> py ".xlsx" ->
  (forall e, Router.open_read rt path = Router.ReadError e ->
     trace_of (Router.route_file rt file)
     = [Router.Print (Extractor.cross_mark ++ py " Error with " ++ file ++ py ": " ++ e);
        Router.Move path (join Extractor.error_dir file)])
  /\ (forall content e,
        Router.open_read rt path = Router.Bytes content ->
        Router.generate_content rt path
          {| Extractor.prompt := Router.seller_prompt;
             Extractor.mime_type := Router.guess_type rt path;
             Extractor.data := Extractor.FileBytes content |} = Raises e ->
        trace_of (Router.route_file rt file)
        = [Router.GenerateContent
             {| Extractor.prompt := Router.seller_prompt;
                Extractor.mime_type := Router.guess_type rt path;
                Extractor.data := Extractor.FileBytes content |};
           Router.Print (Extractor.cross_mark ++ py " Error with " ++ file ++ py ": " ++ e);
           Router.Move path (join Extractor.error_dir file)]).
Proof.
  intros path Hext.
  assert (He : str_eqb (lower (snd (splitext path))) (py ".xlsx") = false).
  { destruct (str_eqb _ _) eqn:E; [|reflexivity].
    apply str_eqb_eq in E. contradiction. }
  split.
  - intros e Hopen. unfold Router.route_file. fold path.
    unfold Router.extract_seller_name. rewrite He, Hopen. reflexivity.
  - intros content e Hopen Hgen. unfold Router.route_file. fold path.
    unfold Router.extract_seller_name. rewrite He, Hopen, ask_seller_run, Hgen.
    reflexivity.
Qed.

Lemma failure_goes_to_the_error_folder_witness :
  router_moves (trace_of (Router.route_file
                            (RouterExamples.router_rt (Raises (py "503")))
                            (py "inv-001.pdf")))
  = [(py "input_invoices/inv-001.pdf", py "error_invoices/inv-001.pdf")].
Proof.
  rewrite (proj2 (failure_goes_to_the_error_folder
                    (RouterExamples.router_rt (Raises (py "503")))
                    (py "inv-001.pdf") ltac:(vm_compute; discriminate))
             [37%N; 80%N; 68%N; 70%N] (py "503") eq_refl eq_refl).
  reflexivity.
Defined.

Lemma join_relative (a b : pystr) :
  a <> [] -> startswith b [slash] = false ->
  join a b = a ++ (if endswith a [slash] then [] else [slash]) ++ b.
Proof.
  intros Ha Hb. unfold join. rewrite Hb.
  destruct a; [contradiction|].
  destruct (endswith _ _); reflexivity.
Qed.

(** X21. Where a routed file lands is decided by the text of the seller.
    A seller that does not start with a slash gives a destination that is
    [sorted_invoices/], the seller, a slash unless the seller ends with
    one, and the name of the file. A seller that starts with a slash
    replaces the folder: the destination is then outside of
    [sorted_invoices]. *)
Theorem destination_of_a_seller (seller file : pystr) :
  startswith file [slash] = false ->
  (startswith seller [slash] = false ->
   join (join Extractor.sorted_dir seller) file
   = py "sorted_invoices/" ++ seller
     ++ (if endswith (py "sorted_invoices/" ++ seller) [slash] then [] else [slash])
     ++ file)
  /\ (startswith seller [slash] = true ->
      join (join Extractor.sorted_dir seller) file
      = seller ++ (if endswith seller [slash] then [] else [slash]) ++ file).
Proof.
  intros Hf. split; intros Hs.
  - assert (Ht : join Extractor.sorted_dir seller = py "sorted_invoices/" ++ seller).
    { unfold join. rewrite Hs. reflexivity. }
    rewrite Ht, join_relative; [|discriminate | exact Hf].
    rewrite <- app_assoc. reflexivity.
  - assert (Ht : join Extractor.sorted_dir seller = seller).
    { unfold join. rewrite Hs. reflexivity. }
    rewrite Ht. apply join_relative; [|exact Hf].
    intros ->. discriminate Hs.
Qed.

Lemma destination_of_a_seller_witness :
  join (join Extractor.sorted_dir (py "Acme Corp")) (py "inv-001.pdf")
  = py "sorted_invoices/Acme Corp/inv-001.pdf"
  /\ join (join Extractor.sorted_dir (py "/tmp/x")) (py "inv-001.pdf")
     = py "/tmp/x/inv-001.pdf".
Proof.
  split.
  - rewrite (proj1 (destination_of_a_seller (py "Acme Corp") (py "inv-001.pdf") eq_refl)
               eq_refl).
    reflexivity.
  - rewrite (proj2 (destination_of_a_seller (py "/tmp/x") (py "inv-001.pdf") eq_refl)
               eq_refl).
    reflexivity.
Defined.


(* ================================================================== *)
(** ** [json.loads] within the limits of the interpreter *)
(* ================================================================== *)

Lemma pstep_const_accepts st a st' :
  pstep st (TConst a) = Some st' -> Raising.accepts_value st = true.
Proof.
  destruct st as [stk|stk|stk|stk done|stk done k|stk v]; simpl;
    try discriminate; try reflexivity.
  destruct stk as [|[done|done k] stk]; discriminate.
Qed.

Lemma refines_cons d tokens st t st' :
  pstep st t = Some st' ->
  refines d tokens st' ->
  refines d (option_map (cons t) tokens) st.
Proof.
  intros Hstep. destruct d as [v| |e]; simpl; [| |trivial].
  - intros (ts & -> & Hp). exists (t :: ts). split; [reflexivity|].
    simpl. rewrite Hstep. exact Hp.
  - intros H ts Hts. destruct tokens as [ts'|]; [|discriminate].
    injection Hts as <-. simpl. rewrite Hstep. apply H. reflexivity.
Qed.

Lemma option_map_app_cons (t : token) ts (o : option (list token)) :
  option_map (app (t :: ts)) o = option_map (cons t) (option_map (app ts) o).
Proof. destruct o; reflexivity. Qed.

Lemma decode_tokens python ts rest tokens :
  (forall st, refines (Raising.decode_from python st rest) tokens st) ->
  forall st,
    refines (Raising.decode_from python st (map Raising.Tok ts ++ rest))
            (option_map (app ts) tokens) st.
Proof.
  intros Hrest. induction ts as [|t ts IH]; intros st.
  - simpl. destruct tokens; apply Hrest.
  - rewrite option_map_app_cons. cbn [map app Raising.decode_from].
    destruct (Raising.opens t && Raising.accepts_value st
              && (Raising.recursion_budget python <=? Raising.nesting st)%nat);
      [exact I|].
    destruct (pstep st t) as [st'|] eqn:Hstep.
    + apply (refines_cons _ _ _ _ _ Hstep), IH.
    + simpl. intros ts' Hts.
      destruct (option_map (app ts) tokens) as [x|]; [|discriminate].
      injection Hts as <-. simpl. rewrite Hstep. reflexivity.
Qed.

Lemma decode_end python st :
  refines (Raising.decode_from python st []) (Some []) st.
Proof.
  destruct st as [stk|stk|stk|stk done|stk done k|stk v]; simpl;
    try (intros ts [= <-]; reflexivity).
  destruct stk as [|f stk]; simpl.
  - exists []. split; reflexivity.
  - intros ts [= <-]. reflexivity.
Qed.

Lemma decode_bad python st rest :
  refines (Raising.decode_from python st (Raising.Bad :: rest)) None st.
Proof. simpl. intros ts. discriminate. Qed.

(** The token of a word against the token of the lexer. *)
Lemma decode_word python acc st rest tokens :
  (forall st', refines (Raising.decode_from python st' rest) tokens st') ->
  refines (Raising.decode_from python st (Raising.word_ltoken python acc :: rest))
          (match word_token acc with
           | Some t => option_map (cons t) tokens
           | None => None
           end) st.
Proof.
  intros Hrest. unfold word_token.
  assert (Hconst :
    refines (Raising.decode_from python st
               (match constant (rev acc) with
                | Some a => Raising.Tok (TConst a)
                | None => Raising.Bad
                end :: rest))
            (match option_map TConst (constant (rev acc)) with
             | Some t => option_map (cons t) tokens
             | None => None
             end) st).
  { destruct (constant (rev acc)) as [a|]; simpl option_map.
    - cbn [Raising.decode_from Raising.opens andb].
      destruct (pstep st (TConst a)) as [st'|] eqn:Hstep.
      + apply (refines_cons _ _ _ _ _ Hstep), Hrest.
      + simpl. intros ts Hts. destruct tokens as [x|]; [|discriminate].
        injection Hts as <-. simpl. rewrite Hstep. reflexivity.
    - apply decode_bad. }
  unfold Raising.word_ltoken.
  destruct (Raising.integer_digits (rev acc)) as [n|]; [|exact Hconst].
  destruct (Raising.too_long python n); [|exact Hconst].
  cbn [Raising.decode_from].
  destruct (Raising.accepts_value st) eqn:Hacc; [exact I|].
  simpl. intros ts Hts.
  destruct (constant (rev acc)) as [a|]; [|discriminate].
  simpl in Hts. destruct tokens as [x|]; [|discriminate].
  injection Hts as <-. simpl.
  destruct (pstep st (TConst a)) as [st'|] eqn:Hstep; [|reflexivity].
  apply pstep_const_accepts in Hstep. congruence.
Qed.

Lemma scan_refines python s :
  forall lst st,
    refines (Raising.decode_from python st (Raising.scan_from python lst s))
            (lex_from lst s) st.
Proof.
  induction s as [|c s IH]; intros lst st.
  - destruct lst as [|acc|acc hi|acc hi|acc hi k u];
      try (apply decode_bad).
    + apply decode_end.
    + cbn [Raising.scan_from lex_from finish].
      pose proof (decode_word python acc st [] (Some []) (decode_end python)) as H.
      destruct (word_token acc); exact H.
  - cbn [Raising.scan_from lex_from].
    assert (Hother : forall lst',
      refines (Raising.decode_from python st
                 (match step lst' c with
                  | Some (ts, st') => map Raising.Tok ts ++ Raising.scan_from python st' s
                  | None => [] ++ [Raising.Bad]
                  end))
              (match step lst' c with
               | Some (ts, st') => option_map (app ts) (lex_from st' s)
               | None => None
               end) st).
    { intros lst'. destruct (step lst' c) as [[ts st']|].
      - apply decode_tokens. intros st0. apply IH.
      - apply decode_bad. }
    destruct lst as [|acc|acc hi|acc hi|acc hi k u].
    + specialize (Hother LTop).
      unfold Raising.scan_step. destruct (step LTop c) as [[ts st']|]; exact Hother.
    + unfold Raising.scan_step. cbn [step].
      destruct (is_word_char c).
      * apply (decode_tokens python [] _ _ (fun st0 => IH (LWord (c :: acc)) st0)).
      * destruct (step_top c) as [[ts st']|].
        -- cbn [app].
           pose proof (decode_word python acc st
                         (map Raising.Tok ts ++ Raising.scan_from python st' s)
                         (option_map (app ts) (lex_from st' s))
                         (decode_tokens python ts _ _ (fun st0 => IH st' st0))) as H.
           destruct (word_token acc) as [t|]; [|exact H].
           rewrite option_map_app_cons. exact H.
        -- cbn [app].
           pose proof (decode_word python acc st [Raising.Bad] None
                         (fun st0 => decode_bad python st0 [])) as H.
           destruct (word_token acc); exact H.
    + specialize (Hother (LStr acc hi)).
      unfold Raising.scan_step.
      destruct (step (LStr acc hi) c) as [[ts st']|]; exact Hother.
    + specialize (Hother (LEsc acc hi)).
      unfold Raising.scan_step.
      destruct (step (LEsc acc hi) c) as [[ts st']|]; exact Hother.
    + specialize (Hother (LHex acc hi k u)).
      unfold Raising.scan_step.
      destruct (step (LHex acc hi k u) c) as [[ts st']|]; exact Hother.
Qed.

Lemma loads_refines python s :
  refines (Raising.loads python s) (lex s) (AwaitValue []).
Proof. apply scan_refines. Qed.

(** The exceptions of the recogniser, and where they come from. *)
Lemma decode_raise python ts :
  forall st e,
    Raising.decode_from python st ts = Raising.Raise e ->
    (exists n, e = Raising.ValueError n /\ In (Raising.TooLong n) ts)
    \/ ((exists array, e = Raising.RecursionError array)
        /\ (Raising.recursion_budget python < Raising.nesting st + List.length ts)%nat).
Proof.
  induction ts as [|[t|n|] ts IH]; intros st e; cbn [Raising.decode_from].
  - destruct st as [stk|stk|stk|stk done|stk done k|[|f stk] v]; discriminate.
  - destruct (Raising.opens t && Raising.accepts_value st
              && (Raising.recursion_budget python <=? Raising.nesting st)%nat) eqn:Hopen.
    + intros [= <-]. right. split; [eexists; reflexivity|].
      apply andb_prop in Hopen as [_ Hle]. apply Nat.leb_le in Hle.
      simpl List.length. lia.
    + destruct (pstep st t) as [st'|] eqn:Hstep; [|discriminate].
      intros H. apply IH in H as [(n & -> & Hin) | [Hrec Hlt]].
      * left. exists n. split; [reflexivity | right; exact Hin].
      * right. split; [exact Hrec|].
        assert (Hn : (Raising.nesting st' <= S (Raising.nesting st))%nat).
        { clear - Hstep.
          destruct st as [stk|stk|stk|stk done|stk done k|stk v];
            destruct t; simpl in Hstep; try discriminate;
            try (injection Hstep as <-; simpl; lia);
            destruct stk as [|[done'|done' k'] stk]; try discriminate;
            injection Hstep as <-; simpl; lia. }
        simpl List.length. lia.
  - destruct (Raising.accepts_value st); [|discriminate].
    intros [= <-]. left. exists n. split; [reflexivity | left; reflexivity].
  - discriminate.
Qed.

Lemma word_ltoken_too_long python acc n :
  Raising.word_ltoken python acc = Raising.TooLong n ->
  Raising.too_long python n = true.
Proof.
  unfold Raising.word_ltoken.
  destruct (Raising.integer_digits (rev acc)) as [m|].
  - destruct (Raising.too_long python m) eqn:Hm.
    + intros [= <-]. exact Hm.
    + destruct (constant (rev acc)); discriminate.
  - destruct (constant (rev acc)); discriminate.
Qed.

Lemma scan_step_shape python lst c :
  forall ts next, Raising.scan_step python lst c = (ts, next) ->
    (List.length ts <= 2)%nat
    /\ forall n, In (Raising.TooLong n) ts -> Raising.too_long python n = true.
Proof.
  intros ts next. unfold Raising.scan_step.
  assert (Htop : forall c0 ts0 st0, step_top c0 = Some (ts0, st0) ->
                                    (List.length ts0 <= 1)%nat).
  { intros c0 ts0 st0. unfold step_top.
    destruct (is_json_ws c0); [intros [= <- _]; simpl; lia|].
    destruct (punctuation c0); [intros [= <- _]; simpl; lia|].
    destruct (c0 =? 34)%N; [intros [= <- _]; simpl; lia|].
    destruct (is_word_char c0); [intros [= <- _]; simpl; lia | discriminate]. }
  assert (Htok : forall ts0 n, ~ In (Raising.TooLong n) (map Raising.Tok ts0)).
  { intros ts0 n Hin. apply in_map_iff in Hin as (t & Ht & _). discriminate. }
  assert (Hstep : forall lst0 ts0 st0, step lst0 c = Some (ts0, st0) ->
                                       (List.length ts0 <= 2)%nat).
  { intros lst0 ts0 st0.
    destruct lst0 as [|acc|acc hi|acc hi|acc hi k u]; cbn [step].
    - intros H. apply Htop in H. lia.
    - destruct (is_word_char c); [intros [= <- _]; simpl; lia|].
      destruct (word_token acc); [|discriminate].
      destruct (step_top c) as [[ts1 st1]|] eqn:Hc; [|discriminate].
      intros [= <- _]. apply Htop in Hc. simpl. lia.
    - destruct (c =? 34)%N; [intros [= <- _]; simpl; lia|].
      destruct (c =? 92)%N; [intros [= <- _]; simpl; lia|].
      destruct (c <? 32)%N; [discriminate | intros [= <- _]; simpl; lia].
    - destruct (c =? 117)%N; [intros [= <- _]; simpl; lia|].
      destruct (simple_escape c); [intros [= <- _]; simpl; lia | discriminate].
    - destruct (hex_digit c); [|discriminate].
      destruct k; intros [= <- _]; simpl; lia. }
  assert (Hother : forall lst0,
    match step lst0 c with
    | Some (ts0, st') => (map Raising.Tok ts0, Some st')
    | None => ([], None)
    end = (ts, next) ->
    (List.length ts <= 2)%nat
    /\ forall n, In (Raising.TooLong n) ts -> Raising.too_long python n = true).
  { intros lst0. destruct (step lst0 c) as [[ts0 st0]|] eqn:Hs.
    - intros [= <- _]. rewrite length_map. split; [exact (Hstep _ _ _ Hs)|].
      intros n Hin. destruct (Htok _ _ Hin).
    - intros [= <- _]. split; [simpl; lia | intros n []]. }
  destruct lst as [|acc|acc hi|acc hi|acc hi k u]; try apply Hother.
  destruct (is_word_char c); [intros [= <- _]; split; [simpl; lia | intros n []]|].
  destruct (step_top c) as [[ts1 st1]|] eqn:Hc.
  - intros [= <- _]. split.
    + apply Htop in Hc. simpl. rewrite length_map. lia.
    + intros n [Hw|Hin]; [exact (word_ltoken_too_long _ _ _ Hw)|].
      destruct (Htok _ _ Hin).
  - intros [= <- _]. split; [simpl; lia|].
    intros n [Hw|[]]. exact (word_ltoken_too_long _ _ _ Hw).
Qed.

Lemma scan_from_shape python s :
  forall lst,
    (List.length (Raising.scan_from python lst s) <= 2 * List.length s + 1)%nat
    /\ forall n, In (Raising.TooLong n) (Raising.scan_from python lst s) ->
                 Raising.too_long python n = true.
Proof.
  induction s as [|c s IH]; intros lst.
  - destruct lst as [|acc|acc hi|acc hi|acc hi k u]; simpl;
      (split; [lia|]); intros n H.
    + destruct H.
    + destruct H as [H|[]]. exact (word_ltoken_too_long _ _ _ H).
    + destruct H as [H|[]]. discriminate H.
    + destruct H as [H|[]]. discriminate H.
    + destruct H as [H|[]]. discriminate H.
  - cbn [Raising.scan_from].
    destruct (Raising.scan_step python lst c) as [ts next] eqn:Hs.
    apply scan_step_shape in Hs as [Hlen Hlong].
    assert (Hrest :
      (List.length (match next with
                    | Some st' => Raising.scan_from python st' s
                    | None => [Raising.Bad]
                    end) <= 2 * List.length s + 1)%nat
      /\ forall n, In (Raising.TooLong n)
                      (match next with
                       | Some st' => Raising.scan_from python st' s
                       | None => [Raising.Bad]
                       end) -> Raising.too_long python n = true).
    { destruct next as [st'|]; [apply IH|].
      split; [simpl; lia|]. intros n [H|[]]. discriminate H. }
    destruct Hrest as [Hl Ht]. split.
    + rewrite length_app. simpl List.length. lia.
    + intros n Hin. apply in_app_or in Hin as [Hin|Hin]; auto.
Qed.

Lemma loads_cases python s :
  match Raising.loads python s with
  | Raising.Loaded v => json_loads s = Some v
  | Raising.JSONDecodeError => json_loads s = None
  | Raising.Raise e =>
      (exists n, e = Raising.ValueError n /\ Raising.too_long python n = true)
      \/ ((exists array, e = Raising.RecursionError array)
          /\ (Raising.recursion_budget python < 2 * List.length s + 1)%nat)
  end.
Proof.
  pose proof (loads_refines python s) as H. unfold json_loads, parse.
  destruct (Raising.loads python s) as [v| |e] eqn:Hl; simpl in H.
  - destruct H as (ts & -> & Hp). exact Hp.
  - destruct (lex s) as [ts|]; [apply H|]; reflexivity.
  - unfold Raising.loads in Hl.
    pose proof (scan_from_shape python s LTop) as [Hlen Hlong].
    apply decode_raise in Hl as [(n & -> & Hin) | [Hrec Hlt]].
    + left. exists n. split; [reflexivity | exact (Hlong _ Hin)].
    + right. split; [exact Hrec|]. simpl in Hlt. lia.
Qed.

(** X23. [json.loads] of an interpreter against the decoder without
    limits: when it returns, [json_loads] gives the same value; when it
    raises [json.JSONDecodeError], [json_loads] refuses the text; and the
    other exceptions it raises are a [ValueError] for an integer the
    interpreter finds too long, and a [RecursionError]. *)
Theorem loads_within_the_limits (python : Raising.interpreter) (s : pystr) :
  match Raising.loads python s with
  | Raising.Loaded v => json_loads s = Some v
  | Raising.JSONDecodeError => json_loads s = None
  | Raising.Raise e =>
      (exists n, e = Raising.ValueError n /\ Raising.too_long python n = true)
      \/ exists array, e = Raising.RecursionError array
  end.
Proof.
  pose proof (loads_cases python s) as H.
  destruct (Raising.loads python s) as [v| |e]; try exact H.
  destruct H as [H|[H _]]; [left | right]; exact H.
Qed.

(** X24. An interpreter without a limit on the digits of an integer, and
    with room for more containers than the text can open, decodes as
    [json_loads] does. *)
Theorem loads_without_limits (python : Raising.interpreter) (s : pystr) :
  Raising.int_max_str_digits python = 0%nat ->
  (2 * List.length s + 1 <= Raising.recursion_budget python)%nat ->
  Raising.loads python s
  = match json_loads s with
    | Some v => Raising.Loaded v
    | None => Raising.JSONDecodeError
    end.
Proof.
  intros Hmax Hbudget. pose proof (loads_cases python s) as H.
  destruct (Raising.loads python s) as [v| |e].
  - rewrite H. reflexivity.
  - rewrite H. reflexivity.
  - destruct H as [(n & _ & Hlong) | [_ Hlt]].
    + unfold Raising.too_long in Hlong. rewrite Hmax in Hlong.
      rewrite andb_false_r in Hlong. discriminate.
    + lia.
Qed.

Lemma loads_without_limits_witness :
  let python := {| Raising.int_max_str_digits := 0;
                   Raising.recursion_budget := 100;
                   Raising.text_of := fun _ => [] |} in
  Raising.loads python (RaisingExamples.long_integer 8)
  = Raising.Loaded (VDict [(py "total", VInt 99999999)]).
Proof.
  intros python.
  rewrite (loads_without_limits python (RaisingExamples.long_integer 8)).
  - vm_compute. reflexivity.
  - reflexivity.
  - vm_compute. lia.
Defined.

Lemma extract_json_done python text r :
  result_of (Raising.extract_json python text) = Raising.Done r ->
  Extractor.extract_json text = (r, trace_of (Raising.extract_json python text)).
Proof.
  unfold Raising.extract_json, Extractor.extract_json.
  destruct (Extractor.re_search text) as [group|].
  - pose proof (loads_cases python group) as H.
    destruct (Raising.loads python group) as [v| |e]; simpl.
    + intros [= <-]. rewrite H. reflexivity.
    + intros [= <-]. rewrite H. reflexivity.
    + discriminate.
  - simpl. intros [= <-]. reflexivity.
Qed.

(* ================================================================== *)
(** ** JSON recovery: the failures that are handled *)
(* ================================================================== *)

(** C1, as the code has it. [extract_json] returns [None], without
    raising, exactly when the text has no brace span and when
    [json.loads] raises [json.JSONDecodeError] on the span, the one
    exception it catches. Both failures give the same [None]; they are
    told apart only by the line that is printed. Any other exception of
    [json.loads] leaves [extract_json]. *)
Theorem extract_json_failure_kinds (python : Raising.interpreter) (text : pystr) :
  (result_of (Raising.extract_json python text) = Raising.Done None
   <-> Extractor.re_search text = None
       \/ exists group, Extractor.re_search text = Some group
                        /\ Raising.loads python group = Raising.JSONDecodeError)
  /\ (Extractor.re_search text = None ->
      Raising.extract_json python text
      = (Raising.Done None, [Extractor.Print no_block_line]))
  /\ (forall group,
        Extractor.re_search text = Some group ->
        Raising.loads python group = Raising.JSONDecodeError ->
        Raising.extract_json python text
        = (Raising.Done None, [Extractor.Print still_failed_line]))
  /\ (forall group e,
        Extractor.re_search text = Some group ->
        Raising.loads python group = Raising.Raise e ->
        Raising.extract_json python text = (Raising.Raised e, []))
  /\ no_block_line <> still_failed_line.
Proof.
  unfold Raising.extract_json.
  split; [|split; [|split; [|split]]].
  - destruct (Extractor.re_search text) as [group|].
    + destruct (Raising.loads python group) as [v| |e] eqn:Hl; simpl; split.
      * discriminate.
      * intros [H | (g & [= <-] & H)]; [discriminate | congruence].
      * intros _. right. exists group. split; [reflexivity | exact Hl].
      * reflexivity.
      * discriminate.
      * intros [H | (g & [= <-] & H)]; [discriminate | congruence].
    + split; [left|]; reflexivity.
  - intros ->. reflexivity.
  - intros group -> ->. reflexivity.
  - intros group e -> ->. reflexivity.
  - discriminate.
Qed.

Lemma extract_json_failure_kinds_witness :
  Raising.extract_json RaisingExamples.python (py "no json here")
    = (Raising.Done None, [Extractor.Print no_block_line])
  /\ Raising.extract_json RaisingExamples.python (py "{invalid json}")
    = (Raising.Done None, [Extractor.Print still_failed_line])
  /\ Raising.extract_json RaisingExamples.python
       (py "Here: " ++ RaisingExamples.long_integer 4301)
    = (Raising.Raised (Raising.ValueError 4301), []).
Proof.
  split; [|split].
  - apply (proj1 (proj2 (extract_json_failure_kinds
                           RaisingExamples.python (py "no json here")))).
    reflexivity.
  - apply (proj1 (proj2 (proj2 (extract_json_failure_kinds
                                  RaisingExamples.python (py "{invalid json}"))))
             (py "{invalid json}")); vm_compute; reflexivity.
  - apply (proj1 (proj2 (proj2 (proj2 (extract_json_failure_kinds
             RaisingExamples.python
             (py "Here: " ++ RaisingExamples.long_integer 4301)))))
             (RaisingExamples.long_integer 4301)); vm_compute; reflexivity.
Defined.

(* ================================================================== *)
(** ** Loops that an exception may leave *)
(* ================================================================== *)

Section RaisingTraces.

Context {E : Type}.







End RaisingTraces.

(* ================================================================== *)
(** ** The extractor: a run that an exception may end *)
(* ================================================================== *)















(** C3 at a vendor folder that holds a folder [sub] and an invoice
    [z.pdf]: [open] raises on [sub] outside every [try], the exception
    leaves [run_extractor], and neither of the two entries of the batch
    has a disposition. *)
Theorem run_extractor_stops_at_a_folder :
  batch RaisingExamples.subfolder_rt
  = [(py "sorted_invoices/acme", py "sub"); (py "sorted_invoices/acme", py "z.pdf")]
  /\ Raising.run_extractor RaisingExamples.subfolder_rt RaisingExamples.subfolder_sys
     = (Raising.Raised (Raising.OSError RaisingExamples.is_a_directory),
        [Extractor.MakeDirs (py "gemini_output");
         Extractor.MakeDirs (py "error_invoices");
         Extractor.Print (Extractor.magnifier ++ py " Extracting from: sub")])
  /\ dispositions (trace_of (Raising.run_extractor RaisingExamples.subfolder_rt
                                                   RaisingExamples.subfolder_sys))
     = [].
Proof. repeat split. Qed.

(** X25. An entry that is no spreadsheet and cannot be opened: [open]
    raises before the model is asked, nothing catches the exception, and
    the body of the loop is left after its first line. *)
Theorem unopened_file_is_not_handled
    (rt : Extractor.runtime) (sys : Raising.system)
    (folder_path file message : pystr) :
  lower (snd (splitext (join folder_path file))) <> py ".xlsx" ->
  Raising.open_error sys (join folder_path file) = Some message ->
  Raising.extract_invoice rt sys (join folder_path file)
  = (Raising.Raised (Raising.OSError message), [])
  /\ Raising.process_file rt sys folder_path file
     = (Raising.Raised (Raising.OSError message),
        [Extractor.Print (Extractor.magnifier ++ py " Extracting from: " ++ file)]).
Proof.
  intros Hext Hopen.
  assert (He : str_eqb (lower (snd (splitext (join folder_path file)))) (py ".xlsx")
               = false).
  { destruct (str_eqb _ _) eqn:E; [|reflexivity].
    apply str_eqb_eq in E. contradiction. }
  assert (Hinv : Raising.extract_invoice rt sys (join folder_path file)
                 = (Raising.Raised (Raising.OSError message), [])).
  { unfold Raising.extract_invoice. rewrite He, Hopen. reflexivity. }
  split; [exact Hinv|].
  unfold Raising.process_file. rewrite Hinv. reflexivity.
Qed.

Lemma unopened_file_is_not_handled_witness :
  Raising.process_file RaisingExamples.subfolder_rt RaisingExamples.subfolder_sys
                       (py "sorted_invoices/acme") (py "sub")
  = (Raising.Raised (Raising.OSError RaisingExamples.is_a_directory),
     [Extractor.Print (Extractor.magnifier ++ py " Extracting from: sub")]).
Proof.
  apply (proj2 (unopened_file_is_not_handled
                  RaisingExamples.subfolder_rt RaisingExamples.subfolder_sys
                  (py "sorted_invoices/acme") (py "sub")
                  RaisingExamples.is_a_directory
                  ltac:(vm_compute; discriminate) eq_refl)).
Defined.

(** X26. An exception of [json.loads] that [extract_json] lets through
    is caught by [extract_invoice]: the file counts as failed, a line
    with the text of the exception is printed, and the file is moved to
    the error folder. *)
Theorem uncaught_decoding_error_fails_the_file
    (rt : Extractor.runtime) (sys : Raising.system)
    (folder_path file text group : pystr) (e : Raising.exn) :
  let file_path := join folder_path file in
  let ext := lower (snd (splitext file_path)) in
  let req := {| Extractor.prompt := Extractor.final_prompt ext;
                Extractor.mime_type := Extractor.guess_type rt file_path;
                Extractor.data :=
                  Extractor.FileBytes (Extractor.read_bytes rt file_path) |} in
  ext <> py ".xlsx" ->
  Raising.open_error sys file_path = None ->
  Extractor.generate_content rt file_path req = Returns text ->
  Extractor.re_search text = Some group ->
  Raising.loads (Raising.python sys) group = Raising.Raise e ->
  Raising.move_error sys file_path (join Extractor.error_dir file) = None ->
  Raising.extract_invoice rt sys file_path
  = (Raising.Done None,
     [Extractor.GenerateContent req;
      Extractor.Print (Extractor.cross_mark ++ py " Gemini API Error for "
                       ++ file_path ++ py ": " ++ Raising.str (Raising.python sys) e)])
  /\ dispositions (trace_of (Raising.process_file rt sys folder_path file))
     = [Extractor.Move file_path (join Extractor.error_dir file)].
Proof.
  intros file_path ext req Hext Hopen Hgen Hspan Hload Hmove.
  assert (He : str_eqb ext (py ".xlsx") = false).
  { destruct (str_eqb _ _) eqn:E; [|reflexivity].
    apply str_eqb_eq in E. contradiction. }
  assert (Hinv : Raising.extract_invoice rt sys file_path
                 = (Raising.Done None,
                    [Extractor.GenerateContent req;
                     Extractor.Print (Extractor.cross_mark ++ py " Gemini API Error for "
                                      ++ file_path ++ py ": "
                                      ++ Raising.str (Raising.python sys) e)])).
  { unfold Raising.extract_invoice. fold file_path. fold ext.
    rewrite He, Hopen. unfold Raising.ask_model. fold req. rewrite Hgen.
    unfold Raising.extract_json. rewrite Hspan, Hload. reflexivity. }
  split; [exact Hinv|].
  unfold Raising.process_file. fold file_path. rewrite Hinv.
  cbn [IO.bind Raising.bind Extractor.print emit]. rewrite Hmove. reflexivity.
Qed.

Lemma uncaught_decoding_error_fails_the_file_witness :
  let rt := Examples.extractor_rt
              (Returns (py "Here: " ++ RaisingExamples.long_integer 4301)) in
  result_of (Raising.extract_invoice rt RaisingExamples.sound
                                     (py "sorted_invoices/acme/inv-001.pdf"))
  = Raising.Done None
  /\ dispositions (trace_of (Raising.process_file rt RaisingExamples.sound
                               (py "sorted_invoices/acme") (py "inv-001.pdf")))
     = [Extractor.Move (py "sorted_invoices/acme/inv-001.pdf")
                       (py "error_invoices/inv-001.pdf")].
Proof.
  intros rt.
  pose proof (uncaught_decoding_error_fails_the_file
                rt RaisingExamples.sound
                (py "sorted_invoices/acme") (py "inv-001.pdf")
                (py "Here: " ++ RaisingExamples.long_integer 4301)
                (RaisingExamples.long_integer 4301)
                (Raising.ValueError 4301)
                ltac:(vm_compute; discriminate) eq_refl eq_refl
                ltac:(vm_compute; reflexivity) ltac:(vm_compute; reflexivity)
                eq_refl) as [H1 H2].
  split; [exact (f_equal fst H1) | exact H2].
Defined.

(* ================================================================== *)
(** ** The router: a run that an exception may end *)
(* ================================================================== *)

Lemma raising_ask_seller_run rt file_path mime content :
  Raising.ask_seller rt file_path mime content
  = (match Router.generate_content rt file_path
             {| Extractor.prompt := Router.seller_prompt;
                Extractor.mime_type := mime; Extractor.data := content |} with
     | Returns text =>
         Raising.Done match strip text with [] => Router.Unknown | seller => seller end
     | Raises e => Raising.Raised (Raising.ModelError e)
     end,
     [Router.GenerateContent
        {| Extractor.prompt := Router.seller_prompt;
           Extractor.mime_type := mime; Extractor.data := content |}]).
Proof.
  unfold Raising.ask_seller.
  destruct (Router.generate_content rt file_path _) as [text|e]; [|reflexivity].
  destruct (strip text); reflexivity.
Qed.







(** X22. For a readable file that is not a spreadsheet, when the model
    answers a text that is not only whitespace, the folder of the file is
    the answer without the whitespace around it. When that folder can be
    made and the file can be moved into it, the router asks once, makes
    the folder, moves the file and prints the move. When the folder
    cannot be made, the exception is caught: the error line is printed
    and the file is moved to [error_invoices], if that move succeeds. *)
Theorem seller_folder_is_the_stripped_answer
    (rt : Router.runtime) (sys : Raising.system)
    (file : pystr) (content : list N) (text : pystr) :
  let path := join Router.input_dir file in
  let req := {| Extractor.prompt := Router.seller_prompt;
                Extractor.mime_type := Router.guess_type rt path;
                Extractor.data := Extractor.FileBytes content |} in
  let target := join Extractor.sorted_dir (strip text) in
  lower (snd (splitext path)) <> py ".xlsx" ->
  Router.open_read rt path = Router.Bytes content ->
  Router.generate_content rt path req = Returns text ->
  strip text <> [] ->
  (Raising.makedirs_error sys target = None ->
   Raising.move_error sys path (join target file) = None ->
   Raising.route_file rt sys file
   = (Raising.Done tt,
      [Router.GenerateContent req;
       Router.MakeDirs target;
       Router.Move path (join target file);
       Router.Print (Extractor.check_mark ++ py " Moved " ++ file
                     ++ py " to " ++ target)]))
  /\ (forall m,
        Raising.makedirs_error sys target = Some m ->
        Raising.move_error sys path (join Extractor.error_dir file) = None ->
        Raising.route_file rt sys file
        = (Raising.Done tt,
           [Router.GenerateContent req;
            Router.Print (Extractor.cross_mark ++ py " Error with " ++ file
                          ++ py ": " ++ m);
            Router.Move path (join Extractor.error_dir file)])).
Proof.
  intros path req target Hext Hopen Hgen Hne.
  assert (He : str_eqb (lower (snd (splitext path))) (py ".xlsx") = false).
  { destruct (str_eqb _ _) eqn:E; [|reflexivity].
    apply str_eqb_eq in E. contradiction. }
  assert (Hseller : Raising.extract_seller_name rt path
                    = (Raising.Done (strip text), [Router.GenerateContent req])).
  { unfold Raising.extract_seller_name. rewrite He, Hopen, raising_ask_seller_run.
    fold req. rewrite Hgen.
    destruct (strip text) as [|c s]; [contradiction | reflexivity]. }
  split.
  - intros Hmk Hmv.
    unfold Raising.route_file, Raising.move_to_seller. fold path.
    rewrite Hseller. cbn [Raising.bind]. fold target. rewrite Hmk, Hmv. reflexivity.
  - intros m Hmk Hmv.
    unfold Raising.route_file, Raising.move_to_seller. fold path.
    rewrite Hseller. cbn [Raising.bind]. fold target. rewrite Hmk.
    cbn [Raising.attempt ret Raising.bind IO.bind app]. rewrite Hmv. reflexivity.
Qed.

Lemma seller_folder_is_the_stripped_answer_witness :
  let rt := RouterExamples.router_rt (Returns (py " Acme Corp
")) in
  router_moves (trace_of (Raising.route_file rt RaisingExamples.sound
                                             (py "inv-001.pdf")))
  = [(py "input_invoices/inv-001.pdf", py "sorted_invoices/Acme Corp/inv-001.pdf")]
  /\ router_moves (trace_of (Raising.route_file rt RaisingExamples.read_only
                                                (py "inv-001.pdf")))
     = [(py "input_invoices/inv-001.pdf", py "error_invoices/inv-001.pdf")].
Proof.
  intros rt. split.
  - rewrite (proj1 (seller_folder_is_the_stripped_answer
               rt RaisingExamples.sound
               (py "inv-001.pdf") [37%N; 80%N; 68%N; 70%N] (py " Acme Corp
")
               ltac:(vm_compute; discriminate) eq_refl eq_refl
               ltac:(vm_compute; discriminate)) eq_refl eq_refl).
    reflexivity.
  - rewrite (proj2 (seller_folder_is_the_stripped_answer
               rt RaisingExamples.read_only
               (py "inv-001.pdf") [37%N; 80%N; 68%N; 70%N] (py " Acme Corp
")
               ltac:(vm_compute; discriminate) eq_refl eq_refl
               ltac:(vm_compute; discriminate)) _ eq_refl eq_refl).
    reflexivity.
Defined.

(** X27. The move of the handler of [route_files] is not inside a
    [try]: when the [try] was left by an exception and the move into
    [error_invoices] raises, for instance because that folder does not
    exist, the error line has been printed, the file is not moved, and
    the exception of the move leaves the loop. *)
Theorem handler_move_is_not_caught
    (rt : Router.runtime) (sys : Raising.system) (file m : pystr)
    (e : Raising.exn) (t : list Router.event) :
  let path := join Router.input_dir file in
  Raising.move_to_seller rt sys file = (Raising.Raised e, t) ->
  Raising.move_error sys path (join Extractor.error_dir file) = Some m ->
  Raising.route_file rt sys file
  = (Raising.Raised (Raising.OSError m),
     t ++ [Router.Print (Extractor.cross_mark ++ py " Error with " ++ file
                         ++ py ": " ++ Raising.str (Raising.python sys) e)]).
Proof.
  intros path Htry Hmove. unfold Raising.route_file. fold path.
  rewrite Htry, Hmove. reflexivity.
Qed.

Lemma handler_move_is_not_caught_witness :
  let rt := RouterExamples.router_rt (Raises (py "quota exceeded")) in
  Raising.route_files rt RaisingExamples.no_error_folder
  = (Raising.Raised
       (Raising.OSError
          (RaisingExamples.no_such_file (py "error_invoices/inv-001.pdf"))),
     [Router.GenerateContent
        {| Extractor.prompt := Router.seller_prompt;
           Extractor.mime_type := Some (py "application/pdf");
           Extractor.data := Extractor.FileBytes [37%N; 80%N; 68%N; 70%N] |};
      Router.Print (Extractor.cross_mark
                    ++ py " Error with inv-001.pdf: quota exceeded")]).
Proof.
  intros rt.
  pose proof (handler_move_is_not_caught
                rt RaisingExamples.no_error_folder (py "inv-001.pdf")
                (RaisingExamples.no_such_file (py "error_invoices/inv-001.pdf"))
                (Raising.ModelError (py "quota exceeded"))
                [Router.GenerateContent
                   {| Extractor.prompt := Router.seller_prompt;
                      Extractor.mime_type := Some (py "application/pdf");
                      Extractor.data :=
                        Extractor.FileBytes [37%N; 80%N; 68%N; 70%N] |}]
                eq_refl eq_refl) as H.
  unfold Raising.route_files. cbn [RaisingExamples.no_error_folder
                                   Raising.listdir_error].
  change (Router.listdir rt Router.input_dir) with [py "inv-001.pdf"].
  cbn [Raising.for_each]. rewrite H. reflexivity.
Defined.

(* ================================================================== *)
(** ** The two parts agree when nothing fails *)
(* ================================================================== *)

(** The answers of the model to a request stay within the limits of the
    interpreter: [json.loads] does not raise on their brace span, other
    than [json.JSONDecodeError]. *)
Lemma raising_ask_model_agrees rt python file_path ext mime file_data :
  (forall text group e,
      Extractor.generate_content rt file_path
        {| Extractor.prompt := Extractor.final_prompt ext;
           Extractor.mime_type := mime;
           Extractor.data := file_data |} = Returns text ->
      Extractor.re_search text = Some group ->
      Raising.loads python group <> Raising.Raise e) ->
  Raising.ask_model rt python file_path ext mime file_data
  = Extractor.ask_model rt file_path ext mime file_data.
Proof.
  intros Hlim. unfold Raising.ask_model, Extractor.ask_model.
  destruct (Extractor.generate_content rt file_path _) as [text|e] eqn:Hgen;
    [|reflexivity].
  assert (Hdone : exists r,
             result_of (Raising.extract_json python text) = Raising.Done r).
  { unfold Raising.extract_json.
    destruct (Extractor.re_search text) as [group|] eqn:Hs; [|eexists; reflexivity].
    specialize (Hlim text group).
    destruct (Raising.loads python group) as [v| |e]; try (eexists; reflexivity).
    destruct (Hlim e eq_refl Hs eq_refl). }
  destruct Hdone as (r & Hr).
  rewrite (extract_json_done python text r Hr).
  destruct (Raising.extract_json python text) as [r' t].
  cbn [result_of fst] in Hr. subst r'.
  cbn [IO.bind emit ret trace_of snd]. rewrite app_nil_r. reflexivity.
Qed.

(** X28. When the file can be opened, the text of a spreadsheet can be
    encoded, the answer of the model stays within the limits of the
    interpreter, and the document can be written or the file moved,
    nothing is raised while a file is processed, and what is returned,
    printed, written and moved is what [extract_invoice] and the body of
    the loop of [run_extractor] do without exceptions. *)
Theorem file_is_processed_as_without_exceptions
    (rt : Extractor.runtime) (sys : Raising.system) (folder_path file : pystr) :
  let file_path := join folder_path file in
  Raising.open_error sys file_path = None ->
  (forall csv, Extractor.read_excel_to_csv rt file_path = Returns csv ->
               Raising.has_surrogate csv = false) ->
  (forall req text group e,
      Extractor.generate_content rt file_path req = Returns text ->
      Extractor.re_search text = Some group ->
      Raising.loads (Raising.python sys) group <> Raising.Raise e) ->
  (forall p doc, Raising.dump_error sys p doc = None) ->
  Raising.move_error sys file_path (join Extractor.error_dir file) = None ->
  Raising.extract_invoice rt sys file_path
  = (Raising.Done (result_of (Extractor.extract_invoice rt file_path)),
     trace_of (Extractor.extract_invoice rt file_path))
  /\ Raising.process_file rt sys folder_path file
     = (Raising.Done tt, trace_of (Extractor.process_file rt folder_path file)).
Proof.
  intros file_path Hopen Hcsv Hlim Hdump Hmove.
  assert (Hask : forall ext mime file_data,
    Raising.ask_model rt (Raising.python sys) file_path ext mime file_data
    = Extractor.ask_model rt file_path ext mime file_data).
  { intros ext mime file_data. apply raising_ask_model_agrees.
    intros text group e. apply Hlim. }
  assert (Hinv : Raising.extract_invoice rt sys file_path
                 = (Raising.Done (result_of (Extractor.extract_invoice rt file_path)),
                    trace_of (Extractor.extract_invoice rt file_path))).
  { unfold Raising.extract_invoice, Extractor.extract_invoice.
    destruct (str_eqb _ _).
    - unfold Extractor.convert_xlsx_to_csv.
      destruct (Extractor.read_excel_to_csv rt file_path) as [[|c csv]|e] eqn:Hx;
        try reflexivity.
      cbn [IO.bind ret]. rewrite (Hcsv _ eq_refl), Hask.
      destruct (Extractor.ask_model rt file_path _ _ _) as [r t].
      cbn. rewrite app_nil_r. reflexivity.
    - rewrite Hopen, Hask.
      destruct (Extractor.ask_model rt file_path _ _ _) as [r t].
      cbn. rewrite app_nil_r. reflexivity. }
  split; [exact Hinv|].
  unfold Raising.process_file, Extractor.process_file. fold file_path.
  rewrite Hinv.
  destruct (Extractor.extract_invoice rt file_path) as [json_data t].
  cbn [result_of trace_of fst snd IO.bind Raising.bind Extractor.print emit].
  destruct json_data as [doc|]; [destruct (truthy doc)|];
    rewrite ?Hdump, ?Hmove; cbn; rewrite ?app_nil_r; reflexivity.
Qed.

Lemma file_is_processed_as_without_exceptions_witness :
  let rt := Examples.extractor_rt (Returns (py "Here you go: {}")) in
  Raising.process_file rt RaisingExamples.sound
                       (py "sorted_invoices/acme") (py "inv-001.pdf")
  = (Raising.Done tt,
     trace_of (Extractor.process_file rt (py "sorted_invoices/acme")
                                      (py "inv-001.pdf"))).
Proof.
  intros rt.
  apply (proj2 (file_is_processed_as_without_exceptions
                  rt RaisingExamples.sound
                  (py "sorted_invoices/acme") (py "inv-001.pdf")
                  eq_refl
                  ltac:(intros csv H; discriminate H)
                  ltac:(intros req text group e [= <-] [= <-];
                        vm_compute; discriminate)
                  ltac:(intros p doc; reflexivity)
                  eq_refl)).
Defined.
